(** * ALK-VisDock: a shallow embedding of the build pipeline and its helpers

    The development follows the Python package [alk_visdock]:
    - [PyStr]      the [str] methods the package relies on;
    - [Path]       the [pathlib] operations the package relies on;
    - [Py]         Python values, truthiness, [str()], exceptions;
    - [Models]     [models.py]   (the [Ligand] dataclass and [to_dict]);
    - [Io]         [utils/io.py] ([read_ligands_csv_tsv]);
    - [Vina]       [docking/vina.py];
    - [SwissDock]  [docking/swissdock.py];
    - [Build]      [build.py];
    - [Main]       [__main__.py] ([_build_cmd]);
    - [Examples]   concrete worlds and inputs on which the definitions run.

    Text is modelled by Rocq's [string]: a sequence of code points below
    256, one [ascii] per code point (the Latin-1 range of Python's [str]).
    Calls that leave the process (HTTP requests, sub-processes, the file
    system, RDKit) are answered by an explicit environment record, so that
    every statement below quantifies over all the answers the outside
    world may give. *)

From stdpp Require Import base strings list gmap pretty.
From Stdlib Require Import ZArith NArith QArith Ascii String.

Set Warnings "-register-all".
Local Open Scope Z_scope.

(* ================================================================== *)
(** ** Python's [str] methods *)
(* ================================================================== *)

Module PyStr.

Definition code (c : ascii) : N := N_of_ascii c.

Definition between (lo hi : N) (c : ascii) : bool :=
  ((lo <=? code c) && (code c <=? hi))%N.

(** [str.isspace] on one character: TAB, LF, VT, FF, CR, the four
    separators FS, GS, RS, US, the space, NEL and the no-break space. *)
Definition isspace (c : ascii) : bool :=
  between 9 13 c || between 28 32 c
  || (code c =? 133)%N || (code c =? 160)%N.

(** [str.lower] on one character: A-Z, and the Latin-1 capitals
    (all of 192-222 except the multiplication sign 215). *)
Definition lower_char (c : ascii) : ascii :=
  if between 65 90 c || between 192 214 c || between 216 222 c
  then ascii_of_N (code c + 32) else c.

Fixpoint lower (s : string) : string :=
  match s with
  | EmptyString => EmptyString
  | String c r => String (lower_char c) (lower r)
  end.

(** Truthiness of a [str]: non-empty. *)
Definition nonempty (s : string) : bool :=
  match s with EmptyString => false | String _ _ => true end.

Fixpoint lstrip (s : string) : string :=
  match s with
  | EmptyString => EmptyString
  | String c r => if isspace c then lstrip r else s
  end.

Fixpoint rstrip (s : string) : string :=
  match s with
  | EmptyString => EmptyString
  | String c r =>
      let r' := rstrip r in
      if negb (nonempty r') && isspace c then EmptyString else String c r'
  end.

Definition strip (s : string) : string := rstrip (lstrip s).

(** [s.startswith(p)] *)
Fixpoint startswith (s p : string) : bool :=
  match p, s with
  | EmptyString, _ => true
  | String _ _, EmptyString => false
  | String a p', String b s' =>
      if Ascii.eqb a b then startswith s' p' else false
  end.

(** [sub in s] *)
Fixpoint contains (sub s : string) : bool :=
  startswith s sub
  || match s with
     | EmptyString => false
     | String _ r => contains sub r
     end.

(** The slice [s[:n]]. *)
Fixpoint take (n : nat) (s : string) : string :=
  match n, s with
  | O, _ => EmptyString
  | _, EmptyString => EmptyString
  | S n', String c r => String c (take n' r)
  end.

(** [sep.join(l)] *)
Fixpoint join (sep : string) (l : list string) : string :=
  match l with
  | [] => EmptyString
  | [x] => x
  | x :: rest => x +:+ sep +:+ join sep rest
  end.

(** [s.split(sep)] for a one-character separator: the pieces between
    the occurrences of [sep], empty pieces included. *)
Fixpoint split_go (sep : ascii) (cur : string) (s : string) : list string :=
  match s with
  | EmptyString => [String.rev cur]
  | String c r =>
      if Ascii.eqb c sep
      then String.rev cur :: split_go sep EmptyString r
      else split_go sep (String c cur) r
  end.
Definition split (sep : ascii) (s : string) : list string :=
  split_go sep EmptyString s.

(** [s.split()]: the maximal runs of non-space characters. *)
Fixpoint split_ws_go (cur : option string) (s : string) : list string :=
  match s with
  | EmptyString => option_list (String.rev <$> cur)
  | String c r =>
      if isspace c
      then option_list (String.rev <$> cur) ++ split_ws_go None r
      else split_ws_go
             (Some (String c (default EmptyString cur))) r
  end.
Definition split_ws (s : string) : list string := split_ws_go None s.

(** The characters of a string, for statements about "every character". *)
Definition chars (s : string) : list ascii := list_ascii_of_string s.

End PyStr.

(* ================================================================== *)
(** ** [pathlib] paths, POSIX flavour *)
(* ================================================================== *)

Module Path.

(** A pure path: its root ([""], ["/"] or ["//"]) and the components
    after it, none of them empty, ["."] or holding a slash. *)
Record t := mk { root : string; parts : list string }.

(** The root of a text: two leading slashes, and only two, are kept. *)
Definition root_of (s : string) : string :=
  match s with
  | String "/" (String "/" (String "/" _)) => "/"
  | String "/" (String "/" _) => "//"
  | String "/" _ => "/"
  | _ => ""
  end.

(** The pieces between slashes that count: empty ones and ["."] are
    dropped, [".."] is kept. *)
Definition is_part (piece : string) : bool :=
  PyStr.nonempty piece && negb (String.eqb piece ".").

(** [Path(s)] *)
Definition of_str (s : string) : t :=
  mk (root_of s) (filter (λ piece, is_part piece = true) (PyStr.split "/" s)).

(** [str(p)] *)
Definition to_str (p : t) : string :=
  let s := root p +:+ PyStr.join "/" (parts p) in
  if PyStr.nonempty s then s else ".".

(** [p / s]: an absolute [s] replaces [p]. *)
Definition join (p : t) (s : string) : t :=
  let q := of_str s in
  if PyStr.nonempty (root q) then q else mk (root p) (parts p ++ parts q).

(** [p.parent]: the root alone, and the empty path, are their own
    parents. *)
Definition parent (p : t) : t := mk (root p) (removelast (parts p)).

End Path.

(* ================================================================== *)
(** ** Python values, truthiness, [str()] and exceptions *)
(* ================================================================== *)

Module Py.

(** A [float] is observed in two ways only by this package: it is tested
    for truth (false exactly for zero) and it is formatted by [str()] or
    an f-string.  The record keeps those two observations. *)
Record pyfloat := PyFloat { f_is_zero : bool; f_repr : string }.

(** The scalar JSON values: what a PubChem property table row holds
    under each key. *)
Inductive scalar :=
| SNone
| SBool (b : bool)
| SInt (z : Z)
| SFloat (f : pyfloat)
| SStr (s : string).

(** Values stored in the dictionaries the package builds. *)
Inductive pyval :=
| VAtom (a : scalar)
| VTuple (l : list pyval)
| VDict (d : gmap string pyval).

Abbreviation dict := (gmap string pyval).
Abbreviation VStr s := (VAtom (SStr s)).
Abbreviation VNone := (VAtom SNone).

(** [bool(x)] *)
Definition truthy (a : scalar) : bool :=
  match a with
  | SNone => false
  | SBool b => b
  | SInt z => negb (z =? 0)
  | SFloat f => negb (f_is_zero f)
  | SStr s => PyStr.nonempty s
  end.

Definition dict_truthy (d : dict) : bool := negb (bool_decide (size d = 0%nat)).

Definition val_truthy (v : pyval) : bool :=
  match v with
  | VAtom a => truthy a
  | VTuple l => negb (bool_decide (l = []))
  | VDict d => dict_truthy d
  end.

(** [str(x)] *)
Definition str (a : scalar) : string :=
  match a with
  | SNone => "None"
  | SBool true => "True"
  | SBool false => "False"
  | SInt z => pretty z
  | SFloat f => f_repr f
  | SStr s => s
  end.

(** [x or y] *)
Definition or_ (x y : scalar) : scalar := if truthy x then x else y.

(** [d.get(k, default)] on a dictionary of scalars. *)
Definition get (d : gmap string scalar) (k : string) (dflt : scalar) : scalar :=
  default dflt (d !! k).

(** The exceptions the package raises or meets; all of them are caught
    by [except Exception]. *)
Inductive exn :=
| RuntimeError (msg : string)
| TimeoutError (msg : string)
| AttributeError (msg : string)
| ValueError (msg : string)
| TypeError (msg : string)
| OSError (msg : string)
| HTTPError (msg : string).

(** [str(e)] *)
Definition exn_str (e : exn) : string :=
  match e with
  | RuntimeError m | TimeoutError m | AttributeError m
  | ValueError m | TypeError m | OSError m | HTTPError m => m
  end.

(** A call either returns or raises. *)
Inductive result (A : Type) :=
| Ok (a : A)
| Raise (e : exn).
Global Arguments Ok {A} a.
Global Arguments Raise {A} e.

Global Instance result_ret : MRet result := λ A a, Ok a.
Global Instance result_bind : MBind result := λ A B k r,
  match r with
  | Ok a => k a
  | Raise e => Raise e
  end.

(** [try: r  except Exception as e: h e] *)
Definition try_except {A} (r : result A) (h : exn → A) : A :=
  match r with
  | Ok a => a
  | Raise e => h e
  end.

End Py.

(* ================================================================== *)
(** ** [models.py] *)
(* ================================================================== *)

Module Models.
Import Py.

(** The dataclass [Ligand].  Its seventeen fields come first, in the
    order of the class body.  [smiles] and [iupac] are assigned straight
    from a PubChem row by the build, so they hold a scalar; [attrs] is
    the rest of the instance's [__dict__]: the attributes the build sets
    on the object that are not dataclass fields. *)
Record Ligand := mkLigand {
  name : string;
  smiles : scalar;
  pubchem_cid : string;
  chembl_id : string;
  notes : string;
  iupac : scalar;
  formula : string;
  mw : string;
  xlogp : string;
  hbd : string;
  hba : string;
  tpsa : string;
  rotb : string;
  image_2d : string;
  conformer_sdf : string;
  docking : option dict;
  pose : option dict;
  attrs : dict
}.

(** [Ligand(name=..., smiles=..., pubchem_cid=..., chembl_id=..., notes=...)]
    with the defaults of the class for every other field. *)
Definition new_ligand (n s cid chembl nts : string) : Ligand :=
  {| name := n; smiles := SStr s; pubchem_cid := cid; chembl_id := chembl;
     notes := nts; iupac := SStr ""; formula := ""; mw := ""; xlogp := "";
     hbd := ""; hba := ""; tpsa := ""; rotb := ""; image_2d := "";
     conformer_sdf := ""; docking := None; pose := None; attrs := ∅ |}.

(** An [Optional[dict]] field as a value. *)
Definition opt_dict (o : option dict) : pyval :=
  match o with
  | None => VNone
  | Some d => VDict d
  end.

(** [dataclasses.asdict]: one key per dataclass field, nothing else. *)
Definition asdict (l : Ligand) : dict :=
  list_to_map
    [ ("name", VStr (name l)); ("smiles", VAtom (smiles l));
      ("pubchem_cid", VStr (pubchem_cid l)); ("chembl_id", VStr (chembl_id l));
      ("notes", VStr (notes l)); ("iupac", VAtom (iupac l));
      ("formula", VStr (formula l)); ("mw", VStr (mw l));
      ("xlogp", VStr (xlogp l)); ("hbd", VStr (hbd l)); ("hba", VStr (hba l));
      ("tpsa", VStr (tpsa l)); ("rotb", VStr (rotb l));
      ("image_2d", VStr (image_2d l));
      ("conformer_sdf", VStr (conformer_sdf l));
      ("docking", opt_dict (docking l)); ("pose", opt_dict (pose l)) ].

(** [not d.get(k)] *)
Definition get_falsy (d : dict) (k : string) : bool :=
  match d !! k with
  | None => true
  | Some v => negb (val_truthy v)
  end.

(** [Ligand.to_dict] *)
Definition to_dict (l : Ligand) : dict :=
  let d := asdict l in
  let d := if get_falsy d "docking" then delete "docking" d else d in
  let d := if get_falsy d "pose" then delete "pose" d else d in
  d.

(** What [to_dict] leaves under a key that holds an [Optional[dict]]. *)
Definition kept (o : option dict) : option pyval :=
  match o with
  | Some d => if dict_truthy d then Some (VDict d) else None
  | None => None
  end.

(** The two asset-path fields are empty. *)
Definition no_assets (l : Ligand) : Prop :=
  image_2d l = "" ∧ conformer_sdf l = "".

(** [l'] has the asset-path fields of [l]. *)
Definition same_assets (l l' : Ligand) : Prop :=
  image_2d l' = image_2d l ∧ conformer_sdf l' = conformer_sdf l.

(** Assignments to one attribute of the object. *)
Definition set_pubchem_cid (v : string) (l : Ligand) : Ligand :=
  mkLigand (name l) (smiles l) v (chembl_id l) (notes l) (iupac l) (formula l)
    (mw l) (xlogp l) (hbd l) (hba l) (tpsa l) (rotb l) (image_2d l)
    (conformer_sdf l) (docking l) (pose l) (attrs l).

Definition set_chembl_id (v : string) (l : Ligand) : Ligand :=
  mkLigand (name l) (smiles l) (pubchem_cid l) v (notes l) (iupac l) (formula l)
    (mw l) (xlogp l) (hbd l) (hba l) (tpsa l) (rotb l) (image_2d l)
    (conformer_sdf l) (docking l) (pose l) (attrs l).

Definition set_docking (v : option dict) (l : Ligand) : Ligand :=
  mkLigand (name l) (smiles l) (pubchem_cid l) (chembl_id l) (notes l) (iupac l)
    (formula l) (mw l) (xlogp l) (hbd l) (hba l) (tpsa l) (rotb l) (image_2d l)
    (conformer_sdf l) v (pose l) (attrs l).

Definition set_pose (v : option dict) (l : Ligand) : Ligand :=
  mkLigand (name l) (smiles l) (pubchem_cid l) (chembl_id l) (notes l) (iupac l)
    (formula l) (mw l) (xlogp l) (hbd l) (hba l) (tpsa l) (rotb l) (image_2d l)
    (conformer_sdf l) (docking l) v (attrs l).

(** [setattr(l, k, v)] for a name [k] that is not a dataclass field. *)
Definition set_attr (k : string) (v : pyval) (l : Ligand) : Ligand :=
  mkLigand (name l) (smiles l) (pubchem_cid l) (chembl_id l) (notes l) (iupac l)
    (formula l) (mw l) (xlogp l) (hbd l) (hba l) (tpsa l) (rotb l) (image_2d l)
    (conformer_sdf l) (docking l) (pose l) (<[k := v]> (attrs l)).

(** The names of the fifteen fields [to_dict] always keeps. *)
Definition plain_fields : list string :=
  ["name"; "smiles"; "pubchem_cid"; "chembl_id"; "notes"; "iupac"; "formula";
   "mw"; "xlogp"; "hbd"; "hba"; "tpsa"; "rotb"; "image_2d"; "conformer_sdf"].

End Models.

(* ================================================================== *)
(** ** [utils/io.py] *)
(* ================================================================== *)

Module Io.
Import Py Models.

(** A row as [csv.DictReader] yields it: column name to cell, where the
    cell is [None] for a line shorter than the header. *)
Abbreviation Row := (gmap string (option string)).

(** [row.get(k)] *)
Definition row_get (row : Row) (k : string) : option string :=
  mjoin (row !! k).

(** [row.get(k1) or row.get(k2) or ... or ""] *)
Fixpoint first_of (row : Row) (aliases : list string) : string :=
  match aliases with
  | [] => ""
  | k :: rest =>
      match row_get row k with
      | Some s => if PyStr.nonempty s then s else first_of row rest
      | None => first_of row rest
      end
  end.

(** [(row.get(k1) or ... or "").strip()] *)
Definition field (row : Row) (aliases : list string) : string :=
  PyStr.strip (first_of row aliases).

Definition name_aliases : list string := ["name"; "Name"].

(** The [Ligand(...)] built from one row. *)
Definition ligand_of_row (row : Row) : Ligand :=
  new_ligand (field row name_aliases)
             (field row ["smiles"; "SMILES"])
             (field row ["pubchem_cid"; "PubChemCID"; "cid"])
             (field row ["chembl_id"; "ChEMBL"])
             (field row ["notes"; "Notes"]).

(** The delimiter chosen from the lower-cased file suffix. *)
Definition delim_of_suffix (suffix : string) : ascii :=
  if bool_decide (PyStr.lower suffix ∈ [".tsv"; ".tab"])
  then "009"%char else ","%char.

(** The loop of [read_ligands_csv_tsv] over the rows of the reader. *)
Fixpoint read_ligands_csv_tsv (rows : list Row) : list Ligand :=
  match rows with
  | [] => []
  | row :: rest =>
      let name := field row name_aliases in
      if negb (PyStr.nonempty name)
      then read_ligands_csv_tsv rest
      else ligand_of_row row :: read_ligands_csv_tsv rest
  end.

(** [s.endswith(suffix)]: some tail of [s] is [suffix]. *)
Fixpoint endswith (s suffix : string) : bool :=
  bool_decide (s = suffix)
  || match s with
     | EmptyString => false
     | String _ r => endswith r suffix
     end.

(** The test [find_case_snapshots] applies to the name of each JSON file
    it walks over: the first [if], then the second. *)
Definition snapshot_hit (file_name : string) : bool :=
  let name := PyStr.lower file_name in
  (PyStr.contains "case" name && PyStr.contains "snapshot" name)
  || (endswith name "casesnapshot.json" || endswith name "case_snapshot.json").

End Io.

(* ================================================================== *)
(** ** [docking/vina.py] *)
(* ================================================================== *)

Module Vina.
Import Py.

Definition nl : string := String "010"%char "".

(** What [subprocess.run(..., capture_output=True, text=True)] returns. *)
Record CompletedProcess := mkProc {
  returncode : Z;
  stdout : string;
  stderr : string
}.

(** The outside world as [run_vina] meets it. *)
Record Env := mkEnv {
  mkdir_parent : string → result unit;
  subprocess_run : list string → result CompletedProcess;
  read_lines : string → result (list string)
}.

Abbreviation xyz := (pyfloat * pyfloat * pyfloat)%type.

Definition failed_message (cmd : list string) (p : CompletedProcess) : string :=
  "Command failed: " +:+ PyStr.join " " cmd
    +:+ nl +:+ nl +:+ "STDOUT:" +:+ nl +:+ stdout p
    +:+ nl +:+ nl +:+ "STDERR:" +:+ nl +:+ stderr p.

(** [_run] *)
Definition _run (env : Env) (cmd : list string) : result CompletedProcess :=
  p ← subprocess_run env cmd;
  if negb (returncode p =? 0)
  then Raise (RuntimeError (failed_message cmd p))
  else Ok p.

Section WithFloat.

(** The builtin [float(s)]: [None] stands for its [ValueError]. *)
Variable py_float : string → option pyfloat.

(** The body of the [for line in ...] loop that looks for the first row
    of the result table. *)
Fixpoint parse_best (lines : list string) : result (option pyfloat) :=
  match lines with
  | [] => Ok None
  | line :: rest =>
      if PyStr.startswith (PyStr.strip line) "1"
         || PyStr.startswith (PyStr.strip line) "1 "
      then match PyStr.split_ws line with
           | _ :: p1 :: _ =>
               match py_float p1 with
               | Some f => Ok (Some f)
               | None => Raise (ValueError ("could not convert string to float: " +:+ p1))
               end
           | _ => parse_best rest
           end
      else parse_best rest
  end.

Definition float_or_none (o : option pyfloat) : pyval :=
  match o with
  | Some f => VAtom (SFloat f)
  | None => VNone
  end.

Definition vina_cmd (vina_exe receptor_pdbqt ligand_pdbqt out_pdbqt log_path : string)
    (center size : xyz) (exhaustiveness num_modes : Z) : list string :=
  [ vina_exe;
    "--receptor"; receptor_pdbqt;
    "--ligand"; ligand_pdbqt;
    "--center_x"; f_repr center.1.1;
    "--center_y"; f_repr center.1.2;
    "--center_z"; f_repr center.2;
    "--size_x"; f_repr size.1.1;
    "--size_y"; f_repr size.1.2;
    "--size_z"; f_repr size.2;
    "--exhaustiveness"; pretty exhaustiveness;
    "--num_modes"; pretty num_modes;
    "--out"; out_pdbqt;
    "--log"; log_path ].

(** [run_vina] *)
Definition run_vina (env : Env)
    (vina_exe receptor_pdbqt ligand_pdbqt out_pdbqt log_path : string)
    (center size : xyz) (exhaustiveness num_modes : Z) : result dict :=
  _ ← mkdir_parent env out_pdbqt;
  _ ← mkdir_parent env log_path;
  let cmd := vina_cmd vina_exe receptor_pdbqt ligand_pdbqt out_pdbqt log_path
                      center size exhaustiveness num_modes in
  p ← _run env cmd;
  let best :=
    try_except (lines ← read_lines env log_path; parse_best lines)
               (λ _, None) in
  Ok (list_to_map
        [ ("backend", VStr "vina");
          ("best_affinity_kcal_mol", float_or_none best);
          ("out_pdbqt", VStr out_pdbqt);
          ("log", VStr log_path) ]).

(** The test of the loop of [run_vina] on one line of the log. *)
Definition is_first_row (line : string) : bool :=
  PyStr.startswith (PyStr.strip line) "1"
  || PyStr.startswith (PyStr.strip line) "1 ".

End WithFloat.

End Vina.

(* ================================================================== *)
(** ** [docking/swissdock.py] *)
(* ================================================================== *)

Module SwissDock.
Import Py.

Abbreviation xyz := (pyfloat * pyfloat * pyfloat)%type.


Definition path_join (a b : string) : string :=
  Path.to_str (Path.join (Path.of_str a) b).

(** The requests and other calls that leave the process, in the order
    they are made. *)
Inductive event :=
| EvMkdir (path : string)
| EvSubprocess (cmd : list string)
| EvPreplig (mol2 : string)
| EvPreptarget (session pdb : string)
| EvSetParameters (session : string)
| EvStartDock (session : string)
| EvCheckStatus (session : string)
| EvSleep (seconds : Z)
| EvRetrieveSession (session out_tgz : string).

Global Instance event_eq_dec : EqDecision event.
Proof. solve_decision. Defined.

(** The answers of the outside world.  [checkstatus_text k] is the body
    of the response to the [k]-th status request and [waited k] is the
    value of [time.time() - t0], in seconds, when it is read after that
    request (a rational; the rounding of the subtraction is left out);
    each HTTP answer already includes [raise_for_status]. *)
Record Env := mkEnv {
  mkdir : string → result unit;
  subprocess_run : list string → result Vina.CompletedProcess;
  preplig_text : string → result string;
  preptarget_post : string → string → result unit;
  setparameters_get : string → xyz → xyz → Z → result unit;
  startdock_get : string → result unit;
  checkstatus_text : nat → string → result string;
  waited : nat → Q;
  retrievesession_get : string → string → result unit
}.

(** A computation that logs its events; the log survives a raise. *)
Definition M (A : Type) : Type := list event → result A * list event.

Definition ret {A} (a : A) : M A := λ tr, (Ok a, tr).
Definition raise {A} (e : exn) : M A := λ tr, (Raise e, tr).
Definition call {A} (ev : event) (r : result A) : M A := λ tr, (r, tr ++ [ev]).
Definition bindM {A B} (m : M A) (k : A → M B) : M B := λ tr,
  match m tr with
  | (Ok a, tr') => k a tr'
  | (Raise e, tr') => (Raise e, tr')
  end.

Notation "'do' x <- m ; k" := (bindM m (λ x, k))
  (at level 10, x name, m at level 100, k at level 200,
   format "'[v' 'do'  x  <-  m ; '/' k ']'").
Notation "'do_' m ; k" := (bindM m (λ _, k))
  (at level 10, m at level 100, k at level 200,
   format "'[v' 'do_'  m ; '/' k ']'").

(** [swissdock._run]: like [Vina._run], returning nothing. *)
Definition _run (env : Env) (cmd : list string) : M unit :=
  do p <- call (EvSubprocess cmd) (subprocess_run env cmd);
  if negb (Vina.returncode p =? 0)
  then raise (RuntimeError (Vina.failed_message cmd p))
  else ret tt.

(** [smiles_to_mol2_with_obabel]; the directory made is the parent of
    [out_mol2]. *)
Definition smiles_to_mol2_with_obabel (env : Env)
    (smiles : string) (out_mol2 : Path.t) (title obabel : string) : M unit :=
  let parent := Path.to_str (Path.parent out_mol2) in
  do_ call (EvMkdir parent) (mkdir env parent);
  _run env [obabel; "-:" +:+ smiles; "--gen3d"; "-O"; Path.to_str out_mol2; "-h";
            "--title"; title].

(** The regular expression [Session number:\s*([0-9]+)], case ignored,
    tried at the head of [s]: the digits captured, if it matches there. *)
Definition is_digit (c : ascii) : bool := PyStr.between 48 57 c.

Fixpoint digits (s : string) : string :=
  match s with
  | String c r => if is_digit c then String c (digits r) else ""
  | EmptyString => ""
  end.

Fixpoint startswith_ci (s p : string) : bool :=
  match p, s with
  | EmptyString, _ => true
  | String _ _, EmptyString => false
  | String a p', String b s' =>
      if Ascii.eqb (PyStr.lower_char a) (PyStr.lower_char b)
      then startswith_ci s' p' else false
  end.

Fixpoint drop (n : nat) (s : string) : string :=
  match n, s with
  | O, _ => s
  | S n', String _ r => drop n' r
  | S _, EmptyString => EmptyString
  end.

Definition match_here (s : string) : option string :=
  if startswith_ci s "Session number:"
  then let d := digits (PyStr.lstrip (drop 15 s)) in
       if PyStr.nonempty d then Some d else None
  else None.

(** [re.search]: the leftmost position where the expression matches. *)
Fixpoint search (s : string) : option string :=
  match match_here s with
  | Some d => Some d
  | None => match s with
            | EmptyString => None
            | String _ r => search r
            end
  end.

(** [_extract_session_number] *)
Definition _extract_session_number (text : string) : result string :=
  match search text with
  | Some d => Ok d
  | None =>
      Raise (RuntimeError
               ("Could not find session number in response (first 2000 chars):"
                  +:+ Vina.nl +:+ PyStr.take 2000 text))
  end.

Definition preplig_vina (env : Env) (mol2 : string) : M string :=
  do text <- call (EvPreplig mol2) (preplig_text env mol2);
  match _extract_session_number text with
  | Ok s => ret s
  | Raise e => raise e
  end.

Definition preptarget (env : Env) (session pdb : string) : M unit :=
  call (EvPreptarget session pdb) (preptarget_post env session pdb).

Definition setparameters_vina (env : Env) (session : string)
    (center size : xyz) (exhaust : Z) : M unit :=
  call (EvSetParameters session) (setparameters_get env session center size exhaust).

Definition startdock (env : Env) (session : string) : M unit :=
  call (EvStartDock session) (startdock_get env session).

(** [checkstatus]: the text of the answer, stripped. *)
Definition checkstatus (env : Env) (k : nat) (session : string) : M string :=
  do text <- call (EvCheckStatus session) (checkstatus_text env k session);
  ret (PyStr.strip text).

Definition retrievesession (env : Env) (session out_tgz : string) : M unit :=
  call (EvRetrieveSession session out_tgz) (retrievesession_get env session out_tgz).

(** [time.sleep]: a negative length is refused before any waiting. *)
Definition sleep (seconds : Z) : M unit :=
  if seconds <? 0
  then raise (ValueError "sleep length must be non-negative")
  else call (EvSleep seconds) (Ok tt).

(** The [while True] loop of [submit_and_wait], unrolled at most [fuel]
    times from the [k]-th status request on.  It returns the status that
    broke the loop, or [None] when the fuel ran out first.  (The variable
    [last] of the source is written and never read.) *)
Fixpoint poll (env : Env) (name session : string) (poll_s max_wait_s : Z)
    (fuel k : nat) : M (option string) :=
  match fuel with
  | O => ret None
  | S fuel' =>
      do status <- checkstatus env k session;
      let low := PyStr.lower status in
      if PyStr.contains "finished" low || PyStr.contains "done" low
      then ret (Some status)
      else if PyStr.contains "error" low || PyStr.contains "failed" low
      then raise (RuntimeError
                    ("SwissDock job failed (" +:+ name +:+ "): " +:+ status))
      else if negb (Qle_bool (waited env k) (inject_Z max_wait_s))
      then raise (TimeoutError
                    ("SwissDock job timed out (" +:+ name +:+ "), session "
                       +:+ session))
      else do_ sleep poll_s;
           poll env name session poll_s max_wait_s fuel' (S k)
  end.

(** [submit_and_wait]; [None] when the loop is still running after
    [fuel] status requests. *)
Definition submit_and_wait (env : Env) (fuel : nat)
    (name smiles receptor_pdb : string) (center size : xyz)
    (workdir obabel : string) (exhaust poll_s max_wait_s : Z)
    : M (option dict) :=
  let wd := Path.of_str workdir in
  do_ call (EvMkdir (Path.to_str wd)) (mkdir env (Path.to_str wd));
  let mol2 := Path.join wd (name +:+ ".mol2") in
  do_ smiles_to_mol2_with_obabel env smiles mol2 name obabel;
  do session <- preplig_vina env (Path.to_str mol2);
  do_ preptarget env session receptor_pdb;
  do_ setparameters_vina env session center size exhaust;
  do_ startdock env session;
  do broke <- poll env name session poll_s max_wait_s fuel 0;
  match broke with
  | None => ret None
  | Some status =>
      let out_tgz :=
        path_join workdir (name +:+ "_swissdock_" +:+ session +:+ ".tgz") in
      do_ retrievesession env session out_tgz;
      ret (Some (list_to_map
                   [ ("backend", VStr "swissdock"); ("session", VStr session);
                     ("status", VStr status); ("archive", VStr out_tgz) ]))
  end.

(** How the loop reads a stripped status text. *)
Definition says_success (status : string) : bool :=
  PyStr.contains "finished" (PyStr.lower status)
  || PyStr.contains "done" (PyStr.lower status).

Definition says_failure (status : string) : bool :=
  PyStr.contains "error" (PyStr.lower status)
  || PyStr.contains "failed" (PyStr.lower status).






Definition is_retrieve (ev : event) : bool :=
  match ev with EvRetrieveSession _ _ => true | _ => false end.


(** A stretch of log without a request for the archive. *)
Definition quiet (tr : list event) : Prop :=
  Forall (λ ev, is_retrieve ev = false) tr.

(** The class [SwissDockClient]: the instance attribute [obabel] set by
    [__init__], and the method [submit].  (The attributes every object
    inherits from [object], all of them double-underscore names, are
    left out.) *)
Record SwissDockClient := mkClient { obabel : string }.

(** What an attribute access yields: a plain value or a bound method,
    which is called with positional and keyword arguments. *)
Inductive attribute :=
| AttrStr (s : string)
| AttrMethod (m : list pyval → dict → M pyval).

(** [SwissDockClient.submit(self, ligand_smiles, receptor_pdb, work_dir,
    name)], as far as a call of it gets: its body calls
    [smiles_to_mol2_with_obabel] without the required [title], and the
    statements after that call are not reached. *)
Definition submit_params : list string :=
  ["ligand_smiles"; "receptor_pdb"; "work_dir"; "name"].

(** Binding of the arguments of a call to the parameters of a method
    (all of them required, none keyword-only). *)
Definition bind_args (fname : string) (params : list string)
    (args : list pyval) (kwargs : dict) : result dict :=
  if bool_decide (List.length params < List.length args)%nat
  then Raise (TypeError (fname +:+ "() takes too many positional arguments"))
  else
    let bound : dict := list_to_map (zip params args) in
    match filter (λ k, k ∉ params) (fst <$> map_to_list kwargs) with
    | k :: _ =>
        Raise (TypeError (fname +:+ "() got an unexpected keyword argument '"
                            +:+ k +:+ "'"))
    | [] =>
        match filter (λ k, is_Some (bound !! k)) (fst <$> map_to_list kwargs) with
        | k :: _ =>
            Raise (TypeError (fname +:+ "() got multiple values for argument '"
                                +:+ k +:+ "'"))
        | [] =>
            match filter (λ k, (bound ∪ kwargs) !! k = None) params with
            | k :: _ =>
                Raise (TypeError (fname +:+ "() missing required argument '"
                                    +:+ k +:+ "'"))
            | [] => Ok (bound ∪ kwargs)
            end
        end
    end.

Definition submit (env : Env) (self : SwissDockClient)
    (args : list pyval) (kwargs : dict) : M pyval :=
  match bind_args "SwissDockClient.submit" submit_params args kwargs with
  | Raise e => raise e
  | Ok a =>
      match a !! "work_dir" with
      | Some (VStr work_dir) =>
          do_ call (EvMkdir work_dir) (mkdir env work_dir);
          raise (TypeError
            "smiles_to_mol2_with_obabel() missing 1 required positional argument: 'title'")
      | _ => raise (AttributeError "object has no attribute 'mkdir'")
      end
  end.

(** [getattr(self, attr)] *)
Definition getattr (env : Env) (self : SwissDockClient) (attr : string)
    : result attribute :=
  if bool_decide (attr = "obabel") then Ok (AttrStr (obabel self))
  else if bool_decide (attr = "submit") then Ok (AttrMethod (submit env self))
  else Raise (AttributeError
                ("'SwissDockClient' object has no attribute '" +:+ attr +:+ "'")).

(** Calling what an attribute access yielded. *)
Definition call_attr (a : attribute) (args : list pyval) (kwargs : dict) : M pyval :=
  match a with
  | AttrMethod m => m args kwargs
  | AttrStr _ => raise (TypeError "'str' object is not callable")
  end.

(** The outcome of a computation started with an empty log. *)
Definition run {A} (m : M A) : result A := (m []).1.

End SwissDock.

(* ================================================================== *)
(** ** [build.py] *)
(* ================================================================== *)

Module Build.
Import Py Models.

Abbreviation xyz := (pyfloat * pyfloat * pyfloat)%type.
Abbreviation props := (gmap string scalar).

Definition DEFAULT_LIGANDS : list Ligand :=
  [ new_ligand "crizotinib" "" "" "" "1st-gen ALK/ROS1/MET inhibitor (reference drug)";
    new_ligand "ceritinib" "" "" "" "2nd-gen ALK inhibitor";
    new_ligand "alectinib" "" "" "" "2nd-gen ALK inhibitor";
    new_ligand "brigatinib" "" "" "" "2nd-gen ALK inhibitor";
    new_ligand "lorlatinib" "" "" "" "3rd-gen ALK inhibitor (macrocyclic scaffold)" ].

(** The character class [A-Za-z0-9._-]. *)
Definition slug_char (c : ascii) : bool :=
  PyStr.between 65 90 c || PyStr.between 97 122 c || PyStr.between 48 57 c
  || Ascii.eqb c "." || Ascii.eqb c "_" || Ascii.eqb c "-".

(** The same class, written out. *)
Definition slug_alphabet : string :=
  "ABCDEFGHIJKLMNOPQRSTUVWXYZabcdefghijklmnopqrstuvwxyz0123456789._-".

(** [re.sub(r"[^A-Za-z0-9._-]+", "_", s)]: every maximal run of
    characters outside the class becomes one underscore; [in_run] tells
    that the previous character was outside the class. *)
Fixpoint sub_runs (in_run : bool) (s : string) : string :=
  match s with
  | EmptyString => EmptyString
  | String c r =>
      if slug_char c then String c (sub_runs false r)
      else if in_run then sub_runs true r
      else String "_" (sub_runs true r)
  end.

(** [_safe_slug] *)
Definition _safe_slug (s : string) : string :=
  let s := PyStr.strip (if PyStr.nonempty s then s else "") in
  let s := sub_runs false s in
  if PyStr.nonempty s then PyStr.take 80 s else "item".

(** The value handed to [center] or [size]: the signature says [str],
    the command line passes a tuple of floats or [None]. *)
Inductive box_arg :=
| BoxNone
| BoxStr (s : string)
| BoxTuple (t : list pyfloat).

Definition box_truthy (b : box_arg) : bool :=
  match b with
  | BoxNone => false
  | BoxStr s => PyStr.nonempty s
  | BoxTuple t => negb (bool_decide (t = []))
  end.

(** [_pdbqt_to_pdb], the lines kept. *)
Definition pdb_line (ln : string) : option string :=
  if PyStr.startswith ln "ATOM" || PyStr.startswith ln "HETATM"
  then Some (PyStr.take 66 ln)
  else if PyStr.startswith ln "MODEL" || PyStr.startswith ln "ENDMDL"
          || PyStr.startswith ln "END"
  then Some ln
  else None.

(** [str(props.get(k, "") or old)] *)
Definition merged (p : props) (k : string) (old : string) : string :=
  str (or_ (get p k (SStr "")) (SStr old)).

(** The assignments made under [if props:]. *)
Definition merge_props (p : props) (l : Ligand) : Ligand :=
  {| name := name l;
     smiles := or_ (or_ (smiles l) (get p "CanonicalSMILES" (SStr ""))) (SStr "");
     pubchem_cid := pubchem_cid l;
     chembl_id := chembl_id l;
     notes := notes l;
     iupac := or_ (get p "IUPACName" (SStr "")) (iupac l);
     formula := merged p "MolecularFormula" (formula l);
     mw := merged p "MolecularWeight" (mw l);
     xlogp := merged p "XLogP" (xlogp l);
     hbd := merged p "HBondDonorCount" (hbd l);
     hba := merged p "HBondAcceptorCount" (hba l);
     tpsa := merged p "TPSA" (tpsa l);
     rotb := merged p "RotatableBondCount" (rotb l);
     image_2d := image_2d l;
     conformer_sdf := conformer_sdf l;
     docking := docking l;
     pose := pose l;
     attrs := attrs l |}.

(** The rule the merge follows for a field whose old value is [old],
    whose new value is [new], and for which the row holds [fetched]
    ([conv] is [str] for the fields the code wraps in [str()]): a truthy
    fetched value is taken, and the old value stays when the row has no
    value or a falsy one. *)
Definition fetched_wins {A} (conv : scalar → A) (fetched : option scalar)
    (old new : A) : Prop :=
  (∀ v, fetched = Some v → truthy v = true → new = conv v)
  ∧ (fetched = None ∨ (∃ v, fetched = Some v ∧ truthy v = false) → new = old).

(** [old or str(desc.get(k, ""))] *)
Definition filled (old : string) (desc : props) (k : string) : string :=
  if PyStr.nonempty old then old else str (get desc k (SStr "")).

(** The assignments that fill the numeric fields from the descriptors. *)
Definition fill_missing (desc : props) (l : Ligand) : Ligand :=
  {| name := name l; smiles := smiles l; pubchem_cid := pubchem_cid l;
     chembl_id := chembl_id l; notes := notes l; iupac := iupac l;
     formula := formula l;
     mw := filled (mw l) desc "MW";
     xlogp := filled (xlogp l) desc "LogP";
     hbd := filled (hbd l) desc "HBD";
     hba := filled (hba l) desc "HBA";
     tpsa := filled (tpsa l) desc "TPSA";
     rotb := rotb l; image_2d := image_2d l; conformer_sdf := conformer_sdf l;
     docking := docking l; pose := pose l; attrs := attrs l |}.

(** The parameters of [build_site]; a [None] for [highlight_resi] is the
    empty list, which the code treats alike. *)
Module Args.
Record t := mk {
  out_dir : string;
  ligands_path : option string;
  recon_path : option string;
  receptor_path : option string;
  pdb_id : option string;
  docking : string;
  docking_backend : string;
  swissdock_retrieve : bool;
  vina_path : string;
  vina_exe : string;
  receptor_pdbqt : option string;
  box_center : box_arg;
  box_size : box_arg;
  exhaust : Z;
  max_poses : Z;
  center : box_arg;
  size : box_arg;
  exhaustiveness : Z;
  image_size : Z;
  no_chembl : bool;
  highlight_resi : list Z;
  _ignored : dict
}.
End Args.

(** What the loop body needs from the arguments of [build_site], once
    they are normalised. *)
Record Config := mkConfig {
  out : string;
  dock_mode : string;
  dock_center : option xyz;
  dock_size : option xyz;
  rdkit_ok : bool;
  no_chembl : bool;
  image_size : Z;
  receptor_path : option string;
  receptor_pdbqt : option string;
  swissdock_retrieve : bool;
  vina_exe : string;
  exhaustiveness : Z
}.

(** What [props_by_cid] and [props_by_smiles] return: [rows[0]] of the
    JSON answer, unchecked.  It is a property row when it is a JSON
    object; it can be any other JSON value. *)
Inductive json_row :=
| Row (p : props)
| Scalar (a : scalar)
| Array (len : nat).

(** [bool(row)] *)
Definition row_truthy (r : json_row) : bool :=
  match r with
  | Row p => negb (bool_decide (size p = 0%nat))
  | Scalar a => truthy a
  | Array len => negb (len =? 0)%nat
  end.

(** [type(row).__name__] *)
Definition type_name (r : json_row) : string :=
  match r with
  | Row _ => "dict"
  | Scalar SNone => "NoneType"
  | Scalar (SBool _) => "bool"
  | Scalar (SInt _) => "int"
  | Scalar (SFloat _) => "float"
  | Scalar (SStr _) => "str"
  | Array _ => "list"
  end.

(** The outside world while one ligand is processed. *)
Record LigEnv := mkLigEnv {
  mkdir : string → result unit;
  resolve_name_to_cid : string → result string;
  props_by_cid : string → result json_row;
  props_by_smiles : scalar → result json_row;
  name_search : string → result string;
  download_png_by_cid : string → string → Z → result bool;
  download_png_by_smiles : scalar → string → Z → result bool;
  draw_2d_png : scalar → string → Z → result unit;
  compute_descriptors : scalar → result props;
  smiles_to_3d_sdf : scalar → string → result unit;
  path_exists : string → bool;
  swissdock_env : SwissDock.Env;
  obabel_run : list string → result unit;
  vina_env : Vina.Env;
  read_pose_lines : string → result (list string);
  write_text : string → string → result unit
}.

Definition opt_truthy (o : option string) : bool :=
  match o with
  | Some s => PyStr.nonempty s
  | None => false
  end.

Definition path_join := SwissDock.path_join.

(** [lig.out_dir], set at the top of the loop body. *)
Definition out_dir_of (slug : string) : string := "assets/" +:+ slug.
Definition lig_dir_of (cfg : Config) (slug : string) : string :=
  path_join (out cfg) (out_dir_of slug).

(** Lines 181-211: the PubChem identifier, the property row, the merge. *)
Definition resolve_cid (env : LigEnv) (lig : Ligand) : Ligand :=
  if negb (PyStr.nonempty (pubchem_cid lig))
  then set_pubchem_cid
         (try_except (resolve_name_to_cid env (name lig)) (λ _, "")) lig
  else lig.

Definition fetch_props (env : LigEnv) (lig : Ligand) : json_row :=
  let p := if PyStr.nonempty (pubchem_cid lig)
           then try_except (props_by_cid env (pubchem_cid lig)) (λ _, Row ∅)
           else Row ∅ in
  if negb (row_truthy p) && truthy (smiles lig)
  then try_except (props_by_smiles env (smiles lig)) (λ _, Row ∅)
  else p.

(** The stage is outside any [try]: a truthy value that is not an object
    has no [get], and the first [props.get] that is evaluated raises
    before any field is assigned a new value. *)
Definition pubchem_stage (env : LigEnv) (lig : Ligand) : result unit * Ligand :=
  let lig := resolve_cid env lig in
  let p := fetch_props env lig in
  if row_truthy p
  then match p with
       | Row p => (Ok tt, merge_props p lig)
       | _ => (Raise (AttributeError
                        ("'" +:+ type_name p +:+ "' object has no attribute 'get'")),
               lig)
       end
  else (Ok tt, lig).

(** Lines 214-218. *)
Definition chembl_stage (cfg : Config) (env : LigEnv) (lig : Ligand) : Ligand :=
  if negb (no_chembl cfg) && negb (PyStr.nonempty (chembl_id lig))
  then set_chembl_id (try_except (name_search env (name lig)) (λ _, "")) lig
  else lig.

(** Lines 221-237.  [draw_2d_png] is called outside any [try] and
    returns [None], which is what [ok] then holds. *)
Definition image_stage (cfg : Config) (env : LigEnv) (slug : string)
    (lig : Ligand) : result unit * Ligand :=
  let img_name := slug +:+ "_2d.png" in
  let img_path := path_join (lig_dir_of cfg slug) img_name in
  let ok := false in
  let ok := if PyStr.nonempty (pubchem_cid lig)
            then try_except
                   (download_png_by_cid env (pubchem_cid lig) img_path (image_size cfg))
                   (λ _, false)
            else ok in
  let ok := if negb ok && truthy (smiles lig)
            then try_except
                   (download_png_by_smiles env (smiles lig) img_path (image_size cfg))
                   (λ _, false)
            else ok in
  let drawn : result bool :=
    if negb ok && truthy (smiles lig) && rdkit_ok cfg
    then _ ← draw_2d_png env (smiles lig) img_path (image_size cfg); Ok false
    else Ok ok in
  match drawn with
  | Raise e => (Raise e, lig)
  | Ok ok =>
      (Ok tt,
       if ok
       then set_attr "image_png" (VStr (out_dir_of slug +:+ "/" +:+ img_name)) lig
       else lig)
  end.

(** Lines 240-260.  [lig.descriptors] is an attribute access on the
    object; [smiles_to_3d_sdf] returns [None], which is what [ok3d]
    holds. *)
Definition descriptors_try (env : LigEnv) (lig : Ligand) : result Ligand :=
  desc ← compute_descriptors env (smiles lig);
  match attrs lig !! "descriptors" with
  | Some (VDict d) =>
      Ok (fill_missing desc
            (set_attr "descriptors" (VDict ((VAtom <$> desc) ∪ d)) lig))
  | Some _ => Raise (AttributeError "object has no attribute 'update'")
  | None => Raise (AttributeError "'Ligand' object has no attribute 'descriptors'")
  end.

Definition rdkit_stage (cfg : Config) (env : LigEnv) (slug : string)
    (lig : Ligand) : Ligand :=
  if truthy (smiles lig) && rdkit_ok cfg
  then
    let lig := try_except (descriptors_try env lig) (λ _, lig) in
    let sdf_name := slug +:+ "_3d.sdf" in
    let ok3d :=
      try_except
        (_ ← smiles_to_3d_sdf env (smiles lig)
               (path_join (lig_dir_of cfg slug) sdf_name);
         Ok false)
        (λ _, false) in
    if ok3d
    then set_attr "ligand3d" (VStr (out_dir_of slug +:+ "/" +:+ sdf_name)) lig
    else lig
  else lig.

(** [{"backend": backend, "error": msg}] *)
Definition error_record (backend msg : string) : dict :=
  {[ "backend" := VStr backend; "error" := VStr msg ]}.

Definition tuple_of (t : xyz) : pyval :=
  VTuple [VAtom (SFloat t.1.1); VAtom (SFloat t.1.2); VAtom (SFloat t.2)].

(** [_pdbqt_to_pdb] *)
Definition _pdbqt_to_pdb (env : LigEnv) (pdbqt_path out_pdb : string) : bool :=
  try_except
    (lines ← read_pose_lines env pdbqt_path;
     let out_lines := omap pdb_line lines in
     if bool_decide (out_lines = []) then Ok false
     else _ ← write_text env out_pdb (PyStr.join Vina.nl out_lines +:+ Vina.nl);
          Ok true)
    (λ _, false).

(** Lines 275-293: the body of the [try] of the SwissDock branch; its
    value is what [lig.docking] holds when no exception is raised. *)
Definition swissdock_try (cfg : Config) (env : LigEnv) (slug : string)
    (lig : Ligand) (receptor : string) (center size : xyz) : result dict :=
  let senv := swissdock_env env in
  let client := SwissDock.mkClient "obabel" in
  m ← SwissDock.getattr senv client "submit_vina_from_smiles";
  session ← SwissDock.run
    (SwissDock.call_attr m []
       {[ "name" := VStr (name lig); "smiles" := VAtom (smiles lig);
          "receptor_pdb" := VStr receptor; "center" := tuple_of center;
          "size" := tuple_of size; "exhaust" := VAtom (SInt (exhaustiveness cfg));
          "work_dir" := VStr (lig_dir_of cfg slug) ]});
  let d : dict :=
    {[ "backend" := VStr "swissdock"; "session" := session;
       "center" := tuple_of center; "size" := tuple_of size ]} in
  if swissdock_retrieve cfg
  then
    let tgz_name := slug +:+ "_swissdock.tgz" in
    m' ← SwissDock.getattr senv client "retrieve_session";
    _ ← SwissDock.run
      (SwissDock.call_attr m'
         [session; VStr (path_join (lig_dir_of cfg slug) tgz_name)] ∅);
    Ok (<["result_archive" := VStr (out_dir_of slug +:+ "/" +:+ tgz_name)]> d)
  else Ok d.

Section WithFloat.

(** The builtin [float(s)]: [None] stands for its [ValueError]. *)
Variable py_float : string → option pyfloat.

Definition float_or_raise (s : string) : result pyfloat :=
  match py_float s with
  | Some f => Ok f
  | None => Raise (ValueError ("could not convert string to float: " +:+ s))
  end.

(** [_parse_xyz] *)
Definition _parse_xyz (b : box_arg) : result xyz :=
  match b with
  | BoxStr s =>
      let parts := filter (λ p, PyStr.nonempty p = true)
                          (PyStr.strip <$> PyStr.split "," s) in
      match parts with
      | [p0; p1; p2] =>
          x ← float_or_raise p0;
          y ← float_or_raise p1;
          z ← float_or_raise p2;
          Ok (x, y, z)
      | _ => Raise (ValueError ("Expected x,y,z but got: " +:+ s))
      end
  | BoxTuple _ => Raise (AttributeError "'tuple' object has no attribute 'split'")
  | BoxNone => Raise (AttributeError "'NoneType' object has no attribute 'split'")
  end.

(** Lines 302-337: the body of the [try] of the Vina branch.  Its value
    is what [lig.docking] holds at the end and, when the pose could be
    converted, what [lig.pose] is set to. *)
Definition vina_try (cfg : Config) (env : LigEnv) (slug : string)
    (lig : Ligand) (rec_pdbqt : string) (center size : xyz)
    : result (dict * option dict) :=
  let lig_dir := lig_dir_of cfg slug in
  let ligand_pdbqt := path_join lig_dir (slug +:+ ".pdbqt") in
  _ ← obabel_run env
        ["obabel"; "-:" +:+ str (smiles lig); "--gen3d"; "-O"; ligand_pdbqt; "-h"];
  let pose_name := slug +:+ "_vina_out.pdbqt" in
  let log_name := slug +:+ "_vina.log" in
  let out_pose := path_join lig_dir pose_name in
  let out_log := path_join lig_dir log_name in
  meta ← Vina.run_vina py_float (vina_env env) (vina_exe cfg) rec_pdbqt
           ligand_pdbqt out_pose out_log center size (exhaustiveness cfg) 9;
  let d := <["log" := VStr (out_dir_of slug +:+ "/" +:+ log_name)]>
             (<["pose" := VStr (out_dir_of slug +:+ "/" +:+ pose_name)]> meta) in
  let pdb_name := slug +:+ "_vina_pose.pdb" in
  if _pdbqt_to_pdb env out_pose (path_join lig_dir pdb_name)
  then Ok (d, Some {[ "format" := VStr "pdb";
                      "path" := VStr (out_dir_of slug +:+ "/" +:+ pdb_name) ]})
  else Ok (d, None).

(** Lines 263-337: the optional docking of one ligand. *)
Definition dock_stage (cfg : Config) (env : LigEnv) (slug : string)
    (lig : Ligand) : Ligand :=
  if bool_decide (dock_mode cfg ∈ ["swissdock"; "vina"])
  then
    match dock_center cfg, dock_size cfg with
    | Some center, Some size =>
        if bool_decide (dock_mode cfg = "swissdock")
        then
          match receptor_path cfg with
          | Some receptor =>
              if negb (PyStr.nonempty receptor) || negb (path_exists env receptor)
              then set_docking
                     (Some (error_record "swissdock"
                              "SwissDock needs --receptor (PDB file).")) lig
              else if negb (truthy (smiles lig))
              then set_docking
                     (Some (error_record "swissdock"
                              "SwissDock needs SMILES (or extend client to upload MOL2).")) lig
              else set_docking
                     (Some (try_except
                              (swissdock_try cfg env slug lig receptor center size)
                              (λ e, error_record "swissdock" (exn_str e)))) lig
          | None =>
              set_docking
                (Some (error_record "swissdock"
                         "SwissDock needs --receptor (PDB file).")) lig
          end
        else if bool_decide (dock_mode cfg = "vina")
        then
          if negb (opt_truthy (receptor_pdbqt cfg))
          then set_docking
                 (Some (error_record "vina" "Vina requires --receptor-pdbqt")) lig
          else if negb (truthy (smiles lig))
          then set_docking
                 (Some (error_record "vina"
                          "Vina path here expects you provide ligand PDBQT (extend to auto-prep).")) lig
          else
            match vina_try cfg env slug lig (default "" (receptor_pdbqt cfg))
                           center size with
            | Ok (d, Some p) => set_pose (Some p) (set_docking (Some d) lig)
            | Ok (d, None) => set_docking (Some d) lig
            | Raise e => set_docking (Some (error_record "vina" (exn_str e))) lig
            end
        else lig
    | _, _ =>
        set_docking
          (Some (error_record (dock_mode cfg)
                   "Docking requested but --center/--size not provided")) lig
    end
  else lig.

(** The body of [for lig in ligs]: the outcome and the object as the
    body leaves it, also when it raises. *)
Definition process_ligand (cfg : Config) (env : LigEnv) (lig : Ligand)
    : result unit * Ligand :=
  let slug := _safe_slug (name lig) in
  let lig := set_attr "out_dir" (VStr (out_dir_of slug)) lig in
  match mkdir env (lig_dir_of cfg slug) with
  | Raise e => (Raise e, lig)
  | Ok _ =>
      match pubchem_stage env lig with
      | (Raise e, lig) => (Raise e, lig)
      | (Ok _, lig) =>
          let lig := chembl_stage cfg env lig in
          match image_stage cfg env slug lig with
          | (Raise e, lig) => (Raise e, lig)
          | (Ok _, lig) =>
              let lig := rdkit_stage cfg env slug lig in
              (Ok tt, dock_stage cfg env slug lig)
          end
      end
  end.

(** The loop; [envs i] is the world while the [i]-th ligand is processed.
    An exception leaves the later objects untouched. *)
Fixpoint process_all (cfg : Config) (envs : nat → LigEnv) (i : nat)
    (ligs : list Ligand) : result unit * list Ligand :=
  match ligs with
  | [] => (Ok tt, [])
  | lig :: rest =>
      match process_ligand cfg (envs i) lig with
      | (Raise e, lig') => (Raise e, lig' :: rest)
      | (Ok _, lig') =>
          let '(r, rest') := process_all cfg envs (S i) rest in
          (r, lig' :: rest')
      end
  end.

(** The outside world of one call of [build_site].  [setup_site] creates
    the output directories and copies the template; [read_rows] opens
    the ligand file and runs [csv.DictReader] over it; [place_structure]
    copies the receptor or downloads the mmCIF file and answers the
    structure URL of the manifest; [ingest_recon] collects the case
    snapshots, writes [data/cases.json] and answers [bool(cases)]. *)
Record Env := mkEnv {
  have_rdkit : bool;
  setup_site : string → result unit;
  read_rows : string → result (list Io.Row);
  place_structure : option string → option string → result string;
  ingest_recon : option string → result bool;
  lig_envs : nat → LigEnv;
  write_json : string → result unit
}.

(** What a build leaves in the output directory, as far as it is
    followed here: [data/molecules.json] and [manifest.json]. *)
Record Site := mkSite {
  molecules : list dict;
  manifest : dict
}.

(** Lines 98-108. *)
Definition norm_docking (a : Args.t) : string :=
  if PyStr.nonempty (Args.docking_backend a)
     && (negb (PyStr.nonempty (Args.docking a))
         || bool_decide (Args.docking a = "none"))
  then Args.docking_backend a else Args.docking a.

Definition norm_vina_exe (a : Args.t) : string :=
  if PyStr.nonempty (Args.vina_path a)
     && (negb (PyStr.nonempty (Args.vina_exe a))
         || bool_decide (Args.vina_exe a = "vina"))
  then Args.vina_path a else Args.vina_exe a.

Definition norm_center (a : Args.t) : box_arg :=
  if box_truthy (Args.box_center a) && negb (box_truthy (Args.center a))
  then Args.box_center a else Args.center a.

Definition norm_size (a : Args.t) : box_arg :=
  if box_truthy (Args.box_size a) && negb (box_truthy (Args.size a))
  then Args.box_size a else Args.size a.

Definition norm_exhaustiveness (a : Args.t) : Z :=
  if negb (Args.exhaust a =? 0)
     && ((Args.exhaustiveness a =? 0) || (Args.exhaustiveness a =? 8))
  then Args.exhaust a else Args.exhaustiveness a.

(** [_parse_xyz(b) if b else None] *)
Definition parse_box (b : box_arg) : result (option xyz) :=
  if box_truthy b then t ← _parse_xyz b; Ok (Some t) else Ok None.

(** Everything [build_site] does before its loop; no ligand is touched.
    [defaults] are the objects of the module-level [DEFAULT_LIGANDS] as
    they are when the call starts: [list(DEFAULT_LIGANDS)] copies the
    list, not the objects.  The boolean tells whether the ligands are
    those shared objects. *)
Definition prelude (env : Env) (a : Args.t) (defaults : list Ligand)
    : result (list Ligand * bool * Config * string * bool) :=
  _ ← setup_site env (Args.out_dir a);
  '(ligs, shared) ←
     (if opt_truthy (Args.ligands_path a)
      then rows ← read_rows env (default "" (Args.ligands_path a));
           Ok (Io.read_ligands_csv_tsv rows, false)
      else Ok (defaults, true));
  structure_url ← place_structure env (Args.receptor_path a) (Args.pdb_id a);
  has_cases ← ingest_recon env (Args.recon_path a);
  let dock_mode :=
    PyStr.lower (if PyStr.nonempty (norm_docking a) then norm_docking a else "none") in
  dock_center ← parse_box (norm_center a);
  dock_size ← parse_box (norm_size a);
  Ok (ligs, shared,
      {| out := Args.out_dir a; dock_mode := dock_mode;
         dock_center := dock_center; dock_size := dock_size;
         rdkit_ok := have_rdkit env; no_chembl := Args.no_chembl a;
         image_size := Args.image_size a;
         receptor_path := Args.receptor_path a;
         receptor_pdbqt := Args.receptor_pdbqt a;
         swissdock_retrieve := Args.swissdock_retrieve a;
         vina_exe := norm_vina_exe a;
         exhaustiveness := norm_exhaustiveness a |},
      structure_url, has_cases).

(** Lines 340-354. *)
Definition write_outputs (env : Env) (a : Args.t) (ligs : list Ligand)
    (structure_url : string) (has_cases : bool) : result Site :=
  let mols := to_dict <$> ligs in
  _ ← write_json env (path_join (path_join (Args.out_dir a) "data") "molecules.json");
  let hot := if bool_decide (Args.highlight_resi a = [])
             then [1196; 1202] else Args.highlight_resi a in
  let man : dict :=
    {[ "project" := VStr "ALK-VisDock";
       "structure_url" := VStr structure_url;
       "highlight_resi" := VTuple ((λ z, VAtom (SInt z)) <$> hot);
       "has_cases" := VAtom (SBool has_cases) ]} in
  _ ← write_json env (path_join (Args.out_dir a) "manifest.json");
  Ok {| molecules := mols; manifest := man |}.

(** [build_site]: the outcome of the call, and the objects of
    [DEFAULT_LIGANDS] as the call leaves them. *)
Definition build_site (env : Env) (a : Args.t) (defaults : list Ligand)
    : result Site * list Ligand :=
  match prelude env a defaults with
  | Raise e => (Raise e, defaults)
  | Ok (ligs, shared, cfg, structure_url, has_cases) =>
      let '(r, ligs') := process_all cfg (lig_envs env) 0 ligs in
      let defaults' := if shared then ligs' else defaults in
      match r with
      | Raise e => (Raise e, defaults')
      | Ok _ => (write_outputs env a ligs' structure_url has_cases, defaults')
      end
  end.

End WithFloat.

(** The test [build_site] applies to the name of each JSON file of the
    recon directory (line 158). *)
Definition ingests_snapshot (file_name : string) : bool :=
  PyStr.contains "case_snapshot" file_name.

(** [l'] still has what the input gave for [l]: the name and the notes,
    and every identifier or SMILES that was not empty. *)
Definition keeps_input (l l' : Ligand) : Prop :=
  name l' = name l
  ∧ notes l' = notes l
  ∧ (PyStr.nonempty (pubchem_cid l) = true → pubchem_cid l' = pubchem_cid l)
  ∧ (PyStr.nonempty (chembl_id l) = true → chembl_id l' = chembl_id l)
  ∧ (truthy (smiles l) = true → smiles l' = smiles l).


(** The object has no [descriptors] attribute. *)
Definition no_descriptors (l : Ligand) : Prop := attrs l !! "descriptors" = None.

(** The same configuration on a machine with or without RDKit. *)
Definition with_rdkit (b : bool) (cfg : Config) : Config :=
  mkConfig (out cfg) (dock_mode cfg) (dock_center cfg) (dock_size cfg) b
    (no_chembl cfg) (image_size cfg) (receptor_path cfg) (receptor_pdbqt cfg)
    (swissdock_retrieve cfg) (vina_exe cfg) (exhaustiveness cfg).

End Build.

(* ================================================================== *)
(** ** [__main__.py] *)
(* ================================================================== *)

Module Main.
Import Py.

(** The builtin [int(s)] on text: blanks around, an optional sign, then
    decimal digits, single underscores allowed between digits.  The
    blanks of [int] are those of [str.strip] without the four separators
    FS, GS, RS and US. *)
Definition int_blank (c : ascii) : bool :=
  PyStr.isspace c && negb (PyStr.between 28 31 c).

Fixpoint lstrip_blanks (s : string) : string :=
  match s with
  | EmptyString => EmptyString
  | String c r => if int_blank c then lstrip_blanks r else s
  end.

Fixpoint rstrip_blanks (s : string) : string :=
  match s with
  | EmptyString => EmptyString
  | String c r =>
      let r' := rstrip_blanks r in
      if negb (PyStr.nonempty r') && int_blank c then EmptyString else String c r'
  end.

Definition digit_val (c : ascii) : Z := Z.of_N (PyStr.code c) - 48.

Fixpoint int_digits (acc : Z) (after_digit : bool) (s : string) : option Z :=
  match s with
  | EmptyString => if after_digit then Some acc else None
  | String c r =>
      if SwissDock.is_digit c then int_digits (10 * acc + digit_val c) true r
      else if Ascii.eqb c "_" && after_digit then int_digits acc false r
      else None
  end.

Definition py_int (s : string) : option Z :=
  match rstrip_blanks (lstrip_blanks s) with
  | String "+" r => int_digits 0 false r
  | String "-" r => Z.opp <$> int_digits 0 false r
  | t => int_digits 0 false t
  end.

(** The namespace [parse_args] returns for [build]. *)
Record Namespace := mkNamespace {
  out : string;
  ligands : string;
  pdb_id : string;
  receptor : string;
  highlight : string;
  docking : string;
  vina_path : string;
  receptor_pdbqt : string;
  box_center : string;
  box_size : string;
  exhaust : Z;
  max : Z;
  recon : string
}.

(** [s or None] *)
Definition or_none (s : string) : option string :=
  if PyStr.nonempty s then Some s else None.

(** [sequence] for the comprehensions that convert every piece. *)
Fixpoint convert_all {A} (f : string → result A) (l : list string)
    : result (list A) :=
  match l with
  | [] => Ok []
  | x :: rest => a ← f x; r ← convert_all f rest; Ok (a :: r)
  end.

Definition int_or_raise (s : string) : result Z :=
  match py_int s with
  | Some z => Ok z
  | None => Raise (ValueError ("invalid literal for int() with base 10: " +:+ s))
  end.

Section WithFloat.

Variable py_float : string → option pyfloat.

(** [tuple(float(x) for x in s.split(",")) if s else None] *)
Definition box_of (s : string) : result Build.box_arg :=
  if PyStr.nonempty s
  then t ← convert_all (Build.float_or_raise py_float) (PyStr.split "," s);
       Ok (Build.BoxTuple t)
  else Ok Build.BoxNone.

(** The keyword arguments of the call of [build_site] in [_build_cmd]:
    the parameters it names, the defaults of the signature for the
    others, and [max_ligands], which no parameter is named after, in
    [**_ignored]. *)
Definition build_args (args : Namespace) (highlight : list Z)
    (box_center box_size : Build.box_arg) : Build.Args.t :=
  {| Build.Args.out_dir := out args;
     Build.Args.ligands_path := or_none (ligands args);
     Build.Args.recon_path := or_none (recon args);
     Build.Args.receptor_path := or_none (receptor args);
     Build.Args.pdb_id := or_none (pdb_id args);
     Build.Args.docking := docking args;
     Build.Args.docking_backend := "";
     Build.Args.swissdock_retrieve := false;
     Build.Args.vina_path := vina_path args;
     Build.Args.vina_exe := "vina";
     Build.Args.receptor_pdbqt := or_none (receptor_pdbqt args);
     Build.Args.box_center := box_center;
     Build.Args.box_size := box_size;
     Build.Args.exhaust := exhaust args;
     Build.Args.max_poses := 0;
     Build.Args.center := Build.BoxStr "";
     Build.Args.size := Build.BoxStr "";
     Build.Args.exhaustiveness := 8;
     Build.Args.image_size := 420;
     Build.Args.no_chembl := false;
     Build.Args.highlight_resi := highlight;
     Build.Args._ignored := {[ "max_ligands" := VAtom (SInt (max args)) ]} |}.

(** [_build_cmd], after [parse_args]: the exit status together with the
    site built, and the objects of [DEFAULT_LIGANDS] afterwards. *)
Definition _build_cmd (env : Build.Env) (args : Namespace)
    (defaults : list Models.Ligand)
    : result (Z * Build.Site) * list Models.Ligand :=
  let parsed :=
    highlight ← convert_all int_or_raise
      (filter (λ x, PyStr.nonempty (PyStr.strip x) = true)
              (PyStr.split "," (highlight args)));
    box_center ← box_of (box_center args);
    box_size ← box_of (box_size args);
    Ok (build_args args highlight box_center box_size) in
  match parsed with
  | Raise e => (Raise e, defaults)
  | Ok a =>
      match Build.build_site py_float env a defaults with
      | (Raise e, defaults') => (Raise e, defaults')
      | (Ok site, defaults') => (Ok (0, site), defaults')
      end
  end.

End WithFloat.

End Main.

(* ================================================================== *)
(** ** Concrete worlds and inputs, used to run the definitions *)
(* ================================================================== *)

Module Examples.
Import Py.

(** A process that fails, with text on both streams. *)
Definition failing_proc : Vina.CompletedProcess :=
  Vina.mkProc 1 "Parse error on line 3" "vina: bad receptor".

Definition vina_failing : Vina.Env :=
  {| Vina.mkdir_parent := λ _, Ok tt;
     Vina.subprocess_run := λ _, Ok failing_proc;
     Vina.read_lines := λ _, Ok [] |}.

Definition one : pyfloat := PyFloat false "1.0".
Definition box : pyfloat * pyfloat * pyfloat := (one, one, one).

(** A SwissDock service that accepts the job and answers the status
    requests with the texts of [statuses], then with ["running"]. *)
Definition swissdock_answers (statuses : list string) : SwissDock.Env :=
  {| SwissDock.mkdir := λ _, Ok tt;
     SwissDock.subprocess_run := λ _, Ok (Vina.mkProc 0 "" "");
     SwissDock.preplig_text := λ _, Ok "Session number: 42";
     SwissDock.preptarget_post := λ _ _, Ok tt;
     SwissDock.setparameters_get := λ _ _ _ _, Ok tt;
     SwissDock.startdock_get := λ _, Ok tt;
     SwissDock.checkstatus_text := λ k _, Ok (default "running" (statuses !! k));
     SwissDock.waited := λ _, 0%Q;
     SwissDock.retrievesession_get := λ _ _, Ok tt |}.

(** A machine without network, RDKit or docking programs. *)
Definition offline {A} : result A := Raise (HTTPError "offline").

Definition lig_offline : Build.LigEnv :=
  {| Build.mkdir := λ _, Ok tt;
     Build.resolve_name_to_cid := λ _, offline;
     Build.props_by_cid := λ _, offline;
     Build.props_by_smiles := λ _, offline;
     Build.name_search := λ _, offline;
     Build.download_png_by_cid := λ _ _ _, offline;
     Build.download_png_by_smiles := λ _ _ _, offline;
     Build.draw_2d_png := λ _ _ _, Raise (OSError "no rdkit");
     Build.compute_descriptors := λ _, Raise (OSError "no rdkit");
     Build.smiles_to_3d_sdf := λ _ _, Raise (OSError "no rdkit");
     Build.path_exists := λ _, true;
     Build.swissdock_env := swissdock_answers [];
     Build.obabel_run := λ _, Raise (OSError "obabel not found");
     Build.vina_env := vina_failing;
     Build.read_pose_lines := λ _, Raise (OSError "no such file");
     Build.write_text := λ _ _, Ok tt |}.

(** The same machine with a PubChem that knows one row. *)
Definition lig_pubchem (row : gmap string scalar) : Build.LigEnv :=
  {| Build.mkdir := λ _, Ok tt;
     Build.resolve_name_to_cid := λ _, Ok "11626560";
     Build.props_by_cid := λ _, Ok (Build.Row row);
     Build.props_by_smiles := λ _, Ok (Build.Row row);
     Build.name_search := λ _, offline;
     Build.download_png_by_cid := λ _ _ _, Ok true;
     Build.download_png_by_smiles := λ _ _ _, Ok true;
     Build.draw_2d_png := λ _ _ _, Raise (OSError "no rdkit");
     Build.compute_descriptors := λ _, Raise (OSError "no rdkit");
     Build.smiles_to_3d_sdf := λ _ _, Raise (OSError "no rdkit");
     Build.path_exists := λ _, true;
     Build.swissdock_env := swissdock_answers [];
     Build.obabel_run := λ _, Raise (OSError "obabel not found");
     Build.vina_env := vina_failing;
     Build.read_pose_lines := λ _, Raise (OSError "no such file");
     Build.write_text := λ _ _, Ok tt |}.

Definition two_rows : list Io.Row :=
  [ {[ "name" := Some "crizotinib"; "smiles" := Some "" ]};
    {[ "name" := Some "ceritinib"; "smiles" := Some "" ]} ].

(** A build on a machine where every ligand meets the world [le] and
    the ligand file holds [rows]. *)
Definition env_with (le : Build.LigEnv) (rows : list Io.Row) : Build.Env :=
  {| Build.have_rdkit := false;
     Build.setup_site := λ _, Ok tt;
     Build.read_rows := λ _, Ok rows;
     Build.place_structure := λ _ _, Ok "";
     Build.ingest_recon := λ _, Ok false;
     Build.lig_envs := λ _, le;
     Build.write_json := λ _, Ok tt |}.

Definition env_offline (rows : list Io.Row) : Build.Env := env_with lig_offline rows.

(** [build --ligands ligands.csv --max 1], every other option at the
    default of the parser. *)
Definition build_max_1 : Main.Namespace :=
  {| Main.out := "site"; Main.ligands := "ligands.csv"; Main.pdb_id := "";
     Main.receptor := ""; Main.highlight := "1196,1202";
     Main.docking := "none"; Main.vina_path := "vina";
     Main.receptor_pdbqt := ""; Main.box_center := ""; Main.box_size := "";
     Main.exhaust := 8; Main.max := 1; Main.recon := "" |}.

(** A configuration that selects [mode] with a box and a receptor. *)
Definition config_with_box (mode : string) : Build.Config :=
  {| Build.out := "site"; Build.dock_mode := mode;
     Build.dock_center := Some box; Build.dock_size := Some box;
     Build.rdkit_ok := false; Build.no_chembl := false;
     Build.image_size := 420; Build.receptor_path := Some "alk.pdb";
     Build.receptor_pdbqt := Some "alk.pdbqt";
     Build.swissdock_retrieve := true; Build.vina_exe := "vina";
     Build.exhaustiveness := 8 |}.

(** The same without the box. *)
Definition config_without_box (mode : string) : Build.Config :=
  {| Build.out := "site"; Build.dock_mode := mode;
     Build.dock_center := None; Build.dock_size := None;
     Build.rdkit_ok := false; Build.no_chembl := false;
     Build.image_size := 420; Build.receptor_path := Some "alk.pdb";
     Build.receptor_pdbqt := Some "alk.pdbqt";
     Build.swissdock_retrieve := true; Build.vina_exe := "vina";
     Build.exhaustiveness := 8 |}.

Definition crizotinib : Models.Ligand :=
  Models.new_ligand "crizotinib" "CC(C1=C(C=CC(=C1Cl)F)Cl)OC2=C(N=CC(=C2)C3=CN(N=C3)C4CCNCC4)N"
                    "11626560" "" "".

(** A ligand that already carries an IUPAC name, and a fetched row that
    carries another. *)
Definition named_ligand : Models.Ligand :=
  Models.mkLigand "crizotinib" (SStr "") "11626560" "" "" (SStr "old name")
    "" "" "" "" "" "" "" "" "" None None ∅.

Definition fetched_row : gmap string scalar :=
  {[ "IUPACName" := SStr "new name" ]}.

(** The arguments [_build_cmd] passes to [build_site] for that command
    line. *)
Definition args_max_1 : Build.Args.t :=
  Main.build_args build_max_1 [1196; 1202] Build.BoxNone Build.BoxNone.

(** What the build leaves for those arguments when PubChem answers with
    [fetched_row] and the file holds [two_rows]; the empty site stands
    for a build that raises. *)
Definition built_site : Build.Site :=
  match (Build.build_site (λ _, None) (env_with (lig_pubchem fetched_row) two_rows)
                          args_max_1 Build.DEFAULT_LIGANDS).1 with
  | Ok site => site
  | Raise _ => Build.mkSite [] ∅
  end.

(** A [float] that knows the numbers of the examples below. *)
Definition float_table (s : string) : option pyfloat :=
  if bool_decide (s ∈ ["-7.5"; "1"; "2"; "3"; "20"])
  then Some (PyFloat false s) else None.

(** The log of a Vina run: the header of the result table, then its
    rows. *)
Definition vina_log : list string :=
  [ "mode |   affinity | dist from best mode";
    "-----+------------+----------+----------";
    "   1       -7.5      0.000      0.000";
    "   2       -7.1      1.201      2.047" ].

(** A Vina that exits with code 0 and leaves [vina_log]. *)
Definition vina_succeeding : Vina.Env :=
  {| Vina.mkdir_parent := λ _, Ok tt;
     Vina.subprocess_run := λ _, Ok (Vina.mkProc 0 "" "");
     Vina.read_lines := λ _, Ok vina_log |}.


(** A machine without network where RDKit works. *)
Definition lig_rdkit : Build.LigEnv :=
  {| Build.mkdir := λ _, Ok tt;
     Build.resolve_name_to_cid := λ _, offline;
     Build.props_by_cid := λ _, offline;
     Build.props_by_smiles := λ _, offline;
     Build.name_search := λ _, offline;
     Build.download_png_by_cid := λ _ _ _, offline;
     Build.download_png_by_smiles := λ _ _ _, offline;
     Build.draw_2d_png := λ _ _ _, Ok tt;
     Build.compute_descriptors := λ _, Ok {[ "mw" := SStr "450.3" ]};
     Build.smiles_to_3d_sdf := λ _ _, Ok tt;
     Build.path_exists := λ _, true;
     Build.swissdock_env := swissdock_answers [];
     Build.obabel_run := λ _, Raise (OSError "obabel not found");
     Build.vina_env := vina_failing;
     Build.read_pose_lines := λ _, Raise (OSError "no such file");
     Build.write_text := λ _ _, Ok tt |}.

(** [build --docking vina], without a ligand file. *)
Definition build_vina : Main.Namespace :=
  {| Main.out := "site"; Main.ligands := ""; Main.pdb_id := "";
     Main.receptor := ""; Main.highlight := "1196,1202";
     Main.docking := "vina"; Main.vina_path := "vina";
     Main.receptor_pdbqt := "alk.pdbqt"; Main.box_center := ""; Main.box_size := "";
     Main.exhaust := 8; Main.max := 50; Main.recon := "" |}.

(** The same with [--box-center 1,2,3 --box-size 20,20,20]. *)
Definition build_vina_box : Main.Namespace :=
  {| Main.out := "site"; Main.ligands := ""; Main.pdb_id := "";
     Main.receptor := ""; Main.highlight := "1196,1202";
     Main.docking := "vina"; Main.vina_path := "vina";
     Main.receptor_pdbqt := "alk.pdbqt";
     Main.box_center := "1,2,3"; Main.box_size := "20,20,20";
     Main.exhaust := 8; Main.max := 50; Main.recon := "" |}.

(** [build --highlight 1196,L1196M]. *)
Definition build_bad_highlight : Main.Namespace :=
  {| Main.out := "site"; Main.ligands := ""; Main.pdb_id := "";
     Main.receptor := ""; Main.highlight := "1196,L1196M";
     Main.docking := "none"; Main.vina_path := "vina";
     Main.receptor_pdbqt := ""; Main.box_center := ""; Main.box_size := "";
     Main.exhaust := 8; Main.max := 50; Main.recon := "" |}.

(** [build], every option at the default of the parser. *)
Definition build_plain : Main.Namespace :=
  {| Main.out := "site"; Main.ligands := ""; Main.pdb_id := "";
     Main.receptor := ""; Main.highlight := "1196,1202";
     Main.docking := "none"; Main.vina_path := "vina";
     Main.receptor_pdbqt := ""; Main.box_center := ""; Main.box_size := "";
     Main.exhaust := 8; Main.max := 50; Main.recon := "" |}.

(** What [build --docking vina] returns on the machine without network;
    the empty site stands for a command that raises. *)
Definition vina_cli_site : Build.Site :=
  match (Main._build_cmd (λ _, None) (env_offline []) build_vina
                         Build.DEFAULT_LIGANDS).1 with
  | Ok (_, site) => site
  | Raise _ => Build.mkSite [] ∅
  end.

(** The objects of [DEFAULT_LIGANDS] after that command. *)
Definition defaults_after_vina : list Models.Ligand :=
  (Main._build_cmd (λ _, None) (env_offline []) build_vina Build.DEFAULT_LIGANDS).2.

(** The arguments of a plain [build] and the site it returns when it
    runs after [build --docking vina] in the same process. *)
Definition args_plain : Build.Args.t :=
  Main.build_args build_plain [1196; 1202] Build.BoxNone Build.BoxNone.

Definition second_site : Build.Site :=
  match (Build.build_site (λ _, None) (env_offline []) args_plain
                          defaults_after_vina).1 with
  | Ok site => site
  | Raise _ => Build.mkSite [] ∅
  end.





(** A PubChem whose property table holds a JSON array where a row is
    expected. *)
Definition lig_pubchem_array : Build.LigEnv :=
  {| Build.mkdir := λ _, Ok tt;
     Build.resolve_name_to_cid := λ _, Ok "11626560";
     Build.props_by_cid := λ _, Ok (Build.Array 1);
     Build.props_by_smiles := λ _, Ok (Build.Array 1);
     Build.name_search := λ _, offline;
     Build.download_png_by_cid := λ _ _ _, Ok true;
     Build.download_png_by_smiles := λ _ _ _, Ok true;
     Build.draw_2d_png := λ _ _ _, Raise (OSError "no rdkit");
     Build.compute_descriptors := λ _, Raise (OSError "no rdkit");
     Build.smiles_to_3d_sdf := λ _ _, Raise (OSError "no rdkit");
     Build.path_exists := λ _, true;
     Build.swissdock_env := swissdock_answers [];
     Build.obabel_run := λ _, Raise (OSError "obabel not found");
     Build.vina_env := vina_failing;
     Build.read_pose_lines := λ _, Raise (OSError "no such file");
     Build.write_text := λ _ _, Ok tt |}.

End Examples.

(* ================================================================== *)
(** * Properties *)
(* ================================================================== *)

(** ** Facts about the [str] methods *)

Module PyStrFacts.
Import PyStr.

Lemma chars_cons c s : chars (String c s) = c :: chars s.
Proof. reflexivity. Qed.

Lemma nonempty_false s : nonempty s = false ↔ s = "".
Proof. destruct s; simpl; split; congruence. Qed.

Lemma nonempty_true s : nonempty s = true ↔ s ≠ "".
Proof. destruct s; simpl; split; congruence. Qed.

Lemma lstrip_all_space s :
  Forall (λ c, isspace c = true) (chars s) → lstrip s = "".
Proof.
  induction s as [|c s IH]; [done|].
  rewrite chars_cons. inversion 1 as [|?? Hc Hs]; subst.
  simpl. rewrite Hc. auto.
Qed.

Lemma strip_all_space s :
  Forall (λ c, isspace c = true) (chars s) → strip s = "".
Proof. intros H. unfold strip. by rewrite lstrip_all_space. Qed.

Lemma take_length n s : (String.length (take n s) ≤ n)%nat.
Proof.
  revert s; induction n as [|n IH]; intros [|c s]; simpl; try lia.
  specialize (IH s). lia.
Qed.

Lemma take_chars (P : ascii → Prop) n s :
  Forall P (chars s) → Forall P (chars (take n s)).
Proof.
  revert s; induction n as [|n IH]; intros [|c s] H; try constructor.
  - rewrite chars_cons in H. by inversion H.
  - apply IH. rewrite chars_cons in H. by inversion H.
Qed.

Lemma take_nonempty n s : nonempty s = true → nonempty (take (S n) s) = true.
Proof. by destruct s. Qed.

Lemma app_nil_r s : s +:+ "" = s.
Proof. induction s; simpl; unfold String.app in *; simpl; congruence. Qed.

Lemma app_assoc (a b c : string) : (a +:+ b) +:+ c = a +:+ (b +:+ c).
Proof. induction a; unfold String.app in *; simpl; congruence. Qed.

Lemma app_cons c (a b : string) : String c a +:+ b = String c (a +:+ b).
Proof. reflexivity. Qed.

Lemma startswith_app p s : startswith (p +:+ s) p = true.
Proof.
  induction p as [|c p IH]; [by destruct s|].
  rewrite app_cons. simpl. by rewrite Ascii.eqb_refl.
Qed.

Lemma contains_unfold sub s :
  contains sub s
  = startswith s sub
    || match s with
       | EmptyString => false
       | String _ r => contains sub r
       end.
Proof. by destruct s. Qed.

(** [sub in (a + sub + b)] *)
Lemma contains_app sub a b : contains sub (a +:+ sub +:+ b) = true.
Proof.
  induction a as [|c a IH].
  - change ("" +:+ sub +:+ b) with (sub +:+ b).
    by rewrite contains_unfold, startswith_app.
  - rewrite app_cons, contains_unfold, IH. apply orb_true_r.
Qed.

Lemma startswith_split s p :
  startswith s p = true → ∃ r, s = p +:+ r.
Proof.
  revert s; induction p as [|c p IH]; intros s H.
  - by exists s.
  - destruct s as [|d s]; simpl in H; [done|].
    destruct (Ascii.eqb c d) eqn:E; [|done].
    apply Ascii.eqb_eq in E as ->.
    destruct (IH _ H) as [r ->]. by exists r.
Qed.

(** The operator [in] finds exactly the substrings. *)
Lemma contains_spec sub s :
  contains sub s = true ↔ ∃ a b, s = a +:+ sub +:+ b.
Proof.
  split.
  - induction s as [|c s IH]; rewrite contains_unfold, orb_true_iff; intros [H|H].
    + destruct (startswith_split _ _ H) as [r ->]. by exists "", r.
    + done.
    + destruct (startswith_split _ _ H) as [r ->]. by exists "", r.
    + destruct (IH H) as (a & b & ->). by exists (String c a), b.
  - intros (a & b & ->). apply contains_app.
Qed.

End PyStrFacts.

(** ** [_safe_slug] *)

Lemma slug_char_alphabet c :
  Build.slug_char c = bool_decide (c ∈ PyStr.chars Build.slug_alphabet).
Proof. destruct c as [[] [] [] [] [] [] [] []]; vm_compute; reflexivity. Qed.

Lemma slug_char_elem c :
  Build.slug_char c = true → c ∈ PyStr.chars Build.slug_alphabet.
Proof. rewrite slug_char_alphabet. apply bool_decide_eq_true. Qed.

Lemma sub_runs_chars b s :
  Forall (λ c, Build.slug_char c = true) (PyStr.chars (Build.sub_runs b s)).
Proof.
  revert b; induction s as [|c s IH]; intros b; [constructor|].
  simpl. destruct (Build.slug_char c) eqn:Hc.
  - rewrite PyStrFacts.chars_cons. constructor; auto.
  - destruct b; [apply IH|].
    rewrite PyStrFacts.chars_cons. constructor; [reflexivity|apply IH].
Qed.

(** C10: [_safe_slug] always returns a non-empty string of at most 80
    characters, all of them in [A-Za-z0-9._-]; an input that is empty or
    made of white space only gives ["item"]. *)
Theorem safe_slug_wellformed (s : string) :
  Build._safe_slug s ≠ ""
  ∧ (String.length (Build._safe_slug s) ≤ 80)%nat
  ∧ Forall (λ c, c ∈ PyStr.chars Build.slug_alphabet)
           (PyStr.chars (Build._safe_slug s))
  ∧ (Forall (λ c, PyStr.isspace c = true) (PyStr.chars s) →
     Build._safe_slug s = "item").
Proof.
  unfold Build._safe_slug.
  set (t := Build.sub_runs false _).
  assert (Ht : Forall (λ c, Build.slug_char c = true) (PyStr.chars t))
    by apply sub_runs_chars.
  split_and!.
  - destruct (PyStr.nonempty t) eqn:E; [|done].
    apply PyStrFacts.nonempty_true. by apply PyStrFacts.take_nonempty.
  - destruct (PyStr.nonempty t); [apply PyStrFacts.take_length|simpl; lia].
  - apply (Forall_impl (λ c, Build.slug_char c = true)); [|apply slug_char_elem].
    destruct (PyStr.nonempty t); [by apply PyStrFacts.take_chars|].
    repeat constructor.
  - intros Hs. subst t.
    assert (PyStr.strip (if PyStr.nonempty s then s else "") = "") as ->; [|done].
    destruct (PyStr.nonempty s); [by apply PyStrFacts.strip_all_space|done].
Qed.

Lemma safe_slug_wellformed_witness :
  Forall (λ c, PyStr.isspace c = true) (PyStr.chars "  ")
  ∧ Build._safe_slug "  " = "item".
Proof.
  assert (H : Forall (λ c, PyStr.isspace c = true) (PyStr.chars "  "))
    by (repeat constructor).
  split; [exact H|].
  exact (proj2 (proj2 (proj2 (safe_slug_wellformed "  "))) H).
Defined.

(** ** [Ligand.to_dict] *)

Lemma dict_truthy_nonempty (d : Py.dict) : Py.dict_truthy d = true ↔ d ≠ ∅.
Proof.
  unfold Py.dict_truthy. rewrite negb_true_iff, bool_decide_eq_false.
  by rewrite map_size_empty_iff.
Qed.

Lemma asdict_docking l :
  Models.asdict l !! "docking" = Some (Models.opt_dict (Models.docking l)).
Proof. reflexivity. Qed.

Lemma asdict_pose l :
  Models.asdict l !! "pose" = Some (Models.opt_dict (Models.pose l)).
Proof. reflexivity. Qed.

Lemma pop_if_falsy (d : Py.dict) k o :
  d !! k = Some (Models.opt_dict o) →
  (if Models.get_falsy d k then delete k d else d) !! k = Models.kept o.
Proof.
  intros H. unfold Models.get_falsy. rewrite H.
  destruct o as [x|]; simpl.
  - destruct (Py.dict_truthy x); simpl; [exact H | apply lookup_delete_eq].
  - apply lookup_delete_eq.
Qed.

Lemma pop_if_falsy_ne (d : Py.dict) k k' :
  k ≠ k' → (if Models.get_falsy d k then delete k d else d) !! k' = d !! k'.
Proof. intros H. destruct (Models.get_falsy d k); [by apply lookup_delete_ne | done]. Qed.

Lemma to_dict_docking l : Models.to_dict l !! "docking" = Models.kept (Models.docking l).
Proof.
  unfold Models.to_dict. cbv zeta.
  rewrite pop_if_falsy_ne by discriminate.
  apply pop_if_falsy, asdict_docking.
Qed.

Lemma to_dict_pose l : Models.to_dict l !! "pose" = Models.kept (Models.pose l).
Proof.
  unfold Models.to_dict. cbv zeta.
  apply pop_if_falsy. rewrite pop_if_falsy_ne by discriminate. apply asdict_pose.
Qed.

Lemma to_dict_other l k :
  k ≠ "docking" → k ≠ "pose" → Models.to_dict l !! k = Models.asdict l !! k.
Proof.
  intros H1 H2. unfold Models.to_dict. cbv zeta.
  rewrite !pop_if_falsy_ne by congruence. reflexivity.
Qed.

(** The optional keys of one dictionary. *)
Lemma to_dict_keys (l : Models.Ligand) :
  (∀ v, Models.to_dict l !! "docking" = Some v →
        ∃ d, Models.docking l = Some d ∧ d ≠ ∅ ∧ v = Py.VDict d)
  ∧ (∀ v, Models.to_dict l !! "pose" = Some v →
          ∃ d, Models.pose l = Some d ∧ d ≠ ∅ ∧ v = Py.VDict d)
  ∧ (Models.docking l = None → Models.to_dict l !! "docking" = None)
  ∧ (Models.pose l = None → Models.to_dict l !! "pose" = None).
Proof.
  rewrite to_dict_docking, to_dict_pose. unfold Models.kept. split_and!.
  - intros v. destruct (Models.docking l) as [d|]; [|done].
    destruct (Py.dict_truthy d) eqn:E; [|done].
    intros [= <-]. exists d. by rewrite <- dict_truthy_nonempty.
  - intros v. destruct (Models.pose l) as [d|]; [|done].
    destruct (Py.dict_truthy d) eqn:E; [|done].
    intros [= <-]. exists d. by rewrite <- dict_truthy_nonempty.
  - by intros ->.
  - by intros ->.
Qed.
(** ** [read_ligands_csv_tsv] *)

Lemma first_of_blank (row : Io.Row) aliases :
  (∀ k, k ∈ aliases →
        match Io.row_get row k with
        | Some s => Forall (λ c, PyStr.isspace c = true) (PyStr.chars s)
        | None => True
        end) →
  Forall (λ c, PyStr.isspace c = true) (PyStr.chars (Io.first_of row aliases)).
Proof.
  induction aliases as [|k rest IH]; intros H; simpl; [constructor|].
  assert (Hrest : Forall (λ c, PyStr.isspace c = true)
                         (PyStr.chars (Io.first_of row rest))).
  { apply IH. intros k' Hk'. apply H. by right. }
  specialize (H k (list_elem_of_here _ _)).
  destruct (Io.row_get row k) as [s|]; [|done].
  by destruct (PyStr.nonempty s).
Qed.

(** C7: [read_ligands_csv_tsv] returns, in order, the ligands of exactly
    the rows whose name is not blank; a row whose name cell is missing
    or blank under each of the aliases [name] and [Name] is skipped, and
    the rows around it are still read. *)
Theorem read_skips_blank_names (rows : list Io.Row) :
  Io.read_ligands_csv_tsv rows
  = Io.ligand_of_row
      <$> filter (λ row, Io.field row Io.name_aliases ≠ "") rows
  ∧ ∀ before row after,
      rows = before ++ row :: after →
      (∀ k, k ∈ Io.name_aliases →
            match Io.row_get row k with
            | Some s => Forall (λ c, PyStr.isspace c = true) (PyStr.chars s)
            | None => True
            end) →
      Io.read_ligands_csv_tsv rows
      = Io.read_ligands_csv_tsv before ++ Io.read_ligands_csv_tsv after.
Proof.
  assert (Hfm : ∀ rs, Io.read_ligands_csv_tsv rs
                = Io.ligand_of_row
                    <$> filter (λ row, Io.field row Io.name_aliases ≠ "") rs).
  { induction rs as [|row rest IH]; [done|].
    simpl. rewrite filter_cons.
    destruct (PyStr.nonempty (Io.field row Io.name_aliases)) eqn:E; simpl.
    - apply PyStrFacts.nonempty_true in E.
      rewrite decide_True by done. rewrite fmap_cons. by f_equal.
    - apply PyStrFacts.nonempty_false in E.
      rewrite decide_False by (by intros ?). done. }
  split; [apply Hfm|].
  intros before row after -> Hblank.
  rewrite !Hfm, filter_app, filter_cons, fmap_app.
  rewrite decide_False; [done|].
  intros Hne. apply Hne. unfold Io.field.
  by apply PyStrFacts.strip_all_space, first_of_blank.
Qed.

Lemma read_skips_blank_names_witness :
  List.length
    (Io.read_ligands_csv_tsv
       ([ {[ "name" := Some "crizotinib" ]} ]
          ++ {[ "Name" := Some "  "; "smiles" := Some "CCO"; "name" := None ]}
          :: [ {[ "Name" := Some "ceritinib" ]} ])) = 2%nat.
Proof.
  rewrite (proj2 (read_skips_blank_names _) _ _ _ eq_refl).
  - reflexivity.
  - intros k Hk. 
    apply list_elem_of_In in Hk. simpl in Hk.
    destruct Hk as [<-|[<-|[]]]; cbn; repeat constructor.
Defined.
(** ** [run_vina] *)

Lemma contains_prefix sub b : PyStr.contains sub (sub +:+ b) = true.
Proof. apply (PyStrFacts.contains_app sub "" b). Qed.

Lemma contains_suffix sub a : PyStr.contains sub (a +:+ sub) = true.
Proof.
  rewrite <- (PyStrFacts.app_nil_r sub) at 2. apply PyStrFacts.contains_app.
Qed.

Lemma contains_skip sub a b :
  PyStr.contains sub b = true → PyStr.contains sub (a +:+ b) = true.
Proof.
  rewrite !PyStrFacts.contains_spec. intros (x & y & ->).
  exists (a +:+ x), y. by rewrite PyStrFacts.app_assoc.
Qed.

Lemma failed_message_streams cmd p :
  PyStr.contains (Vina.stdout p) (Vina.failed_message cmd p) = true
  ∧ PyStr.contains (Vina.stderr p) (Vina.failed_message cmd p) = true.
Proof.
  unfold Vina.failed_message. split.
  - do 6 apply contains_skip. apply contains_prefix.
  - do 10 apply contains_skip. apply contains_suffix.
Qed.

Lemma run_raises env cmd p :
  Vina.subprocess_run env cmd = Py.Ok p →
  Vina.returncode p ≠ 0 →
  Vina._run env cmd = Py.Raise (Py.RuntimeError (Vina.failed_message cmd p)).
Proof.
  intros Hrun Hrc. unfold Vina._run. rewrite Hrun. simpl.
  apply Z.eqb_neq in Hrc. by rewrite Hrc.
Qed.

(** C6: when the docking process exits with a non-zero return code,
    [run_vina] raises a [RuntimeError] whose message contains the
    captured standard output and the captured standard error; it returns
    no result. *)
Theorem run_vina_nonzero_exit (py_float : string → option Py.pyfloat)
    (env : Vina.Env) (vina_exe receptor ligand out_pdbqt log_path : string)
    (center size : Vina.xyz) (exhaustiveness num_modes : Z)
    (p : Vina.CompletedProcess) :
  Vina.mkdir_parent env out_pdbqt = Py.Ok tt →
  Vina.mkdir_parent env log_path = Py.Ok tt →
  Vina.subprocess_run env
    (Vina.vina_cmd vina_exe receptor ligand out_pdbqt log_path center size
                   exhaustiveness num_modes) = Py.Ok p →
  Vina.returncode p ≠ 0 →
  ∃ msg,
    Vina.run_vina py_float env vina_exe receptor ligand out_pdbqt log_path
                  center size exhaustiveness num_modes
    = Py.Raise (Py.RuntimeError msg)
    ∧ PyStr.contains (Vina.stdout p) msg = true
    ∧ PyStr.contains (Vina.stderr p) msg = true.
Proof.
  intros Ho Hl Hrun Hrc. eexists. split.
  - unfold Vina.run_vina. rewrite Ho, Hl. simpl.
    by rewrite (run_raises _ _ _ Hrun Hrc).
  - apply failed_message_streams.
Qed.

Lemma run_vina_nonzero_exit_witness :
  ∃ msg,
    Vina.run_vina (λ _, None) Examples.vina_failing "vina" "alk.pdbqt"
                  "lig.pdbqt" "out.pdbqt" "vina.log" Examples.box Examples.box 8 9
    = Py.Raise (Py.RuntimeError msg)
    ∧ PyStr.contains "Parse error on line 3" msg = true
    ∧ PyStr.contains "vina: bad receptor" msg = true.
Proof.
  apply (run_vina_nonzero_exit (λ _, None) Examples.vina_failing "vina"
           "alk.pdbqt" "lig.pdbqt" "out.pdbqt" "vina.log" Examples.box
           Examples.box 8 9 Examples.failing_proc);
    [reflexivity | reflexivity | reflexivity | discriminate].
Defined.

Section PollLoop.
Import SwissDock.

(** ** The poll loop of [submit_and_wait] *)



Lemma sleep_refused seconds tr :
  seconds < 0 →
  sleep seconds tr
  = (Py.Raise (Py.ValueError "sleep length must be non-negative"), tr).
Proof.
  intros H. unfold sleep. by rewrite (proj2 (Z.ltb_lt seconds 0) H).
Qed.












End PollLoop.

(** ** The PubChem property merge *)

Lemma or_fetched {A} (conv : Py.scalar → A) (p : gmap string Py.scalar) k old :
  Build.fetched_wins conv (p !! k) (conv old)
    (conv (Py.or_ (Py.get p k (Py.SStr "")) old)).
Proof.
  unfold Build.fetched_wins, Py.or_, Py.get. split.
  - intros v -> Hv. simpl. by rewrite Hv.
  - intros [-> | (v & -> & Hv)]; simpl; [done | by rewrite Hv].
Qed.

Lemma merged_fetched (p : gmap string Py.scalar) k old :
  Build.fetched_wins Py.str (p !! k) old (Build.merged p k old).
Proof. apply (or_fetched Py.str p k (Py.SStr old)). Qed.

(** C1, as the code has it: the merge keeps a non-empty [smiles] and
    fills an empty one from the row; for [iupac], [formula], [mw],
    [xlogp], [hbd], [hba], [tpsa] and [rotb] a truthy value of the row
    replaces the field whether or not it was set, and the old value
    stays only when the row has no value, or a falsy one, for the
    field. *)
Theorem merge_props_fetched_wins (p : gmap string Py.scalar) (l : Models.Ligand) :
  (Py.truthy (Models.smiles l) = true →
   Models.smiles (Build.merge_props p l) = Models.smiles l)
  ∧ (Py.truthy (Models.smiles l) = false →
     Build.fetched_wins id (p !! "CanonicalSMILES") (Py.SStr "")
       (Models.smiles (Build.merge_props p l)))
  ∧ Build.fetched_wins id (p !! "IUPACName") (Models.iupac l)
      (Models.iupac (Build.merge_props p l))
  ∧ Build.fetched_wins Py.str (p !! "MolecularFormula") (Models.formula l)
      (Models.formula (Build.merge_props p l))
  ∧ Build.fetched_wins Py.str (p !! "MolecularWeight") (Models.mw l)
      (Models.mw (Build.merge_props p l))
  ∧ Build.fetched_wins Py.str (p !! "XLogP") (Models.xlogp l)
      (Models.xlogp (Build.merge_props p l))
  ∧ Build.fetched_wins Py.str (p !! "HBondDonorCount") (Models.hbd l)
      (Models.hbd (Build.merge_props p l))
  ∧ Build.fetched_wins Py.str (p !! "HBondAcceptorCount") (Models.hba l)
      (Models.hba (Build.merge_props p l))
  ∧ Build.fetched_wins Py.str (p !! "TPSA") (Models.tpsa l)
      (Models.tpsa (Build.merge_props p l))
  ∧ Build.fetched_wins Py.str (p !! "RotatableBondCount") (Models.rotb l)
      (Models.rotb (Build.merge_props p l)).
Proof.
  split_and!; try apply merged_fetched.
  - intros H. simpl. unfold Py.or_ at 2. rewrite H. unfold Py.or_. by rewrite H.
  - intros H. simpl. unfold Py.or_ at 2. rewrite H.
    unfold Build.fetched_wins, Py.or_, Py.get. split.
    + intros v -> Hv. simpl. by rewrite Hv.
    + intros [-> | (v & -> & Hv)]; simpl; [done | by rewrite Hv].
  - apply (or_fetched id).
Qed.

Lemma merge_props_fetched_wins_witness :
  Models.iupac (Build.merge_props Examples.fetched_row Examples.named_ligand)
  = Py.SStr "new name".
Proof.
  destruct (merge_props_fetched_wins Examples.fetched_row Examples.named_ligand)
    as (_ & _ & [H _] & _).
  apply (H (Py.SStr "new name")); reflexivity.
Defined.

(** The claim as it was stated fails: a ligand whose [iupac] is already
    set has it replaced by the merge, alone and inside the PubChem stage
    of the build. *)
Lemma merge_overwrites_existing_iupac :
  Py.truthy (Models.iupac Examples.named_ligand) = true
  ∧ Models.iupac (Build.merge_props Examples.fetched_row Examples.named_ligand)
    ≠ Models.iupac Examples.named_ligand
  ∧ Models.iupac
      (Build.pubchem_stage (Examples.lig_pubchem Examples.fetched_row)
                           Examples.named_ligand).2
    ≠ Models.iupac Examples.named_ligand.
Proof.
  assert (H1 : Models.iupac
                 (Build.merge_props Examples.fetched_row Examples.named_ligand)
               = Py.SStr "new name") by reflexivity.
  assert (H2 : Models.iupac
                 (Build.pubchem_stage (Examples.lig_pubchem Examples.fetched_row)
                                      Examples.named_ligand).2
               = Py.SStr "new name") by reflexivity.
  rewrite H1, H2. split_and!; [reflexivity | discriminate | discriminate].
Qed.

(** ** The docking stage of the build *)

Section Docking.
Import Py Models Build.
Variable py_float : string → option pyfloat.

Lemma dock_stage_no_box cfg env slug lig :
  dock_mode cfg ∈ ["swissdock"; "vina"] →
  dock_center cfg = None ∨ dock_size cfg = None →
  dock_stage py_float cfg env slug lig
  = set_docking
      (Some (error_record (dock_mode cfg)
               "Docking requested but --center/--size not provided")) lig.
Proof.
  intros Hmode Hbox. unfold dock_stage.
  rewrite bool_decide_eq_true_2 by done.
  destruct Hbox as [-> | ->]; [done|]. by destruct (dock_center cfg).
Qed.





Lemma process_ligand_docked cfg env lig l' :
  process_ligand py_float cfg env lig = (Ok tt, l') →
  ∃ l0, l' = dock_stage py_float cfg env (_safe_slug (name lig)) l0.
Proof.
  unfold process_ligand.
  destruct (mkdir env _) as [[]|e0]; [|done].
  destruct (pubchem_stage env _) as [[[]|e1] l1]; [|done].
  destruct (image_stage cfg env _ _) as [[[]|e2] l2]; [|done].
  intros [= <-]. eauto.
Qed.


(** Neither method the build calls on the client exists. *)
Lemma client_lacks_methods senv client :
  SwissDock.getattr senv client "submit_vina_from_smiles"
  = Raise (AttributeError
             "'SwissDockClient' object has no attribute 'submit_vina_from_smiles'")
  ∧ SwissDock.getattr senv client "retrieve_session"
    = Raise (AttributeError
               "'SwissDockClient' object has no attribute 'retrieve_session'").
Proof. split; reflexivity. Qed.

Lemma swissdock_try_raises cfg env slug lig receptor center size :
  swissdock_try cfg env slug lig receptor center size
  = Raise (AttributeError
             "'SwissDockClient' object has no attribute 'submit_vina_from_smiles'").
Proof. reflexivity. Qed.

(** C8: in SwissDock mode, with an existing receptor, a non-empty SMILES
    and the box given, the attempt always raises, because the client has
    neither [submit_vina_from_smiles] nor [retrieve_session]; the
    exception is caught and the record left on the ligand has an
    ["error"] key. *)
Theorem swissdock_mode_always_error cfg env slug lig receptor center size :
  dock_mode cfg = "swissdock" →
  receptor_path cfg = Some receptor →
  PyStr.nonempty receptor = true →
  path_exists env receptor = true →
  truthy (smiles lig) = true →
  dock_center cfg = Some center →
  dock_size cfg = Some size →
  (∀ client attr,
     attr ∈ ["submit_vina_from_smiles"; "retrieve_session"] →
     ∃ msg, SwissDock.getattr (swissdock_env env) client attr
            = Raise (AttributeError msg))
  ∧ (∃ msg, swissdock_try cfg env slug lig receptor center size
            = Raise (AttributeError msg))
  ∧ ∃ d msg,
      docking (dock_stage py_float cfg env slug lig) = Some d
      ∧ d !! "error" = Some (VStr msg)
      ∧ d !! "backend" = Some (VStr "swissdock")
      ∧ d !! "session" = None.
Proof.
  intros Hmode Hrec Hne Hex Hsmi Hc Hs. split_and!.
  - intros client attr Hattr.
    destruct (client_lacks_methods (swissdock_env env) client) as [H1 H2].
    apply list_elem_of_In in Hattr. simpl in Hattr.
    destruct Hattr as [<- | [<- | []]]; eauto.
  - eexists. apply swissdock_try_raises.
  - unfold dock_stage. rewrite Hmode, Hc, Hs, Hrec, Hne, Hex, Hsmi.
    rewrite swissdock_try_raises. simpl.
    eexists _, _. split_and!; reflexivity.
Qed.

End Docking.



Lemma swissdock_mode_always_error_witness :
  ∃ d msg,
    Models.docking
      (Build.dock_stage (λ _, None) (Examples.config_with_box "swissdock")
                        Examples.lig_offline "crizotinib" Examples.crizotinib)
    = Some d
    ∧ d !! "error" = Some (Py.VStr msg)
    ∧ d !! "backend" = Some (Py.VStr "swissdock")
    ∧ d !! "session" = None.
Proof.
  refine (proj2 (proj2 (swissdock_mode_always_error (λ _, None)
                   (Examples.config_with_box "swissdock") Examples.lig_offline
                   "crizotinib" Examples.crizotinib "alk.pdb" Examples.box
                   Examples.box _ _ _ _ _ _ _))); reflexivity.
Defined.

(** ** The asset-path fields through a build *)

Section WholeBuild.
Import Py Models Build.
Variable py_float : string → option pyfloat.

Lemma same_assets_refl l : same_assets l l.
Proof. by split. Qed.

Lemma same_assets_trans l1 l2 l3 :
  same_assets l1 l2 → same_assets l2 l3 → same_assets l1 l3.
Proof. intros [? ?] [? ?]. split; congruence. Qed.

Lemma same_assets_no_assets l l' : same_assets l l' → no_assets l → no_assets l'.
Proof. intros [? ?] [? ?]. split; congruence. Qed.


Lemma set_pubchem_cid_assets v l : same_assets l (set_pubchem_cid v l).
Proof. by split. Qed.
Lemma set_chembl_id_assets v l : same_assets l (set_chembl_id v l).
Proof. by split. Qed.
Lemma set_docking_assets v l : same_assets l (set_docking v l).
Proof. by split. Qed.
Lemma set_pose_assets v l : same_assets l (set_pose v l).
Proof. by split. Qed.
Lemma set_attr_assets k v l : same_assets l (set_attr k v l).
Proof. by split. Qed.
Lemma merge_props_assets p l : same_assets l (merge_props p l).
Proof. by split. Qed.
Lemma fill_missing_assets p l : same_assets l (fill_missing p l).
Proof. by split. Qed.

(** Peels the assignments off the right-hand side, outermost first. *)
Ltac peel_assets :=
  repeat first
    [ assumption
    | apply same_assets_refl
    | eapply same_assets_trans;
      [| first [ apply set_pubchem_cid_assets | apply set_chembl_id_assets
               | apply set_docking_assets | apply set_pose_assets
               | apply set_attr_assets | apply merge_props_assets
               | apply fill_missing_assets ] ] ].

Lemma pubchem_stage_assets env l : same_assets l (pubchem_stage env l).2.
Proof.
  unfold pubchem_stage, resolve_cid.
  destruct (row_truthy _); [destruct (fetch_props _ _)|];
    destruct (negb (PyStr.nonempty _)); cbn [snd]; peel_assets.
Qed.

Lemma chembl_stage_assets cfg env l : same_assets l (chembl_stage cfg env l).
Proof. unfold chembl_stage. destruct (_ && _); peel_assets. Qed.

Lemma image_stage_assets cfg env slug l :
  same_assets l (image_stage cfg env slug l).2.
Proof.
  unfold image_stage.
  match goal with |- context [match ?d with Ok _ => _ | Raise _ => _ end] =>
    destruct d as [[] |] end; simpl; peel_assets.
Qed.

Lemma descriptors_try_assets env l l' :
  descriptors_try env l = Ok l' → same_assets l l'.
Proof.
  unfold descriptors_try.
  destruct (compute_descriptors env _) as [desc|]; simpl; [|done].
  destruct (attrs l !! "descriptors") as [[| |d]|]; try done.
  intros [= <-]. peel_assets.
Qed.

Lemma rdkit_stage_assets cfg env slug l : same_assets l (rdkit_stage cfg env slug l).
Proof.
  unfold rdkit_stage. destruct (_ && _); [|peel_assets].
  assert (H : same_assets l (try_except (descriptors_try env l) (λ _, l))).
  { destruct (descriptors_try env l) eqn:E; simpl; [|peel_assets].
    by apply descriptors_try_assets in E. }
  destruct (try_except (_ ← smiles_to_3d_sdf _ _ _; _) _);
    peel_assets.
Qed.

Lemma dock_stage_assets cfg env slug l :
  same_assets l (dock_stage py_float cfg env slug l).
Proof.
  unfold dock_stage.
  destruct (bool_decide (dock_mode cfg ∈ _)); [|peel_assets].
  destruct (dock_center cfg), (dock_size cfg); peel_assets.
  destruct (bool_decide (dock_mode cfg = "swissdock")).
  - destruct (receptor_path cfg); [|peel_assets].
    destruct (_ || _); [peel_assets|].
    destruct (negb _); peel_assets.
  - destruct (bool_decide (dock_mode cfg = "vina")); [|peel_assets].
    destruct (negb (opt_truthy _)); [peel_assets|].
    destruct (negb (truthy _)); [peel_assets|].
    destruct (vina_try _ _ _ _ _ _ _ _) as [[dk [ps|]]|];
      peel_assets.
Qed.

Lemma process_ligand_assets cfg env l :
  same_assets l (process_ligand py_float cfg env l).2.
Proof.
  unfold process_ligand.
  destruct (mkdir env _); simpl; [|peel_assets].
  pose proof (pubchem_stage_assets env
                (set_attr "out_dir" (VStr (out_dir_of (_safe_slug (name l)))) l))
    as Hpub.
  destruct (pubchem_stage env _) as [[[]|e] l0]; cbn [snd] in *.
  2: { eapply same_assets_trans; [|exact Hpub]. peel_assets. }
  pose proof (image_stage_assets cfg env (_safe_slug (name l))
                (chembl_stage cfg env l0)) as Himg.
  destruct (image_stage _ _ _ _) as [[[]|e] l1]; cbn [snd] in *.
  - eapply same_assets_trans; [|apply dock_stage_assets].
    eapply same_assets_trans; [|apply rdkit_stage_assets].
    eapply same_assets_trans; [|exact Himg].
    eapply same_assets_trans; [|apply chembl_stage_assets].
    eapply same_assets_trans; [|exact Hpub].
    peel_assets.
  - eapply same_assets_trans; [|exact Himg].
    eapply same_assets_trans; [|apply chembl_stage_assets].
    eapply same_assets_trans; [|exact Hpub].
    peel_assets.
Qed.

Lemma process_all_assets cfg envs i ligs :
  Forall no_assets ligs →
  Forall no_assets (process_all py_float cfg envs i ligs).2.
Proof.
  revert i; induction ligs as [|l rest IH]; intros i H; [constructor|].
  inversion H as [|?? Hl Hrest]; subst. simpl.
  pose proof (process_ligand_assets cfg (envs i) l) as Hp.
  destruct (process_ligand _ _ _ l) as [[[]|e] l']; simpl in *.
  - specialize (IH (S i) Hrest).
    destruct (process_all _ _ _ _ rest) as [r rest']; simpl in *.
    constructor; [by eapply same_assets_no_assets|done].
  - constructor; [by eapply same_assets_no_assets|done].
Qed.

Lemma new_ligand_no_assets n s c ch nt : no_assets (new_ligand n s c ch nt).
Proof. by split. Qed.

Lemma read_ligands_no_assets rows : Forall no_assets (Io.read_ligands_csv_tsv rows).
Proof.
  induction rows as [|row rest IH]; simpl; [constructor|].
  destruct (negb _); [done|]. constructor; [apply new_ligand_no_assets|done].
Qed.

Lemma default_ligands_no_assets : Forall no_assets DEFAULT_LIGANDS.
Proof. repeat constructor. Qed.

Lemma prelude_ligands env a defaults ligs shared cfg url cases :
  prelude py_float env a defaults = Ok (ligs, shared, cfg, url, cases) →
  (shared = true ∧ ligs = defaults)
  ∨ (shared = false ∧ ∃ rows, ligs = Io.read_ligands_csv_tsv rows).
Proof.
  unfold prelude.
  destruct (setup_site env _); simpl; [|done].
  destruct (opt_truthy _).
  - destruct (read_rows env _) as [rows|]; simpl; [|done].
    destruct (place_structure env _ _); simpl; [|done].
    destruct (ingest_recon env _); simpl; [|done].
    destruct (parse_box _ (norm_center a)); simpl; [|done].
    destruct (parse_box _ (norm_size a)); simpl; [|done].
    intros [= <- <- _ _ _]. right. eauto.
  - simpl.
    destruct (place_structure env _ _); simpl; [|done].
    destruct (ingest_recon env _); simpl; [|done].
    destruct (parse_box _ (norm_center a)); simpl; [|done].
    destruct (parse_box _ (norm_size a)); simpl; [|done].
    intros [= <- <- _ _ _]. by left.
Qed.

Lemma write_outputs_molecules env a ligs url cases site :
  write_outputs env a ligs url cases = Ok site →
  molecules site = to_dict <$> ligs.
Proof.
  unfold write_outputs.
  destruct (write_json env (path_join (path_join _ _) _)); simpl; [|done].
  destruct (write_json env _); simpl; [|done].
  by intros [= <-].
Qed.

(** What a build that returns has serialized, and what any build leaves
    of the shared default ligands. *)
Lemma build_site_ligands env a defaults :
  Forall no_assets defaults →
  Forall no_assets (build_site py_float env a defaults).2
  ∧ ∀ site, (build_site py_float env a defaults).1 = Ok site →
            ∃ ligs, molecules site = to_dict <$> ligs ∧ Forall no_assets ligs.
Proof.
  intros Hdef. unfold build_site.
  destruct (prelude py_float env a defaults)
    as [[[[[ligs shared] cfg] url] cases]|e] eqn:Hpre; [|by split].
  assert (Hligs : Forall no_assets ligs).
  { apply prelude_ligands in Hpre as [[_ ->] | [_ [rows ->]]];
      [done | apply read_ligands_no_assets]. }
  pose proof (process_all_assets cfg (lig_envs env) 0 ligs Hligs) as Hall.
  destruct (process_all py_float cfg (lig_envs env) 0 ligs) as [r ligs'].
  simpl in Hall.
  assert (Hdef' : Forall no_assets (if shared then ligs' else defaults))
    by (by destruct shared).
  destruct r as [[]|e]; simpl; split; try done.
  intros site Hsite. exists ligs'. split; [|done].
  by eapply write_outputs_molecules.
Qed.

(** C9: in the [molecules.json] of every build, [image_2d] and
    [conformer_sdf] are the empty string for every ligand, and the
    attributes the build does write, [image_png] and [ligand3d], are not
    among the keys.  The statement covers the shared default ligands:
    they start with both fields empty and every build, returning or
    raising, leaves them so. *)
Theorem asset_fields_never_populated env a defaults :
  Forall no_assets DEFAULT_LIGANDS
  ∧ (Forall no_assets defaults →
     Forall no_assets (build_site py_float env a defaults).2
     ∧ ∀ site, (build_site py_float env a defaults).1 = Ok site →
         Forall (λ d : dict,
                   d !! "image_2d" = Some (VStr "")
                   ∧ d !! "conformer_sdf" = Some (VStr "")
                   ∧ d !! "image_png" = None
                   ∧ d !! "ligand3d" = None)
                (molecules site)).
Proof.
  split; [apply default_ligands_no_assets|].
  intros Hdef. destruct (build_site_ligands env a defaults Hdef) as [Hst Hsite].
  split; [done|]. intros site (ligs & -> & Hligs)%Hsite.
  apply Forall_fmap. eapply Forall_impl; [exact Hligs|].
  intros l [Hi Hc]. unfold compose. cbv beta.
  rewrite !to_dict_other by discriminate.
  change (asdict l !! "image_2d") with (Some (VStr (image_2d l))).
  change (asdict l !! "conformer_sdf") with (Some (VStr (conformer_sdf l))).
  rewrite Hi, Hc. split_and!; reflexivity.
Qed.

(** The entries of [molecules.json] are the [to_dict] of the ligands, so
    what holds of [to_dict] holds of each entry. *)
Lemma molecules_optional_keys env a defaults site :
  (build_site py_float env a defaults).1 = Ok site →
  Forall (λ d : dict,
            (∀ v, d !! "docking" = Some v → ∃ dk, dk ≠ ∅ ∧ v = VDict dk)
            ∧ (∀ v, d !! "pose" = Some v → ∃ dk, dk ≠ ∅ ∧ v = VDict dk))
         (molecules site).
Proof.
  unfold build_site.
  destruct (prelude py_float env a defaults)
    as [[[[[ligs shared] cfg] url] cases]|e]; [|done].
  destruct (process_all py_float cfg (lig_envs env) 0 ligs) as [[[]|e] ligs'];
    simpl; [|done].
  intros ->%write_outputs_molecules.
  apply Forall_fmap, Forall_forall. intros l _. unfold compose. cbv beta.
  destruct (to_dict_keys l) as (Hd & Hp & _).
  split; intros v Hv; [apply Hd in Hv | apply Hp in Hv];
    destruct Hv as (dk & _ & ? & ?); eauto.
Qed.

(** The keyword [max_ligands] lands in [**_ignored], which nothing
    reads: the build is the same whatever it holds. *)
Lemma build_site_ignored_unread env a defaults ignored :
  build_site py_float env
    (Args.mk (Args.out_dir a) (Args.ligands_path a) (Args.recon_path a)
       (Args.receptor_path a) (Args.pdb_id a) (Args.docking a)
       (Args.docking_backend a) (Args.swissdock_retrieve a) (Args.vina_path a)
       (Args.vina_exe a) (Args.receptor_pdbqt a) (Args.box_center a)
       (Args.box_size a) (Args.exhaust a) (Args.max_poses a) (Args.center a)
       (Args.size a) (Args.exhaustiveness a) (Args.image_size a)
       (Args.no_chembl a) (Args.highlight_resi a) ignored) defaults
  = build_site py_float env a defaults.
Proof. reflexivity. Qed.



End WholeBuild.

(** The example build returns. *)
Lemma built_site_ok :
  (Build.build_site (λ _, None)
     (Examples.env_with (Examples.lig_pubchem Examples.fetched_row) Examples.two_rows)
     Examples.args_max_1 Build.DEFAULT_LIGANDS).1
  = Py.Ok Examples.built_site.
Proof. vm_compute. reflexivity. Qed.

Lemma asset_fields_never_populated_witness :
  Forall (λ d : Py.dict,
            d !! "image_2d" = Some (Py.VStr "")
            ∧ d !! "conformer_sdf" = Some (Py.VStr "")
            ∧ d !! "image_png" = None
            ∧ d !! "ligand3d" = None)
         (Build.molecules Examples.built_site).
Proof.
  refine (proj2 (proj2 (asset_fields_never_populated (λ _, None)
                   (Examples.env_with (Examples.lig_pubchem Examples.fetched_row)
                                      Examples.two_rows)
                   Examples.args_max_1 Build.DEFAULT_LIGANDS) _)
                Examples.built_site built_site_ok).
  repeat constructor.
Defined.

(** C2, on the code: [build --ligands ligands.csv --max 1] over a file of
    two ligands processes and serializes both. *)
Theorem build_cmd_max_not_applied (py_float : string → option Py.pyfloat) :
  Main.max Examples.build_max_1 = 1
  ∧ match (Main._build_cmd py_float (Examples.env_offline Examples.two_rows)
             Examples.build_max_1 Build.DEFAULT_LIGANDS).1 with
    | Py.Ok (status, site) =>
        status = 0
        ∧ (λ d : Py.dict, d !! "name") <$> Build.molecules site
          = [Some (Py.VStr "crizotinib"); Some (Py.VStr "ceritinib")]
        ∧ (λ d : Py.dict, d !! "chembl_id") <$> Build.molecules site
          = [Some (Py.VStr ""); Some (Py.VStr "")]
    | Py.Raise _ => False
    end.
Proof. split; [reflexivity|]. vm_compute. split_and!; reflexivity. Qed.

(** ** The optional keys, per ligand and per entry of [molecules.json] *)

(** C4: the dictionary made by [to_dict] has a ["docking"] key only when
    the ligand's [docking] is a non-empty dictionary, and a ["pose"] key
    only when its [pose] is; when they were never set the keys are
    absent.  The entries a build writes to [molecules.json] are such
    dictionaries. *)
Theorem to_dict_optional_keys :
  (∀ l : Models.Ligand,
     (∀ v, Models.to_dict l !! "docking" = Some v →
           ∃ d, Models.docking l = Some d ∧ d ≠ ∅ ∧ v = Py.VDict d)
     ∧ (∀ v, Models.to_dict l !! "pose" = Some v →
             ∃ d, Models.pose l = Some d ∧ d ≠ ∅ ∧ v = Py.VDict d)
     ∧ (Models.docking l = None → Models.to_dict l !! "docking" = None)
     ∧ (Models.pose l = None → Models.to_dict l !! "pose" = None))
  ∧ (∀ py_float env a defaults site,
       (Build.build_site py_float env a defaults).1 = Py.Ok site →
       Forall (λ d : Py.dict,
                 (∀ v, d !! "docking" = Some v → ∃ dk, dk ≠ ∅ ∧ v = Py.VDict dk)
                 ∧ (∀ v, d !! "pose" = Some v → ∃ dk, dk ≠ ∅ ∧ v = Py.VDict dk))
              (Build.molecules site)).
Proof. split; [apply to_dict_keys | apply molecules_optional_keys]. Qed.

Lemma to_dict_optional_keys_witness :
  (Models.to_dict Examples.crizotinib !! "docking" = None
   ∧ Models.to_dict Examples.crizotinib !! "pose" = None)
  ∧ Forall (λ d : Py.dict,
              (∀ v, d !! "docking" = Some v → ∃ dk, dk ≠ ∅ ∧ v = Py.VDict dk)
              ∧ (∀ v, d !! "pose" = Some v → ∃ dk, dk ≠ ∅ ∧ v = Py.VDict dk))
           (Build.molecules Examples.built_site).
Proof.
  split.
  - destruct (proj1 to_dict_optional_keys Examples.crizotinib) as (_ & _ & Hd & Hp).
    split; [apply Hd|apply Hp]; reflexivity.
  - exact (proj2 to_dict_optional_keys _ _ _ _ _ built_site_ok).
Defined.

(* ================================================================== *)
(** * Further properties of the code *)
(* ================================================================== *)

(** ** More facts about the [str] methods *)

Module PyStrMore.
Import PyStr.

Lemma slug_char_not_space c : Build.slug_char c = true → isspace c = false.
Proof. destruct c as [[] [] [] [] [] [] [] []]; vm_compute; congruence. Qed.

Lemma digit_not_space c : SwissDock.is_digit c = true → isspace c = false.
Proof. destruct c as [[] [] [] [] [] [] [] []]; vm_compute; congruence. Qed.

Lemma lower_char_idem c : lower_char (lower_char c) = lower_char c.
Proof. destruct c as [[] [] [] [] [] [] [] []]; vm_compute; reflexivity. Qed.

Lemma lower_idem s : lower (lower s) = lower s.
Proof. induction s as [|c s IH]; simpl; [done|]. by rewrite lower_char_idem, IH. Qed.

Lemma lower_app a b : lower (a +:+ b) = lower a +:+ lower b.
Proof.
  induction a as [|c a IH]; [done|].
  rewrite PyStrFacts.app_cons. simpl. rewrite IH. by rewrite PyStrFacts.app_cons.
Qed.

Lemma lower_length s : String.length (lower s) = String.length s.
Proof. induction s; simpl; congruence. Qed.

Lemma lstrip_head c s : isspace c = false → lstrip (String c s) = String c s.
Proof. intros H. simpl. by rewrite H. Qed.

Lemma lstrip_spaces ws s :
  Forall (λ c, isspace c = true) (chars ws) → lstrip (ws +:+ s) = lstrip s.
Proof.
  induction ws as [|c ws IH]; [done|].
  rewrite PyStrFacts.chars_cons. inversion 1 as [|?? Hc Hws]; subst.
  rewrite PyStrFacts.app_cons. simpl. rewrite Hc. auto.
Qed.

Lemma rstrip_idem s : rstrip (rstrip s) = rstrip s.
Proof.
  induction s as [|c s IH]; [done|]. simpl.
  destruct (negb (nonempty (rstrip s)) && isspace c) eqn:E; [done|].
  simpl. by rewrite IH, E.
Qed.

Lemma rstrip_head c s :
  isspace c = false → rstrip (String c s) = String c (rstrip s).
Proof. intros H. simpl. by rewrite H, andb_false_r. Qed.

(** What [lstrip] returns is empty or starts with a character that is not
    white space. *)
Lemma lstrip_shape s :
  lstrip s = "" ∨ ∃ c r, lstrip s = String c r ∧ isspace c = false.
Proof.
  induction s as [|c s IH]; [by left|]. simpl.
  destruct (isspace c) eqn:E; [done|]. right. eauto.
Qed.

Lemma strip_idem s : strip (strip s) = strip s.
Proof.
  unfold strip. destruct (lstrip_shape s) as [-> | (c & r & -> & Hc)]; [done|].
  rewrite (rstrip_head _ _ Hc), (lstrip_head _ _ Hc), <- (rstrip_head _ _ Hc).
  apply rstrip_idem.
Qed.

(** A string without white space is its own [strip]. *)
Lemma strip_no_space s :
  Forall (λ c, isspace c = false) (chars s) → strip s = s.
Proof.
  intros H. unfold strip.
  assert (Hl : lstrip s = s).
  { destruct s as [|c s]; [done|]. rewrite PyStrFacts.chars_cons in H.
    inversion H; subst. by apply lstrip_head. }
  rewrite Hl. clear Hl. induction s as [|c s IH]; [done|].
  rewrite PyStrFacts.chars_cons in H. inversion H as [|?? Hc Hs]; subst.
  rewrite (rstrip_head _ _ Hc). f_equal. by apply IH.
Qed.

Lemma take_all n s : (String.length s ≤ n)%nat → take n s = s.
Proof.
  revert n; induction s as [|c s IH]; intros [|n] H; simpl in *; try done; try lia.
  f_equal. apply IH. lia.
Qed.

Lemma rev_app_rev_app a b c :
  String.rev_app (String.rev_app a b) c = String.rev_app b (a +:+ c).
Proof.
  revert b c; induction a as [|x a IH]; intros b c; [done|].
  simpl. rewrite IH. simpl. by rewrite PyStrFacts.app_cons.
Qed.

Lemma rev_rev_app a : String.rev (String.rev_app a "") = a.
Proof.
  unfold String.rev. rewrite rev_app_rev_app. simpl. apply PyStrFacts.app_nil_r.
Qed.

(** [split] cuts at the first separator after a piece that has none. *)
Lemma split_go_piece sep a cur s :
  Forall (λ c, c ≠ sep) (chars a) →
  split_go sep cur (a +:+ String sep s)
  = String.rev (String.rev_app a cur) :: split_go sep "" s.
Proof.
  revert cur; induction a as [|c a IH]; intros cur H.
  - change ("" +:+ String sep s) with (String sep s). simpl.
    by rewrite Ascii.eqb_refl.
  - rewrite PyStrFacts.chars_cons in H. inversion H as [|?? Hc Ha]; subst.
    rewrite PyStrFacts.app_cons. simpl.
    destruct (Ascii.eqb c sep) eqn:E; [by apply Ascii.eqb_eq in E|].
    by rewrite IH.
Qed.

Lemma split_go_last sep a cur :
  Forall (λ c, c ≠ sep) (chars a) →
  split_go sep cur a = [String.rev (String.rev_app a cur)].
Proof.
  revert cur; induction a as [|c a IH]; intros cur H; [done|].
  rewrite PyStrFacts.chars_cons in H. inversion H as [|?? Hc Ha]; subst.
  simpl. destruct (Ascii.eqb c sep) eqn:E; [by apply Ascii.eqb_eq in E|].
  by rewrite IH.
Qed.

Lemma split_piece sep a s :
  Forall (λ c, c ≠ sep) (chars a) →
  split sep (a +:+ String sep s) = a :: split sep s.
Proof. intros H. unfold split. by rewrite split_go_piece, rev_rev_app. Qed.

Lemma split_last sep a :
  Forall (λ c, c ≠ sep) (chars a) → split sep a = [a].
Proof. intros H. unfold split. by rewrite split_go_last, rev_rev_app. Qed.

Lemma split_go_nonempty sep cur s : split_go sep cur s ≠ [].
Proof. revert cur; induction s as [|c s IH]; intros cur; simpl; [done|]. by destruct (Ascii.eqb c sep). Qed.

Lemma split_nonempty sep s : split sep s ≠ [].
Proof. apply split_go_nonempty. Qed.

End PyStrMore.

(** ** [_safe_slug] on its own output *)

Lemma sub_runs_fixed b s :
  Forall (λ c, Build.slug_char c = true) (PyStr.chars s) → Build.sub_runs b s = s.
Proof.
  revert b; induction s as [|c s IH]; intros b H; [done|].
  rewrite PyStrFacts.chars_cons in H. inversion H as [|?? Hc Hs]; subst.
  simpl. rewrite Hc. f_equal. by apply IH.
Qed.

Lemma safe_slug_shape s :
  PyStr.nonempty (Build._safe_slug s) = true
  ∧ (String.length (Build._safe_slug s) ≤ 80)%nat
  ∧ Forall (λ c, Build.slug_char c = true) (PyStr.chars (Build._safe_slug s)).
Proof.
  unfold Build._safe_slug. set (t := Build.sub_runs false _).
  pose proof (sub_runs_chars false
                (PyStr.strip (if PyStr.nonempty s then s else ""))) as Ht.
  fold t in Ht.
  destruct (PyStr.nonempty t) eqn:E.
  - split_and!; [by apply PyStrFacts.take_nonempty | apply PyStrFacts.take_length
                | by apply PyStrFacts.take_chars].
  - split_and!; [done | simpl; lia | repeat constructor].
Qed.

(** X1: a string that is already a slug (non-empty, at most 80 characters,
    all in [A-Za-z0-9._-]) is its own slug; hence [_safe_slug] applied
    twice gives what it gives once. *)
Theorem safe_slug_idempotent :
  (∀ r, r ≠ "" → (String.length r ≤ 80)%nat →
        Forall (λ c, Build.slug_char c = true) (PyStr.chars r) →
        Build._safe_slug r = r)
  ∧ ∀ s, Build._safe_slug (Build._safe_slug s) = Build._safe_slug s.
Proof.
  assert (Hfix : ∀ r, r ≠ "" → (String.length r ≤ 80)%nat →
                      Forall (λ c, Build.slug_char c = true) (PyStr.chars r) →
                      Build._safe_slug r = r).
  { intros r Hne Hlen Hr. unfold Build._safe_slug.
    apply PyStrFacts.nonempty_true in Hne. rewrite Hne.
    rewrite PyStrMore.strip_no_space
      by (eapply Forall_impl; [exact Hr | apply PyStrMore.slug_char_not_space]).
    rewrite sub_runs_fixed by done. rewrite Hne. by apply PyStrMore.take_all. }
  split; [exact Hfix|]. intros s.
  destruct (safe_slug_shape s) as (Hne & Hlen & Hch).
  apply Hfix; [by apply PyStrFacts.nonempty_true | done | done].
Qed.

Lemma safe_slug_idempotent_witness : Build._safe_slug "crizotinib_R.2" = "crizotinib_R.2".
Proof.
  apply (proj1 safe_slug_idempotent); [discriminate | simpl; lia | repeat constructor].
Defined.

(** ** The ligands [read_ligands_csv_tsv] makes *)

Lemma field_stripped row aliases :
  PyStr.strip (Io.field row aliases) = Io.field row aliases.
Proof. apply PyStrMore.strip_idem. Qed.

(** X2: every ligand [read_ligands_csv_tsv] returns has a non-empty name
    and carries its five text fields stripped of surrounding white
    space; nothing else is set: the enriched fields are empty, there is
    no docking record, no pose and no extra attribute. *)
Theorem read_ligands_are_fresh (rows : list Io.Row) :
  Forall (λ l,
            Models.name l ≠ ""
            ∧ PyStr.strip (Models.name l) = Models.name l
            ∧ (∃ s, Models.smiles l = Py.SStr s ∧ PyStr.strip s = s)
            ∧ PyStr.strip (Models.pubchem_cid l) = Models.pubchem_cid l
            ∧ PyStr.strip (Models.chembl_id l) = Models.chembl_id l
            ∧ PyStr.strip (Models.notes l) = Models.notes l
            ∧ Models.iupac l = Py.SStr ""
            ∧ [Models.formula l; Models.mw l; Models.xlogp l; Models.hbd l;
               Models.hba l; Models.tpsa l; Models.rotb l; Models.image_2d l;
               Models.conformer_sdf l] = replicate 9 ""
            ∧ Models.docking l = None
            ∧ Models.pose l = None
            ∧ Models.attrs l = ∅)
         (Io.read_ligands_csv_tsv rows).
Proof.
  induction rows as [|row rest IH]; [constructor|]. simpl.
  destruct (PyStr.nonempty (Io.field row Io.name_aliases)) eqn:E; simpl; [|done].
  constructor; [|done]. unfold Io.ligand_of_row. simpl.
  split_and!; try reflexivity; try apply field_stripped.
  - by apply PyStrFacts.nonempty_true.
  - eexists. split; [reflexivity | apply field_stripped].
Qed.

(** ** [_extract_session_number] *)

Lemma digits_all s :
  Forall (λ c, SwissDock.is_digit c = true) (PyStr.chars (SwissDock.digits s)).
Proof.
  induction s as [|c s IH]; [constructor|]. simpl.
  destruct (SwissDock.is_digit c) eqn:E; [|constructor].
  rewrite PyStrFacts.chars_cons. by constructor.
Qed.

Lemma match_here_digits s d :
  SwissDock.match_here s = Some d →
  d ≠ "" ∧ Forall (λ c, SwissDock.is_digit c = true) (PyStr.chars d).
Proof.
  unfold SwissDock.match_here.
  destruct (SwissDock.startswith_ci s _); [|done].
  destruct (PyStr.nonempty (SwissDock.digits _)) eqn:E; [|done].
  intros [= <-]. split; [by apply PyStrFacts.nonempty_true | apply digits_all].
Qed.

Lemma search_unfold s :
  SwissDock.search s
  = match SwissDock.match_here s with
    | Some d => Some d
    | None => match s with
              | EmptyString => None
              | String _ r => SwissDock.search r
              end
    end.
Proof. by destruct s. Qed.

Lemma search_digits s d :
  SwissDock.search s = Some d →
  d ≠ "" ∧ Forall (λ c, SwissDock.is_digit c = true) (PyStr.chars d).
Proof.
  induction s as [|c s IH]; rewrite search_unfold;
    (destruct (SwissDock.match_here _) eqn:E;
     [intros [= <-]; by apply match_here_digits in E|]); [done | exact IH].
Qed.

Lemma take_prefix n s : PyStr.startswith s (PyStr.take n s) = true.
Proof.
  revert n; induction s as [|c s IH]; intros [|n]; simpl; try done.
  by rewrite Ascii.eqb_refl.
Qed.

(** X3: a session number [_extract_session_number] returns is a
    non-empty string of the digits 0-9; when it raises, the message
    quotes at most the first 2000 characters of the response. *)
Theorem session_number_is_digits (text : string) :
  (∀ d, SwissDock._extract_session_number text = Py.Ok d →
        d ≠ "" ∧ Forall (λ c, c ∈ PyStr.chars "0123456789") (PyStr.chars d))
  ∧ (∀ e, SwissDock._extract_session_number text = Py.Raise e →
          ∃ quoted, e = Py.RuntimeError
                          ("Could not find session number in response (first 2000 chars):"
                             +:+ Vina.nl +:+ quoted)
                    ∧ (String.length quoted ≤ 2000)%nat
                    ∧ PyStr.startswith text quoted = true).
Proof.
  unfold SwissDock._extract_session_number.
  destruct (SwissDock.search text) as [d0|] eqn:E; split; try done.
  - intros d [= <-]. apply search_digits in E as [Hne Hd]. split; [done|].
    eapply Forall_impl; [exact Hd|]. intros c Hc.
    destruct c as [[] [] [] [] [] [] [] []]; try discriminate Hc;
      apply list_elem_of_In; simpl; tauto.
  - intros e He. exists (PyStr.take 2000 text).
    split_and!; [congruence | apply PyStrFacts.take_length | apply take_prefix].
Qed.

Lemma session_number_is_digits_witness :
  "42" ≠ "" ∧ Forall (λ c, c ∈ PyStr.chars "0123456789") (PyStr.chars "42").
Proof.
  apply (proj1 (session_number_is_digits "Your Session number: 42 is queued")).
  reflexivity.
Defined.

Lemma startswith_ci_app h x p :
  PyStr.lower h = PyStr.lower p → SwissDock.startswith_ci (h +:+ x) p = true.
Proof.
  revert h; induction p as [|c p IH]; intros h H.
  - by destruct (h +:+ x).
  - destruct h as [|b h]; [done|]. simpl in H. injection H as Hc Hh.
    rewrite PyStrFacts.app_cons. simpl. rewrite Hc, Ascii.eqb_refl. auto.
Qed.

Lemma drop_app h x : SwissDock.drop (String.length h) (h +:+ x) = x.
Proof. induction h as [|c h IH]; [by destruct x|]. by rewrite PyStrFacts.app_cons. Qed.

Lemma digits_app d rest :
  Forall (λ c, SwissDock.is_digit c = true) (PyStr.chars d) →
  SwissDock.digits rest = "" →
  SwissDock.digits (d +:+ rest) = d.
Proof.
  intros Hd Hrest. induction d as [|c d IH]; [done|].
  rewrite PyStrFacts.chars_cons in Hd. inversion Hd as [|?? Hc Hd']; subst.
  rewrite PyStrFacts.app_cons. simpl. rewrite Hc. f_equal. auto.
Qed.

(** X4: a response that begins with the words "Session number:" in any
    letter case, then any white space, then a run of digits that ends
    the text or is followed by a character that is not a digit, yields
    exactly that run. *)
Theorem session_number_found (header ws d rest : string) :
  PyStr.lower header = "session number:" →
  Forall (λ c, PyStr.isspace c = true) (PyStr.chars ws) →
  d ≠ "" →
  Forall (λ c, SwissDock.is_digit c = true) (PyStr.chars d) →
  SwissDock.digits rest = "" →
  SwissDock._extract_session_number (header +:+ ws +:+ d +:+ rest) = Py.Ok d.
Proof.
  intros Hh Hws Hne Hd Hrest.
  assert (Hm : SwissDock.match_here (header +:+ ws +:+ d +:+ rest) = Some d).
  { unfold SwissDock.match_here.
    rewrite startswith_ci_app by (rewrite Hh; reflexivity).
    assert (Hlen : String.length header = 15%nat).
    { rewrite <- PyStrMore.lower_length, Hh. reflexivity. }
    rewrite <- Hlen, drop_app, PyStrMore.lstrip_spaces by done.
    assert (Hl : PyStr.lstrip (d +:+ rest) = d +:+ rest).
    { destruct d as [|c d]; [done|]. rewrite PyStrFacts.chars_cons in Hd.
      inversion Hd; subst. rewrite PyStrFacts.app_cons.
      by apply PyStrMore.lstrip_head, PyStrMore.digit_not_space. }
    rewrite Hl, digits_app by done.
    apply PyStrFacts.nonempty_true in Hne. by rewrite Hne. }
  unfold SwissDock._extract_session_number.
  assert (SwissDock.search (header +:+ ws +:+ d +:+ rest) = Some d) as ->; [|done].
  by rewrite search_unfold, Hm.
Qed.

Lemma session_number_found_witness :
  SwissDock._extract_session_number
    ("SESSION Number:" +:+ "  " +:+ "20240117" +:+ " (queued)")
  = Py.Ok "20240117".
Proof.
  apply session_number_found;
    [reflexivity | repeat constructor | discriminate | repeat constructor | reflexivity].
Defined.

(** ** [_parse_xyz] *)

Section ParseXyz.
Variable py_float : string → option Py.pyfloat.

Lemma comma_app x : "," +:+ x = String "," x.
Proof. reflexivity. Qed.

(** X5: [_parse_xyz] reads three comma-separated pieces, ignoring the
    white space around each, and gives the three floats; a text whose
    number of non-blank pieces is not three raises a [ValueError] that
    quotes the text. *)
Theorem parse_xyz_three_pieces (a b c : string) (fa fb fc : Py.pyfloat) :
  Forall (λ ch, ch ≠ ","%char) (PyStr.chars a) →
  Forall (λ ch, ch ≠ ","%char) (PyStr.chars b) →
  Forall (λ ch, ch ≠ ","%char) (PyStr.chars c) →
  PyStr.strip a ≠ "" → PyStr.strip b ≠ "" → PyStr.strip c ≠ "" →
  py_float (PyStr.strip a) = Some fa →
  py_float (PyStr.strip b) = Some fb →
  py_float (PyStr.strip c) = Some fc →
  Build._parse_xyz py_float (Build.BoxStr (a +:+ "," +:+ b +:+ "," +:+ c))
  = Py.Ok (fa, fb, fc)
  ∧ ∀ s, List.length
           (filter (λ p, PyStr.nonempty p = true)
                   (PyStr.strip <$> PyStr.split "," s)) ≠ 3%nat →
         Build._parse_xyz py_float (Build.BoxStr s)
         = Py.Raise (Py.ValueError ("Expected x,y,z but got: " +:+ s)).
Proof.
  intros Ha Hb Hc Hna Hnb Hnc Hfa Hfb Hfc. split.
  - unfold Build._parse_xyz. rewrite !comma_app.
    rewrite !PyStrMore.split_piece, PyStrMore.split_last by done.
    rewrite !fmap_cons, fmap_nil.
    apply PyStrFacts.nonempty_true in Hna, Hnb, Hnc.
    rewrite !filter_cons_True by done. rewrite filter_nil.
    unfold Build.float_or_raise. by rewrite Hfa, Hfb, Hfc.
  - intros s Hlen. unfold Build._parse_xyz.
    destruct (filter _ _) as [|p0 [|p1 [|p2 [|p3 ps]]]]; try done.
Qed.

End ParseXyz.

Lemma parse_xyz_three_pieces_witness :
  Build._parse_xyz (λ s, if bool_decide (s = "1.0") then Some Examples.one else None)
    (Build.BoxStr (" 1.0" +:+ "," +:+ "1.0 " +:+ "," +:+ "1.0"))
  = Py.Ok Examples.box.
Proof.
  refine (proj1 (parse_xyz_three_pieces _ " 1.0" "1.0 " "1.0" Examples.one
                   Examples.one Examples.one _ _ _ _ _ _ _ _ _));
    try reflexivity; try discriminate; repeat constructor; discriminate.
Defined.

(** ** [_pdbqt_to_pdb] *)

Lemma take_take n s : PyStr.take n (PyStr.take n s) = PyStr.take n s.
Proof. revert s; induction n as [|n IH]; intros [|c s]; simpl; try done. by rewrite IH. Qed.

Lemma startswith_take s p n :
  (String.length p ≤ n)%nat →
  PyStr.startswith (PyStr.take n s) p = PyStr.startswith s p.
Proof.
  revert s n; induction p as [|c p IH]; intros s n H.
  - by destruct (PyStr.take n s), s.
  - destruct n as [|n]; [simpl in H; lia|].
    destruct s as [|d s]; [done|]. simpl.
    destruct (Ascii.eqb c d); [|done]. apply IH. simpl in H. lia.
Qed.

Lemma pdb_line_kept ln out :
  Build.pdb_line ln = Some out → Build.pdb_line out = Some out.
Proof.
  unfold Build.pdb_line.
  destruct (PyStr.startswith ln "ATOM" || PyStr.startswith ln "HETATM") eqn:E1.
  - intros H. assert (out = PyStr.take 66 ln) as -> by congruence.
    rewrite !startswith_take by (simpl; lia). rewrite E1. by rewrite take_take.
  - destruct (_ || _ || _) eqn:E2; [|done]. intros [= <-]. by rewrite E1, E2.
Qed.

Lemma omap_cons_list {A B} (f : A → option B) (x : A) (l : list A) :
  omap f (x :: l)
  = match f x with
    | Some y => y :: omap f l
    | None => omap f l
    end.
Proof. reflexivity. Qed.

Lemma pdb_lines_kept (lines : list string) :
  omap Build.pdb_line (omap Build.pdb_line lines) = omap Build.pdb_line lines.
Proof.
  induction lines as [|ln rest IH]; [done|]. rewrite omap_cons_list.
  destruct (Build.pdb_line ln) as [out|] eqn:E; [|done].
  rewrite omap_cons_list, (pdb_line_kept _ _ E). by rewrite IH.
Qed.

(** X6: [_pdbqt_to_pdb] returns [True] exactly when the pose file could
    be read, at least one of its lines is a record it keeps, and the PDB
    text could be written; every other case, a read or write error
    included, gives [False] and no exception.  The lines it keeps are
    stable: converting its own output keeps every line as it is. *)
Theorem pdbqt_to_pdb_outcome (env : Build.LigEnv) (pdbqt_path out_pdb : string) :
  (Build._pdbqt_to_pdb env pdbqt_path out_pdb = true
   ↔ ∃ lines,
       Build.read_pose_lines env pdbqt_path = Py.Ok lines
       ∧ omap Build.pdb_line lines ≠ []
       ∧ Build.write_text env out_pdb
           (PyStr.join Vina.nl (omap Build.pdb_line lines) +:+ Vina.nl) = Py.Ok tt)
  ∧ ∀ lines : list string,
      omap Build.pdb_line (omap Build.pdb_line lines) = omap Build.pdb_line lines
      ∧ Forall (λ out, ∃ ln, ln ∈ lines
                             ∧ (out = ln ∨ out = PyStr.take 66 ln))
               (omap Build.pdb_line lines).
Proof.
  split.
  - unfold Build._pdbqt_to_pdb.
    destruct (Build.read_pose_lines env pdbqt_path) as [lines|e]; simpl.
    + destruct (bool_decide (omap Build.pdb_line lines = [])) eqn:E; simpl.
      * apply bool_decide_eq_true in E. split; [done|].
        intros (l' & [= <-] & Hne & _). done.
      * apply bool_decide_eq_false in E.
        destruct (Build.write_text env out_pdb _) as [[]|e] eqn:Hw; simpl.
        -- split; [|done]. intros _. by exists lines.
        -- split; [done|]. intros (l' & [= <-] & _ & Hw'). congruence.
    + split; [done|]. by intros (l' & [=] & _).
  - intros lines. split; [apply pdb_lines_kept|].
    apply Forall_forall. intros out Hout.
    apply list_elem_of_omap in Hout as (ln & Hln & Hout).
    exists ln. split; [done|]. unfold Build.pdb_line in Hout.
    destruct (_ || _); [right; congruence|].
    destruct (_ || _ || _); [left; congruence | done].
Qed.

(** ** [run_vina] when the process succeeds *)

Section VinaSuccess.
Variable py_float : string → option Py.pyfloat.

Lemma run_returns env cmd p :
  Vina.subprocess_run env cmd = Py.Ok p →
  Vina.returncode p = 0 →
  Vina._run env cmd = Py.Ok p.
Proof. intros Hrun Hrc. unfold Vina._run. rewrite Hrun. simpl. by rewrite Hrc. Qed.

(** What [run_vina] returns, whatever the log holds. *)
Lemma run_vina_dict env vina_exe receptor ligand out_pdbqt log_path center size
    exhaustiveness num_modes meta :
  Vina.run_vina py_float env vina_exe receptor ligand out_pdbqt log_path
                center size exhaustiveness num_modes = Py.Ok meta →
  ∃ best,
    meta = list_to_map
             [ ("backend", Py.VStr "vina");
               ("best_affinity_kcal_mol", Vina.float_or_none best);
               ("out_pdbqt", Py.VStr out_pdbqt);
               ("log", Py.VStr log_path) ].
Proof.
  unfold Vina.run_vina.
  destruct (Vina.mkdir_parent env out_pdbqt); simpl; [|done].
  destruct (Vina.mkdir_parent env log_path); simpl; [|done].
  destruct (Vina._run env _); simpl; [|done].
  intros [= <-]. eauto.
Qed.

(** X7: when the docking process exits with code 0, [run_vina] returns
    its record whatever happens to the log: the record names the backend
    and the two paths, and the affinity is [None] when the log cannot be
    read. *)
Theorem run_vina_zero_exit (env : Vina.Env)
    (vina_exe receptor ligand out_pdbqt log_path : string)
    (center size : Vina.xyz) (exhaustiveness num_modes : Z)
    (p : Vina.CompletedProcess) :
  Vina.mkdir_parent env out_pdbqt = Py.Ok tt →
  Vina.mkdir_parent env log_path = Py.Ok tt →
  Vina.subprocess_run env
    (Vina.vina_cmd vina_exe receptor ligand out_pdbqt log_path center size
                   exhaustiveness num_modes) = Py.Ok p →
  Vina.returncode p = 0 →
  ∃ meta : Py.dict,
    Vina.run_vina py_float env vina_exe receptor ligand out_pdbqt log_path
                  center size exhaustiveness num_modes = Py.Ok meta
    ∧ meta !! "backend" = Some (Py.VStr "vina")
    ∧ meta !! "out_pdbqt" = Some (Py.VStr out_pdbqt)
    ∧ meta !! "log" = Some (Py.VStr log_path)
    ∧ is_Some (meta !! "best_affinity_kcal_mol")
    ∧ meta !! "error" = None
    ∧ (∀ e, Vina.read_lines env log_path = Py.Raise e →
            meta !! "best_affinity_kcal_mol" = Some Py.VNone).
Proof.
  intros Ho Hl Hrun Hrc. eexists. split.
  - unfold Vina.run_vina. rewrite Ho, Hl. simpl.
    rewrite (run_returns _ _ _ Hrun Hrc). simpl. reflexivity.
  - split_and!; try reflexivity.
    + eexists. reflexivity.
    + intros e He. rewrite He. reflexivity.
Qed.

Lemma parse_best_cons l rest :
  Vina.parse_best py_float (l :: rest)
  = if Vina.is_first_row l
    then match PyStr.split_ws l with
         | _ :: p1 :: _ =>
             match py_float p1 with
             | Some f => Py.Ok (Some f)
             | None => Py.Raise (Py.ValueError
                                   ("could not convert string to float: " +:+ p1))
             end
         | _ => Vina.parse_best py_float rest
         end
    else Vina.parse_best py_float rest.
Proof. reflexivity. Qed.

(** X8: the affinity comes from the first line of the log that starts
    with "1" (white space aside) and has at least two fields.  The lines
    before it and after it do not count; when its second field is not a
    number the parse stops there with an error, which [run_vina] turns
    into [None], and later lines are not tried.  A log without such a
    line gives [None]. *)
Theorem parse_best_first_row (before after : list string)
    (line p0 p1 : string) (more : list string) :
  Forall (λ l, Vina.is_first_row l = false
               ∨ (List.length (PyStr.split_ws l) < 2)%nat) before →
  Vina.is_first_row line = true →
  PyStr.split_ws line = p0 :: p1 :: more →
  Vina.parse_best py_float (before ++ line :: after)
  = match py_float p1 with
    | Some f => Py.Ok (Some f)
    | None => Py.Raise (Py.ValueError ("could not convert string to float: " +:+ p1))
    end
  ∧ Vina.parse_best py_float before = Py.Ok None.
Proof.
  intros Hbefore Hrow Hsplit.
  induction before as [|l rest IH].
  - split; [|done]. change ([] ++ line :: after) with (line :: after).
    rewrite parse_best_cons, Hrow, Hsplit. by destruct (py_float p1).
  - inversion Hbefore as [|?? Hl Hrest]; subst. specialize (IH Hrest).
    change ((l :: rest) ++ line :: after) with (l :: (rest ++ line :: after)).
    rewrite !parse_best_cons.
    destruct Hl as [Hl | Hl]; [by rewrite Hl|].
    destruct (Vina.is_first_row l); [|exact IH].
    destruct (PyStr.split_ws l) as [|q0 [|q1 qs]]; simpl in Hl;
      [exact IH | exact IH | lia].
Qed.

End VinaSuccess.

(** ** More on [submit_and_wait] *)

Section PollMore.
Import SwissDock.




Lemma poll_S env name session poll_s max_wait_s fuel k tr :
  poll env name session poll_s max_wait_s (S fuel) k tr
  = match checkstatus_text env k session with
    | Py.Ok text =>
        let status := PyStr.strip text in
        let tr' := tr ++ [EvCheckStatus session] in
        if says_success status then (Py.Ok (Some status), tr')
        else if says_failure status
        then (Py.Raise (Py.RuntimeError
                          ("SwissDock job failed (" +:+ name +:+ "): " +:+ status)), tr')
        else if negb (Qle_bool (waited env k) (inject_Z max_wait_s))
        then (Py.Raise (Py.TimeoutError
                          ("SwissDock job timed out (" +:+ name +:+ "), session "
                             +:+ session)), tr')
        else if poll_s <? 0
        then (Py.Raise (Py.ValueError "sleep length must be non-negative"), tr')
        else poll env name session poll_s max_wait_s fuel (S k)
                  (tr' ++ [EvSleep poll_s])
    | Py.Raise e => (Py.Raise e, tr ++ [EvCheckStatus session])
    end.
Proof.
  simpl. unfold checkstatus, bindM, call, ret, raise, sleep, says_success, says_failure.
  destruct (checkstatus_text env k session) as [text|e]; [|done].
  cbv zeta. destruct (_ || _); [done|]. destruct (_ || _); [done|].
  destruct (negb _); [done|]. by destruct (poll_s <? 0).
Qed.

(** What one run of the loop adds to the log, and where a status that
    ends the loop comes from. *)
Lemma poll_log env name session poll_s max_wait_s fuel k tr :
  ∃ add,
    (poll env name session poll_s max_wait_s fuel k tr).2 = tr ++ add
    ∧ quiet add
    ∧ ∀ st, (poll env name session poll_s max_wait_s fuel k tr).1 = Py.Ok (Some st) →
            ∃ k' text, checkstatus_text env k' session = Py.Ok text
                       ∧ st = PyStr.strip text
                       ∧ says_success st = true.
Proof.
  revert k tr; induction fuel as [|fuel IH]; intros k tr.
  - exists []. split_and!; [by rewrite app_nil_r | constructor | done].
  - rewrite poll_S.
    destruct (checkstatus_text env k session) as [text|e] eqn:Htext.
    + cbv zeta. destruct (says_success (PyStr.strip text)) eqn:Hs.
      { exists [EvCheckStatus session]. split_and!; [done | by repeat constructor |].
        intros st [= <-]. by exists k, text. }
      destruct (says_failure (PyStr.strip text)).
      { exists [EvCheckStatus session]. split_and!; [done | by repeat constructor | done]. }
      destruct (negb _).
      { exists [EvCheckStatus session]. split_and!; [done | by repeat constructor | done]. }
      destruct (poll_s <? 0).
      { exists [EvCheckStatus session]. split_and!; [done | by repeat constructor | done]. }
      destruct (IH (S k) ((tr ++ [EvCheckStatus session]) ++ [EvSleep poll_s]))
        as (add & Hadd & Hq & Hst).
      exists ([EvCheckStatus session; EvSleep poll_s] ++ add). split_and!.
      * rewrite Hadd. by rewrite <- !app_assoc.
      * apply Forall_app. split; [by repeat constructor | done].
      * exact Hst.
    + exists [EvCheckStatus session]. split_and!; [done | by repeat constructor | done].
Qed.

(** A run that stops before the loop has logged no download. *)
Ltac stops_quietly :=
  intros [= <- <-]; eexists; split; [|left; reflexivity];
  unfold quiet; simpl; by repeat constructor.

Lemma download_log env fuel name smiles receptor center size workdir obabel
    exhaust poll_s max_wait_s r tr :
  submit_and_wait env fuel name smiles receptor center size workdir
                  obabel exhaust poll_s max_wait_s [] = (r, tr) →
  ∃ pre,
    quiet pre
    ∧ (tr = pre
       ∨ ∃ session out_tgz k text,
           tr = pre ++ [EvRetrieveSession session out_tgz]
           ∧ checkstatus_text env k session = Py.Ok text
           ∧ says_success (PyStr.strip text) = true).
Proof.
  unfold submit_and_wait, smiles_to_mol2_with_obabel, _run, preplig_vina,
    preptarget, setparameters_vina, startdock, retrievesession.
  cbv zeta. unfold bindM at 1. unfold call at 1.
  destruct (mkdir env (Path.to_str (Path.of_str workdir))) as [[]|e];
    cbv beta iota; [|stops_quietly].
  unfold bindM at 1 2 3. unfold call at 1. cbv beta iota.
  destruct (mkdir env (Path.to_str (Path.parent _))) as [[]|e];
    cbv beta iota; [|stops_quietly].
  unfold call at 1.
  destruct (subprocess_run env _) as [p|e]; cbv beta iota; [|stops_quietly].
  destruct (negb _); cbv beta iota; [unfold raise; cbv beta iota; stops_quietly|].
  unfold ret at 1. unfold bindM at 1 2. unfold call at 1.
  destruct (preplig_text env _) as [text|e]; cbv beta iota; [|stops_quietly].
  destruct (_extract_session_number text) as [session|e]; cbv beta iota; [|stops_quietly].
  unfold ret at 1. unfold bindM at 1. unfold call at 1.
  destruct (preptarget_post env session receptor) as [[]|e]; cbv beta iota; [|stops_quietly].
  unfold bindM at 1. unfold call at 1.
  destruct (setparameters_get env session center size exhaust) as [[]|e];
    cbv beta iota; [|stops_quietly].
  unfold bindM at 1. unfold call at 1.
  destruct (startdock_get env session) as [[]|e]; cbv beta iota; [|stops_quietly].
  unfold bindM at 1.
  match goal with |- context [poll env name session poll_s max_wait_s fuel 0 ?t] =>
    set (tr0 := t);
    destruct (poll_log env name session poll_s max_wait_s fuel 0 tr0)
      as (add & Hadd & Hq & Hst)
  end.
  assert (Hq0 : quiet tr0) by (unfold quiet; subst tr0; simpl; by repeat constructor).
  destruct (poll env name session poll_s max_wait_s fuel 0 tr0)
    as [[[st|]|e] tr1] eqn:Hpoll; simpl in Hadd, Hst; subst tr1.
  - destruct (Hst st eq_refl) as (k & text' & Htext & -> & Hs).
    unfold bindM, call, ret.
    destruct (retrievesession_get env session _) as [[]|e]; intros [= <- <-];
      (exists (tr0 ++ add); split; [by apply Forall_app|];
       right; eexists session, _, k, text'; split_and!; [reflexivity | done | done]).
  - intros [= <- <-]. exists (tr0 ++ add). split; [by apply Forall_app | by left].
  - intros [= <- <-]. exists (tr0 ++ add). split; [by apply Forall_app | by left].
Qed.

(** X11: in every run of [submit_and_wait], whatever the service answers
    and wherever the run stops, the archive is requested at most once,
    as the very last call, and only after a status request was answered
    by a text that says "finished" or "done". *)
Theorem download_only_after_success
    (env : Env) (fuel : nat) (name smiles receptor workdir obabel : string)
    (center size : xyz) (exhaust poll_s max_wait_s : Z) :
  ∃ pre,
    quiet pre
    ∧ ((submit_and_wait env fuel name smiles receptor center size workdir
                        obabel exhaust poll_s max_wait_s []).2 = pre
       ∨ ∃ session out_tgz k text,
           (submit_and_wait env fuel name smiles receptor center size workdir
                            obabel exhaust poll_s max_wait_s []).2
           = pre ++ [EvRetrieveSession session out_tgz]
           ∧ checkstatus_text env k session = Py.Ok text
           ∧ says_success (PyStr.strip text) = true).
Proof.
  destruct (submit_and_wait env fuel name smiles receptor center size workdir
                            obabel exhaust poll_s max_wait_s []) as [r tr] eqn:E.
  exact (download_log _ _ _ _ _ _ _ _ _ _ _ _ _ _ E).
Qed.


End PollMore.

(** ** What the loop body keeps of a ligand *)

Section LoopBody.
Import Py Models Build.
Variable py_float : string → option pyfloat.

Lemma keeps_input_refl l : keeps_input l l.
Proof. by repeat split. Qed.

Lemma keeps_input_trans l1 l2 l3 :
  keeps_input l1 l2 → keeps_input l2 l3 → keeps_input l1 l3.
Proof.
  intros (Hn & Ht & Hc & Hb & Hs) (Hn' & Ht' & Hc' & Hb' & Hs').
  repeat split.
  - congruence.
  - congruence.
  - intros H. rewrite Hc', Hc; [done..|]. by rewrite Hc.
  - intros H. rewrite Hb', Hb; [done..|]. by rewrite Hb.
  - intros H. rewrite Hs', Hs; [done..|]. by rewrite Hs.
Qed.

Lemma resolve_cid_keeps env l : keeps_input l (resolve_cid env l).
Proof.
  unfold resolve_cid. destruct (PyStr.nonempty (pubchem_cid l)) eqn:E; simpl.
  - apply keeps_input_refl.
  - repeat split; simpl; try done. congruence.
Qed.

Lemma merge_props_keeps p l : keeps_input l (merge_props p l).
Proof.
  repeat split; simpl; try done.
  intros H. unfold or_ at 2. rewrite H. unfold or_. by rewrite H.
Qed.

Lemma pubchem_stage_keeps env l : keeps_input l (pubchem_stage env l).2.
Proof.
  unfold pubchem_stage. cbv zeta.
  destruct (row_truthy _); [destruct (fetch_props _ _)|]; cbn [snd];
    try apply resolve_cid_keeps.
  eapply keeps_input_trans; [apply resolve_cid_keeps | apply merge_props_keeps].
Qed.

Lemma chembl_stage_keeps cfg env l : keeps_input l (chembl_stage cfg env l).
Proof.
  unfold chembl_stage. destruct (negb (no_chembl cfg)); simpl; [|apply keeps_input_refl].
  destruct (PyStr.nonempty (chembl_id l)) eqn:E; simpl; [apply keeps_input_refl|].
  repeat split; simpl; try done. congruence.
Qed.

Lemma image_stage_keeps cfg env slug l : keeps_input l (image_stage cfg env slug l).2.
Proof.
  unfold image_stage.
  match goal with |- context [match ?d with Ok _ => _ | Raise _ => _ end] =>
    destruct d as [[] |] end; simpl; by repeat split.
Qed.

Lemma rdkit_stage_noop cfg env slug l :
  no_descriptors l → rdkit_stage cfg env slug l = l.
Proof.
  intros Hnd. unfold rdkit_stage. destruct (_ && _); [|done].
  assert (try_except (descriptors_try env l) (λ _, l) = l) as ->.
  { unfold descriptors_try. destruct (compute_descriptors env _); simpl; [|done].
    unfold no_descriptors in Hnd. by rewrite Hnd. }
  by destruct (smiles_to_3d_sdf env _ _).
Qed.

Lemma dock_stage_unselected cfg env slug l :
  dock_mode cfg ∉ ["swissdock"; "vina"] → dock_stage py_float cfg env slug l = l.
Proof. intros H. unfold dock_stage. by rewrite bool_decide_eq_false_2. Qed.

(** The record a Vina attempt leaves when nothing raised. *)
Lemma vina_try_record cfg env slug l rec_pdbqt center size d o :
  vina_try py_float cfg env slug l rec_pdbqt center size = Ok (d, o) →
  d !! "backend" = Some (VStr "vina")
  ∧ d !! "error" = None
  ∧ d !! "pose" = Some (VStr (out_dir_of slug +:+ "/" +:+ slug +:+ "_vina_out.pdbqt"))
  ∧ d !! "log" = Some (VStr (out_dir_of slug +:+ "/" +:+ slug +:+ "_vina.log"))
  ∧ (o = None
     ∨ o = Some {[ "format" := VStr "pdb";
                   "path" := VStr (out_dir_of slug +:+ "/" +:+ slug +:+ "_vina_pose.pdb") ]}).
Proof.
  unfold vina_try.
  destruct (obabel_run env _); simpl; [|done].
  destruct (Vina.run_vina _ _ _ _ _ _ _ _ _ _ _) as [meta|] eqn:Hrun; simpl; [|done].
  apply run_vina_dict in Hrun as [best ->].
  destruct (_pdbqt_to_pdb env _ _); intros [= <- <-];
    (split_and!; [reflexivity.. | auto]).
Qed.

(** What the docking stage can leave on a ligand. *)
Lemma dock_stage_cases cfg env slug l :
  dock_stage py_float cfg env slug l = l ∧ dock_mode cfg ∉ ["swissdock"; "vina"]
  ∨ (∃ msg, dock_mode cfg ∈ ["swissdock"; "vina"]
            ∧ dock_stage py_float cfg env slug l
              = set_docking (Some (error_record (dock_mode cfg) msg)) l)
  ∨ (∃ d o center size,
        dock_mode cfg = "vina"
        ∧ vina_try py_float cfg env slug l (default "" (receptor_pdbqt cfg))
                   center size = Ok (d, o)
        ∧ dock_stage py_float cfg env slug l
              = match o with
                | Some p => set_pose (Some p) (set_docking (Some d) l)
                | None => set_docking (Some d) l
                end).
Proof.
  unfold dock_stage.
  destruct (bool_decide (dock_mode cfg ∈ _)) eqn:Hsel.
  2: { left. apply bool_decide_eq_false in Hsel. by split. }
  apply bool_decide_eq_true in Hsel. right.
  destruct (dock_center cfg) as [center|], (dock_size cfg) as [size|];
    try (left; eexists; split; [exact Hsel | reflexivity]).
  destruct (bool_decide (dock_mode cfg = "swissdock")) eqn:Hsw.
  - apply bool_decide_eq_true in Hsw. left. rewrite Hsw in *.
    destruct (receptor_path cfg); [|by eexists].
    destruct (_ || _); [by eexists|].
    destruct (negb _); [by eexists|].
    rewrite swissdock_try_raises. simpl. by eexists.
  - apply bool_decide_eq_false in Hsw.
    assert (Hv : dock_mode cfg = "vina").
    { apply list_elem_of_In in Hsel. simpl in Hsel.
      destruct Hsel as [H | [H | []]]; congruence. }
    rewrite Hv in *. rewrite bool_decide_eq_true_2 by done.
    destruct (negb (opt_truthy _)); [left; by eexists|].
    destruct (negb (truthy _)); [left; by eexists|].
    simpl. destruct (vina_try _ _ _ _ _ _ _ _) as [[d o]|e] eqn:Htry.
    + right. exists d, o, center, size. split_and!; [done | done | by destruct o].
    + left. by eexists.
Qed.

Lemma dock_stage_keeps cfg env slug l : keeps_input l (dock_stage py_float cfg env slug l).
Proof.
  destruct (dock_stage_cases cfg env slug l)
    as [[-> _] | [(msg & _ & ->) | (d & o & c0 & s0 & _ & _ & ->)]].
  - apply keeps_input_refl.
  - by repeat split.
  - destruct o; by repeat split.
Qed.

Lemma set_attr_no_descriptors k v l :
  k ≠ "descriptors" → no_descriptors l → no_descriptors (set_attr k v l).
Proof. intros Hk Hl. unfold no_descriptors. simpl. by rewrite lookup_insert_ne. Qed.

Lemma pubchem_stage_attrs env l : attrs (pubchem_stage env l).2 = attrs l.
Proof.
  unfold pubchem_stage, resolve_cid.
  destruct (row_truthy _); [destruct (fetch_props _ _)|];
    destruct (negb (PyStr.nonempty _)); reflexivity.
Qed.

Lemma chembl_stage_attrs cfg env l : attrs (chembl_stage cfg env l) = attrs l.
Proof. unfold chembl_stage. by destruct (_ && _). Qed.

Lemma image_stage_no_descriptors cfg env slug l :
  no_descriptors l → no_descriptors (image_stage cfg env slug l).2.
Proof.
  intros Hl. unfold image_stage.
  match goal with |- context [match ?d with Ok _ => _ | Raise _ => _ end] =>
    destruct d as [[] |] end; simpl; try done.
  by apply set_attr_no_descriptors.
Qed.

Lemma dock_stage_attrs cfg env slug l :
  attrs (dock_stage py_float cfg env slug l) = attrs l.
Proof.
  destruct (dock_stage_cases cfg env slug l)
    as [[-> _] | [(msg & _ & ->) | (d & o & c0 & s0 & _ & _ & ->)]]; try done.
  by destruct o.
Qed.

(** The loop body, stage by stage. *)
Lemma process_ligand_unfold cfg env l :
  let slug := _safe_slug (name l) in
  let l0 := set_attr "out_dir" (VStr (out_dir_of slug)) l in
  let l1 := chembl_stage cfg env (pubchem_stage env l0).2 in
  process_ligand py_float cfg env l
  = match mkdir env (lig_dir_of cfg slug) with
    | Raise e => (Raise e, l0)
    | Ok _ =>
        match (pubchem_stage env l0).1 with
        | Raise e => (Raise e, (pubchem_stage env l0).2)
        | Ok _ =>
            match (image_stage cfg env slug l1).1 with
            | Raise e => (Raise e, (image_stage cfg env slug l1).2)
            | Ok _ =>
                (Ok tt, dock_stage py_float cfg env slug
                          (rdkit_stage cfg env slug (image_stage cfg env slug l1).2))
            end
        end
    end.
Proof.
  cbv zeta. unfold process_ligand. destruct (mkdir env _); [|done].
  destruct (pubchem_stage env _) as [[[]|] ?]; [|done]. cbn [fst snd].
  by destruct (image_stage _ _ _ _) as [[[]|] ?].
Qed.

Lemma process_ligand_keeps cfg env l :
  keeps_input l (process_ligand py_float cfg env l).2.
Proof.
  rewrite process_ligand_unfold. cbv zeta.
  set (l0 := set_attr _ _ l).
  assert (H0 : keeps_input l l0) by (by repeat split).
  destruct (mkdir env _); cbn [snd]; [|done].
  assert (Hp : keeps_input l (pubchem_stage env l0).2).
  { eapply keeps_input_trans; [exact H0 | apply pubchem_stage_keeps]. }
  destruct (pubchem_stage env l0).1; cbn [snd]; [|done].
  set (l2 := (image_stage cfg env (_safe_slug (name l))
                (chembl_stage cfg env (pubchem_stage env l0).2)).2).
  assert (H1 : keeps_input l l2).
  { eapply keeps_input_trans; [|apply image_stage_keeps].
    eapply keeps_input_trans; [|apply chembl_stage_keeps]. exact Hp. }
  destruct (image_stage _ _ _ _).1; cbn [snd]; [|done].
  eapply keeps_input_trans; [|apply dock_stage_keeps].
  eapply keeps_input_trans; [exact H1|].
  unfold rdkit_stage. destruct (_ && _); [|apply keeps_input_refl].
  assert (Hd : keeps_input l2 (try_except (descriptors_try env l2) (λ _, l2))).
  { clearbody l2. unfold descriptors_try. unfold descriptors_try.
    destruct (compute_descriptors env _); simpl; [|apply keeps_input_refl].
    destruct (attrs l2 !! "descriptors") as [[| |dd]|]; simpl;
      try apply keeps_input_refl.
    by repeat split. }
  destruct (try_except (_ ← smiles_to_3d_sdf _ _ _; _) _); [|exact Hd].
  eapply keeps_input_trans; [exact Hd | by repeat split].
Qed.

(** X13: whatever the outside world answers, the loop body keeps what
    the input gave for a ligand: its name and notes, and its PubChem
    identifier, ChEMBL identifier and SMILES when they were not empty.
    This holds of the object also when the body raises. *)
Theorem process_ligand_keeps_input cfg env l :
  keeps_input l (process_ligand py_float cfg env l).2.
Proof. apply process_ligand_keeps. Qed.

Lemma image_stage_without_rdkit cfg env slug l l' :
  image_stage cfg env slug l = (Ok tt, l') →
  image_stage (with_rdkit false cfg) env slug l = (Ok tt, l').
Proof.
  unfold image_stage. simpl.
  set (ok := if negb _ && _ then _ else _).
  change (lig_dir_of (with_rdkit false cfg) slug) with (lig_dir_of cfg slug).
  fold ok.
  rewrite andb_false_r.
  destruct (negb ok && truthy (smiles l) && rdkit_ok cfg) eqn:E; [|done].
  destruct (draw_2d_png env _ _ _); simpl; [|done].
  apply andb_true_iff in E as [E _]. apply andb_true_iff in E as [E _].
  apply negb_true_iff in E. by rewrite E.
Qed.

(** X14: for a ligand object without a [descriptors] attribute, which is
    every ligand the build makes, the RDKit stage changes nothing: the
    descriptors are computed and dropped, and the conformer path is
    never stored.  Hence a loop body that returns on a machine with
    RDKit leaves exactly the ligand it leaves without RDKit, and the
    object still has no [descriptors] attribute afterwards. *)
Theorem rdkit_changes_nothing cfg env l :
  no_descriptors l →
  (∀ slug, rdkit_stage cfg env slug l = l)
  ∧ no_descriptors (process_ligand py_float cfg env l).2
  ∧ ∀ l', process_ligand py_float cfg env l = (Ok tt, l') →
          process_ligand py_float (with_rdkit false cfg) env l = (Ok tt, l').
Proof.
  intros Hnd.
  set (slug := _safe_slug (name l)).
  set (l0 := set_attr "out_dir" (VStr (out_dir_of slug)) l).
  set (l1 := chembl_stage cfg env (pubchem_stage env l0).2).
  assert (H0 : no_descriptors l0) by (by apply set_attr_no_descriptors).
  assert (Hp : no_descriptors (pubchem_stage env l0).2).
  { unfold no_descriptors. by rewrite pubchem_stage_attrs. }
  assert (H1 : no_descriptors l1).
  { unfold no_descriptors, l1. by rewrite chembl_stage_attrs, pubchem_stage_attrs. }
  pose proof (image_stage_no_descriptors cfg env slug l1 H1) as H2.
  split_and!.
  - intros s. by apply rdkit_stage_noop.
  - rewrite process_ligand_unfold. cbv zeta. fold slug l0 l1.
    destruct (mkdir env _); cbn [snd]; [|done].
    destruct (pubchem_stage env l0).1; cbn [snd]; [|done].
    destruct (image_stage cfg env slug l1).1; cbn [snd]; [|done].
    rewrite rdkit_stage_noop by done.
    unfold no_descriptors. by rewrite dock_stage_attrs.
  - intros l'. rewrite !process_ligand_unfold. cbv zeta. fold slug l0.
    change (chembl_stage (with_rdkit false cfg) env (pubchem_stage env l0).2) with l1.
    fold l1.
    change (lig_dir_of (with_rdkit false cfg) slug) with (lig_dir_of cfg slug).
    destruct (mkdir env _); [|done].
    destruct (pubchem_stage env l0).1; [|done].
    destruct (image_stage cfg env slug l1) as [[[]|e] l2] eqn:Himg; simpl; [|done].
    rewrite (image_stage_without_rdkit _ _ _ _ _ Himg). simpl.
    simpl in H2. rewrite !rdkit_stage_noop by done. done.
Qed.

(** X15: when a docking backend is selected, the docking stage always
    leaves a record on the ligand and the record names that backend;
    when none is selected the stage leaves the ligand as it is. *)
Theorem docking_record_names_backend cfg env slug l :
  (dock_mode cfg ∈ ["swissdock"; "vina"] →
   ∃ d, docking (dock_stage py_float cfg env slug l) = Some d
        ∧ d !! "backend" = Some (VStr (dock_mode cfg)))
  ∧ (dock_mode cfg ∉ ["swissdock"; "vina"] →
     dock_stage py_float cfg env slug l = l).
Proof.
  split; [|apply dock_stage_unselected].
  intros Hsel.
  destruct (dock_stage_cases cfg env slug l)
    as [[_ Hn] | [(msg & _ & ->) | (d & o & c0 & s0 & Hv & Htry & ->)]]; [done | |].
  - eexists. split; reflexivity.
  - apply vina_try_record in Htry as (Hb & _). rewrite Hv.
    exists d. by destruct o.
Qed.

(** X16: the docking stage sets the pose only together with a successful
    Vina record: either the pose is left as it was, or the backend is
    Vina, the record on the ligand has no ["error"] key and points to
    the docked pose, and the pose is the converted PDB file of the
    ligand's directory. *)
Theorem pose_only_with_vina_success cfg env slug l :
  pose (dock_stage py_float cfg env slug l) = pose l
  ∨ (dock_mode cfg = "vina"
     ∧ pose (dock_stage py_float cfg env slug l)
       = Some {[ "format" := VStr "pdb";
                 "path" := VStr (out_dir_of slug +:+ "/" +:+ slug +:+ "_vina_pose.pdb") ]}
     ∧ ∃ d, docking (dock_stage py_float cfg env slug l) = Some d
            ∧ d !! "backend" = Some (VStr "vina")
            ∧ d !! "error" = None
            ∧ d !! "pose"
              = Some (VStr (out_dir_of slug +:+ "/" +:+ slug +:+ "_vina_out.pdbqt"))).
Proof.
  destruct (dock_stage_cases cfg env slug l)
    as [[-> _] | [(msg & _ & ->) | (d & o & c0 & s0 & Hv & Htry & ->)]]; [by left | by left |].
  apply vina_try_record in Htry as (Hb & He & Hp & _ & [-> | ->]); [by left|].
  right. split_and!; [done | done |]. by exists d.
Qed.

End LoopBody.

(** ** Whole builds *)

Section Builds.
Import Py Models Build.
Variable py_float : string → option pyfloat.

(** A relation the loop body keeps for one ligand holds along the list. *)
Lemma process_all_rel (R : Ligand → Ligand → Prop) cfg envs i ligs :
  (∀ l, R l l) →
  (∀ env l, R l (process_ligand py_float cfg env l).2) →
  Forall2 R ligs (process_all py_float cfg envs i ligs).2.
Proof.
  intros Hrefl Hstep. revert i; induction ligs as [|l rest IH]; intros i; [constructor|].
  simpl. pose proof (Hstep (envs i) l) as Hl.
  destruct (process_ligand _ _ _ l) as [[[]|e] l']; simpl in *.
  - specialize (IH (S i)).
    destruct (process_all _ _ _ _ rest) as [r rest']. simpl in *. by constructor.
  - constructor; [done|]. by apply Forall_Forall2_diag, Forall_forall.
Qed.

(** What the configuration of the loop owes to the arguments. *)
Lemma prelude_config env a defaults ligs shared cfg url cases :
  prelude py_float env a defaults = Ok (ligs, shared, cfg, url, cases) →
  dock_mode cfg
  = PyStr.lower (if PyStr.nonempty (norm_docking a) then norm_docking a else "none")
  ∧ parse_box py_float (norm_center a) = Ok (dock_center cfg)
  ∧ parse_box py_float (norm_size a) = Ok (dock_size cfg)
  ∧ rdkit_ok cfg = have_rdkit env
  ∧ (if opt_truthy (Args.ligands_path a)
     then shared = false
          ∧ ∃ rows, read_rows env (default "" (Args.ligands_path a)) = Ok rows
                    ∧ ligs = Io.read_ligands_csv_tsv rows
     else shared = true ∧ ligs = defaults).
Proof.
  unfold prelude.
  destruct (setup_site env _); simpl; [|done].
  destruct (opt_truthy _).
  - destruct (read_rows env _) as [rows|]; simpl; [|done].
    destruct (place_structure env _ _); simpl; [|done].
    destruct (ingest_recon env _); simpl; [|done].
    destruct (parse_box _ (norm_center a)); simpl; [|done].
    destruct (parse_box _ (norm_size a)); simpl; [|done].
    intros [= <- <- <- _ _]. split_and!; try done. eauto.
  - simpl.
    destruct (place_structure env _ _); simpl; [|done].
    destruct (ingest_recon env _); simpl; [|done].
    destruct (parse_box _ (norm_center a)); simpl; [|done].
    destruct (parse_box _ (norm_size a)); simpl; [|done].
    by intros [= <- <- <- _ _].
Qed.

(** A build is its prelude, its loop and its two writes. *)
Lemma build_site_ok env a defaults site :
  (build_site py_float env a defaults).1 = Ok site →
  ∃ ligs shared cfg url cases,
    prelude py_float env a defaults = Ok (ligs, shared, cfg, url, cases)
    ∧ (process_all py_float cfg (lig_envs env) 0 ligs).1 = Ok tt
    ∧ molecules site = to_dict <$> (process_all py_float cfg (lig_envs env) 0 ligs).2
    ∧ (build_site py_float env a defaults).2
      = if shared then (process_all py_float cfg (lig_envs env) 0 ligs).2 else defaults.
Proof.
  unfold build_site.
  destruct (prelude py_float env a defaults)
    as [[[[[ligs shared] cfg] url] cases]|e]; [|done].
  destruct (process_all py_float cfg (lig_envs env) 0 ligs) as [[[]|e] ligs']
    eqn:Hall; simpl; [|done].
  intros Hw. exists ligs, shared, cfg, url, cases. rewrite Hall.
  split_and!; [done | done | by eapply write_outputs_molecules | done].
Qed.






Lemma pubchem_stage_non_object env l r :
  PyStr.nonempty (pubchem_cid l) = true →
  props_by_cid env (pubchem_cid l) = Ok r →
  row_truthy r = true →
  (∀ p, r ≠ Row p) →
  pubchem_stage env l
  = (Raise (AttributeError
              ("'" +:+ type_name r +:+ "' object has no attribute 'get'")), l).
Proof.
  intros Hcid Hrow Ht Hobj.
  assert (Hres : resolve_cid env l = l) by (unfold resolve_cid; by rewrite Hcid).
  assert (Hfetch : fetch_props env l = r).
  { unfold fetch_props. rewrite Hcid, Hrow. cbn [try_except]. by rewrite Ht. }
  unfold pubchem_stage. cbv zeta. rewrite Hres, Hfetch, Ht.
  destruct r as [p| |]; [by destruct (Hobj p) | done | done].
Qed.

(** X26: a PubChem property row that counts and is not a JSON object
    aborts the loop body.  For a ligand with a PubChem identifier whose
    row is such a value, the body raises the [AttributeError] of the
    first [props.get], which names the type of the value; the ligand has
    got its [out_dir] and nothing else, and no later stage has run. *)
Theorem non_object_row_aborts cfg env l r :
  mkdir env (lig_dir_of cfg (_safe_slug (name l))) = Ok tt →
  PyStr.nonempty (pubchem_cid l) = true →
  props_by_cid env (pubchem_cid l) = Ok r →
  row_truthy r = true →
  (∀ p, r ≠ Row p) →
  process_ligand py_float cfg env l
  = (Raise (AttributeError
              ("'" +:+ type_name r +:+ "' object has no attribute 'get'")),
     set_attr "out_dir" (VStr (out_dir_of (_safe_slug (name l)))) l).
Proof.
  intros Hmk Hcid Hrow Ht Hobj. unfold process_ligand. rewrite Hmk.
  by rewrite (pubchem_stage_non_object env
                (set_attr "out_dir" (VStr (out_dir_of (_safe_slug (name l)))) l)
                r Hcid Hrow Ht Hobj).
Qed.

Lemma read_ligands_filter rows :
  Io.read_ligands_csv_tsv rows
  = Io.ligand_of_row <$> filter (λ row, Io.field row Io.name_aliases ≠ "") rows.
Proof.
  induction rows as [|row rest IH]; [done|].
  simpl. rewrite filter_cons.
  destruct (PyStr.nonempty (Io.field row Io.name_aliases)) eqn:E; simpl.
  - apply PyStrFacts.nonempty_true in E.
    rewrite decide_True by done. rewrite fmap_cons. by f_equal.
  - apply PyStrFacts.nonempty_false in E.
    rewrite decide_False by (by intros ?). done.
Qed.

(** X18: the names in [molecules.json] are the names of the ligand
    file: for a build from a CSV/TSV that returns, the ["name"] entries
    are, in order, the stripped names of the rows whose name is not
    blank. *)
Theorem molecules_carry_the_csv_names env a defaults site rows :
  (build_site py_float env a defaults).1 = Ok site →
  opt_truthy (Args.ligands_path a) = true →
  read_rows env (default "" (Args.ligands_path a)) = Ok rows →
  (λ d : dict, d !! "name") <$> molecules site
  = (λ row, Some (VStr (Io.field row Io.name_aliases)))
      <$> filter (λ row, Io.field row Io.name_aliases ≠ "") rows.
Proof.
  intros (ligs & shared & cfg & url & cases & Hpre & _ & -> & _)%build_site_ok Hpath Hrows.
  apply prelude_config in Hpre as (_ & _ & _ & _ & Hligs).
  rewrite Hpath in Hligs. destruct Hligs as (_ & rows' & Hrows' & ->).
  assert (rows' = rows) as -> by congruence.
  pose proof (process_all_rel keeps_input cfg (lig_envs env) 0
                (Io.read_ligands_csv_tsv rows) keeps_input_refl
                (process_ligand_keeps py_float cfg)) as Hall.
  assert (Hnames : name <$> (process_all py_float cfg (lig_envs env) 0
                               (Io.read_ligands_csv_tsv rows)).2
                   = name <$> Io.read_ligands_csv_tsv rows).
  { induction Hall as [|l l' ls ls' Hl _ IH]; [done|].
    rewrite !fmap_cons. f_equal; [by destruct Hl | exact IH]. }
  rewrite <- list_fmap_compose.
  transitivity ((λ n, Some (VStr n)) <$>
                  (name <$> (process_all py_float cfg (lig_envs env) 0
                               (Io.read_ligands_csv_tsv rows)).2)).
  { rewrite <- list_fmap_compose. apply list_fmap_ext. intros ? l _. unfold compose.
    rewrite to_dict_other by discriminate. reflexivity. }
  rewrite Hnames.
  rewrite read_ligands_filter.
  rewrite <- !list_fmap_compose. apply list_fmap_ext. by intros ? row _.
Qed.

End Builds.

(** ** Docking records across builds *)

Section StaleDocking.
Import Py Models Build.
Variable py_float : string → option pyfloat.

Lemma process_ligand_keeps_docking cfg env l :
  dock_mode cfg ∉ ["swissdock"; "vina"] →
  docking (process_ligand py_float cfg env l).2 = docking l
  ∧ pose (process_ligand py_float cfg env l).2 = pose l.
Proof.
  intros Hsel. rewrite process_ligand_unfold. cbv zeta.
  set (l0 := set_attr _ _ l).
  destruct (mkdir env _); simpl; [|done].
  assert (H0 : docking (pubchem_stage env l0).2 = docking l
               ∧ pose (pubchem_stage env l0).2 = pose l).
  { unfold pubchem_stage, resolve_cid.
    destruct (row_truthy _); [destruct (fetch_props _ _)|];
      destruct (negb (PyStr.nonempty _)); by split. }
  destruct (pubchem_stage env l0).1; cbn [snd]; [|done].
  set (l1 := chembl_stage cfg env (pubchem_stage env l0).2).
  assert (H1 : docking l1 = docking l ∧ pose l1 = pose l).
  { unfold l1, chembl_stage. by destruct (_ && _). }
  set (l2 := (image_stage cfg env (_safe_slug (name l)) l1).2).
  assert (H2 : docking l2 = docking l ∧ pose l2 = pose l).
  { unfold l2, image_stage.
    match goal with |- context [match ?d with Ok _ => _ | Raise _ => _ end] =>
      destruct d as [[] |] end; simpl; done. }
  destruct (image_stage _ _ _ _).1; simpl; [|done].
  rewrite dock_stage_unselected by done.
  unfold rdkit_stage. destruct (_ && _); [|done].
  assert (H3 : docking (try_except (descriptors_try env l2) (λ _, l2)) = docking l
               ∧ pose (try_except (descriptors_try env l2) (λ _, l2)) = pose l).
  { unfold descriptors_try.
    destruct (compute_descriptors env _); simpl; [|done].
    by destruct (attrs l2 !! "descriptors") as [[| |dd]|]. }
  by destruct (try_except (_ ← smiles_to_3d_sdf _ _ _; _) _).
Qed.

(** X19: the default ligands are objects shared by every call of
    [build_site] in a process.  In a build with no ligand file and no
    docking backend that returns, what [molecules.json] holds under
    ["docking"] and ["pose"] is what those objects carried when the call
    started: a record left by an earlier call is serialized again. *)
Theorem stale_docking_is_serialized env a defaults site :
  opt_truthy (Args.ligands_path a) = false →
  PyStr.lower (if PyStr.nonempty (norm_docking a) then norm_docking a else "none")
    ∉ ["swissdock"; "vina"] →
  (build_site py_float env a defaults).1 = Ok site →
  (λ d : dict, d !! "docking") <$> molecules site
  = (λ l, kept (docking l)) <$> defaults
  ∧ (λ d : dict, d !! "pose") <$> molecules site
    = (λ l, kept (pose l)) <$> defaults.
Proof.
  intros Hpath Hmode
    (ligs & shared & cfg & url & cases & Hpre & _ & -> & _)%build_site_ok.
  apply prelude_config in Hpre as (Hdm & _ & _ & _ & Hligs).
  rewrite Hpath in Hligs. destruct Hligs as [_ ->]. rewrite <- Hdm in Hmode.
  pose proof (process_all_rel py_float
                (λ l l', docking l' = docking l ∧ pose l' = pose l)
                cfg (lig_envs env) 0 defaults (λ l, conj eq_refl eq_refl)
                (λ e l, process_ligand_keeps_docking cfg e l Hmode)) as Hall.
  rewrite <- !list_fmap_compose.
  induction Hall as [|l l' ls ls' [Hd Hp] _ [IHd IHp]]; [done|].
  rewrite !fmap_cons. split; f_equal; try done; unfold compose.
  - by rewrite to_dict_docking, Hd.
  - by rewrite to_dict_pose, Hp.
Qed.

End StaleDocking.

(** ** The keys of [to_dict] *)

Lemma asdict_dom l :
  dom (Models.asdict l)
  = list_to_set (Models.plain_fields ++ ["docking"; "pose"]).
Proof. unfold Models.asdict. rewrite dom_list_to_map_L. reflexivity. Qed.

(** X20: the keys of [to_dict] are the fifteen plain fields, always, and
    ["docking"] and ["pose"] exactly when the ligand holds a non-empty
    dictionary there; no attribute set on the object outside the
    dataclass is ever serialized, whatever its name. *)
Theorem to_dict_keys_are_fields (l : Models.Ligand) (k : string) :
  is_Some (Models.to_dict l !! k)
  ↔ k ∈ Models.plain_fields
    ∨ (k = "docking" ∧ ∃ d, Models.docking l = Some d ∧ d ≠ ∅)
    ∨ (k = "pose" ∧ ∃ d, Models.pose l = Some d ∧ d ≠ ∅).
Proof.
  assert (Hkept : ∀ o : option Py.dict,
             is_Some (Models.kept o) ↔ ∃ d, o = Some d ∧ d ≠ ∅).
  { intros [d|]; simpl.
    - destruct (Py.dict_truthy d) eqn:E.
      + apply dict_truthy_nonempty in E. split; [eauto | by eexists].
      + split; [by intros [? ?]|]. intros (d' & [= <-] & Hne).
        apply dict_truthy_nonempty in Hne. congruence.
    - split; [by intros [? ?] | by intros (? & ? & _)]. }
  destruct (decide (k = "docking")) as [-> | Hd].
  { rewrite to_dict_docking, Hkept. split; [by right; left|].
    intros [Hin | [[_ H] | [? _]]]; [|done..].
    apply list_elem_of_In in Hin. simpl in Hin. intuition congruence. }
  destruct (decide (k = "pose")) as [-> | Hp].
  { rewrite to_dict_pose, Hkept. split; [by right; right|].
    intros [Hin | [[? _] | [_ H]]]; [|done..].
    apply list_elem_of_In in Hin. simpl in Hin. intuition congruence. }
  rewrite to_dict_other by done.
  rewrite <- elem_of_dom, asdict_dom, elem_of_list_to_set, elem_of_app.
  split.
  - intros [H | H]; [by left|].
    apply list_elem_of_In in H. simpl in H. intuition congruence.
  - intros [H | [[? _] | [? _]]]; [by left | done | done].
Qed.

(** ** The command line *)

Section CommandLine.
Import Py Models Build.
Variable py_float : string → option pyfloat.

Lemma convert_all_length {A} (f : string → result A) l t :
  Main.convert_all f l = Ok t → List.length t = List.length l.
Proof.
  revert t; induction l as [|x rest IH]; intros t; simpl.
  - by intros [= <-].
  - destruct (f x); simpl; [|done].
    destruct (Main.convert_all f rest) as [r|]; simpl; [|done].
    intros [= <-]. simpl. f_equal. by apply IH.
Qed.

Lemma box_of_given s b :
  PyStr.nonempty s = true → Main.box_of py_float s = Ok b →
  ∃ t, b = BoxTuple t ∧ t ≠ [].
Proof.
  intros Hs. unfold Main.box_of. rewrite Hs.
  destruct (Main.convert_all _ _) as [t|] eqn:E; simpl; [|done].
  intros [= <-]. exists t. split; [done|].
  apply convert_all_length in E. intros ->.
  pose proof (PyStrMore.split_nonempty "," s) as Hne.
  destruct (PyStr.split "," s); [done | simpl in E; lia].
Qed.

Lemma box_of_not_given s b :
  PyStr.nonempty s = false → Main.box_of py_float s = Ok b → b = BoxNone.
Proof. intros Hs. unfold Main.box_of. rewrite Hs. by intros [= <-]. Qed.

Lemma prelude_raises_on_tuple env a defaults t :
  t ≠ [] →
  norm_center a = BoxTuple t ∨ norm_size a = BoxTuple t →
  ∃ e, prelude py_float env a defaults = Raise e.
Proof.
  intros Ht Hbox.
  assert (Hraise : ∀ b, b = BoxTuple t → ∃ e, parse_box py_float b = Raise e).
  { intros b ->. unfold parse_box. simpl.
    rewrite bool_decide_eq_false_2 by done. simpl. eauto. }
  unfold prelude.
  destruct (setup_site env _); simpl; [|eauto].
  destruct (if opt_truthy _ then _ else _) as [[ligs shared]|]; simpl; [|eauto].
  destruct (place_structure env _ _); simpl; [|eauto].
  destruct (ingest_recon env _); simpl; [|eauto].
  destruct Hbox as [Hc | Hs].
  - destruct (Hraise _ Hc) as [e ->]. simpl. eauto.
  - destruct (parse_box py_float (norm_center a)); simpl; [|eauto].
    destruct (Hraise _ Hs) as [e ->]. simpl. eauto.
Qed.

Lemma box_options_always_raise_lemma env args defaults :
  PyStr.nonempty (Main.box_center args) = true
  ∨ PyStr.nonempty (Main.box_size args) = true →
  ∃ e, Main._build_cmd py_float env args defaults = (Raise e, defaults).
Proof.
  intros Hgiven. unfold Main._build_cmd.
  destruct (Main.convert_all Main.int_or_raise _) as [hl|]; simpl; [|eauto].
  destruct (Main.box_of py_float (Main.box_center args)) as [bc|] eqn:Hbc;
    simpl; [|eauto].
  destruct (Main.box_of py_float (Main.box_size args)) as [bs|] eqn:Hbs;
    simpl; [|eauto].
  assert (Hpre : ∃ e, prelude py_float env (Main.build_args args hl bc bs) defaults
                      = Raise e).
  { destruct (PyStr.nonempty (Main.box_center args)) eqn:Ec.
    - destruct (box_of_given _ _ Ec Hbc) as (t & -> & Ht).
      apply (prelude_raises_on_tuple _ _ _ t Ht). left.
      unfold norm_center. simpl. by rewrite bool_decide_eq_false_2.
    - destruct Hgiven as [? | Es]; [done|].
      destruct (box_of_given _ _ Es Hbs) as (t & -> & Ht).
      apply (prelude_raises_on_tuple _ _ _ t Ht). right.
      unfold norm_size. simpl. by rewrite bool_decide_eq_false_2. }
  destruct Hpre as [e Hpre]. unfold build_site. rewrite Hpre. eauto.
Qed.

(** X21: a [build] command given [--box-center] or [--box-size] never
    builds a site.  [_build_cmd] turns the text into a tuple of floats,
    [build_site] hands the tuple to [_parse_xyz], which expects text;
    the call raises before any ligand is touched. *)
Theorem box_options_always_raise env args defaults :
  PyStr.nonempty (Main.box_center args) = true
  ∨ PyStr.nonempty (Main.box_size args) = true →
  ∃ e, Main._build_cmd py_float env args defaults = (Raise e, defaults).
Proof. apply box_options_always_raise_lemma. Qed.

Lemma process_all_docked cfg envs i ligs ligs' :
  process_all py_float cfg envs i ligs = (Ok tt, ligs') →
  Forall (λ l', ∃ env slug l0, l' = dock_stage py_float cfg env slug l0) ligs'.
Proof.
  revert i ligs'; induction ligs as [|l rest IH]; intros i ligs'; simpl.
  - intros [= <-]. constructor.
  - destruct (process_ligand _ _ _ l) as [[[]|e] l'] eqn:Hl; [|done].
    destruct (process_all _ _ _ _ rest) as [r rest'] eqn:Hrest.
    intros [= -> <-]. constructor; [|by eapply IH].
    apply process_ligand_docked in Hl as [l0 ->]. eauto.
Qed.

(** X22: a [build] command with [--docking vina] or [--docking
    swissdock] that returns has docked nothing: every entry of
    [molecules.json] carries the record that says the box was not
    provided. *)
Theorem cli_docking_only_reports_missing_box env args defaults status site :
  Main.docking args ∈ ["vina"; "swissdock"] →
  (Main._build_cmd py_float env args defaults).1 = Ok (status, site) →
  Forall (λ d : dict,
            d !! "docking"
            = Some (VDict (error_record (Main.docking args)
                             "Docking requested but --center/--size not provided")))
         (molecules site).
Proof.
  intros Hmode Hrun.
  destruct (PyStr.nonempty (Main.box_center args)) eqn:Ec.
  { destruct (box_options_always_raise_lemma env args defaults (or_introl Ec)) as [e He].
    rewrite He in Hrun. done. }
  destruct (PyStr.nonempty (Main.box_size args)) eqn:Es.
  { destruct (box_options_always_raise_lemma env args defaults (or_intror Es)) as [e He].
    rewrite He in Hrun. done. }
  revert Hrun. unfold Main._build_cmd.
  destruct (Main.convert_all Main.int_or_raise _) as [hl|]; simpl; [|done].
  destruct (Main.box_of py_float (Main.box_center args)) as [bc|] eqn:Hbc;
    simpl; [|done].
  destruct (Main.box_of py_float (Main.box_size args)) as [bs|] eqn:Hbs;
    simpl; [|done].
  apply box_of_not_given in Hbc as ->; [|done].
  apply box_of_not_given in Hbs as ->; [|done].
  destruct (build_site py_float env _ defaults) as [[site'|e] defaults'] eqn:Hb;
    simpl; [|done].
  intros [= _ <-].
  assert (Hb1 : (build_site py_float env
                   (Main.build_args args hl BoxNone BoxNone) defaults).1 = Ok site')
    by (by rewrite Hb).
  apply build_site_ok in Hb1
    as (ligs & shared & cfg & url & cases & Hpre & Hok & -> & _).
  apply prelude_config in Hpre as (Hdm & Hc & _ & _ & _).
  assert (Hcenter : dock_center cfg = None) by (by injection Hc).
  assert (Hmode' : dock_mode cfg = Main.docking args).
  { rewrite Hdm. unfold norm_docking. simpl.
    apply list_elem_of_In in Hmode. simpl in Hmode.
    destruct Hmode as [<- | [<- | []]]; reflexivity. }
  destruct (process_all py_float cfg (lig_envs env) 0 ligs) as [r ligs'] eqn:Hall.
  simpl in Hok. subst r. simpl.
  apply process_all_docked in Hall.
  apply Forall_fmap. eapply Forall_impl; [exact Hall|].
  intros l' (e & slug & l0 & ->). unfold compose.
  rewrite to_dict_docking, dock_stage_no_box; [|rewrite Hmode' | by left].
  - rewrite Hmode'. reflexivity.
  - apply list_elem_of_In in Hmode. apply list_elem_of_In. simpl in *. tauto.
Qed.

Lemma int_or_raise_error s e :
  Main.int_or_raise s = Raise e → ∃ msg, e = ValueError msg.
Proof.
  unfold Main.int_or_raise. destruct (Main.py_int s); [done|].
  intros [= <-]. eauto.
Qed.

Lemma convert_all_value_error l x :
  x ∈ l → Main.py_int x = None →
  ∃ msg, Main.convert_all Main.int_or_raise l = Raise (ValueError msg).
Proof.
  intros Hx Hint. induction l as [|y rest IH]; [by apply not_elem_of_nil in Hx|].
  change (Main.convert_all Main.int_or_raise (y :: rest))
    with (a ← Main.int_or_raise y;
          r ← Main.convert_all Main.int_or_raise rest; Ok (a :: r)).
  destruct (Main.int_or_raise y) as [z|e] eqn:Ey.
  - apply elem_of_cons in Hx as [-> | Hx].
    + unfold Main.int_or_raise in Ey. by rewrite Hint in Ey.
    + destruct (IH Hx) as [msg ->]. simpl. eauto.
  - apply int_or_raise_error in Ey as [msg ->]. simpl. eauto.
Qed.

(** X23: a [--highlight] list with a non-blank piece that is not an
    integer makes [_build_cmd] raise a [ValueError] before [build_site]
    is called: nothing is built and the default ligands are untouched. *)
Theorem bad_highlight_raises_first env args defaults piece :
  piece ∈ PyStr.split "," (Main.highlight args) →
  PyStr.strip piece ≠ "" →
  Main.py_int piece = None →
  ∃ msg, Main._build_cmd py_float env args defaults = (Raise (ValueError msg), defaults).
Proof.
  intros Hin Hne Hint. unfold Main._build_cmd.
  destruct (convert_all_value_error
              (filter (λ x, PyStr.nonempty (PyStr.strip x) = true)
                      (PyStr.split "," (Main.highlight args))) piece)
    as [msg ->]; [|done|simpl; eauto].
  apply list_elem_of_filter. split; [by apply PyStrFacts.nonempty_true | done].
Qed.

End CommandLine.

(** ** The names of case-snapshot files *)

Lemma endswith_split s suffix :
  Io.endswith s suffix = true → ∃ a, s = a +:+ suffix.
Proof.
  induction s as [|c s IH]; simpl; rewrite orb_true_iff.
  - intros [H | H]; [|done]. apply bool_decide_eq_true in H as <-. by exists "".
  - intros [H | H].
    + apply bool_decide_eq_true in H as <-. by exists "".
    + destruct (IH H) as [a ->]. by exists (String c a).
Qed.

Lemma contains_lower sub s :
  PyStr.contains sub s = true →
  PyStr.contains (PyStr.lower sub) (PyStr.lower s) = true.
Proof.
  rewrite !PyStrFacts.contains_spec. intros (a & b & ->).
  exists (PyStr.lower a), (PyStr.lower b). by rewrite !PyStrMore.lower_app.
Qed.

Lemma contains_part x sub y s :
  PyStr.contains (x +:+ sub +:+ y) s = true → PyStr.contains sub s = true.
Proof.
  rewrite !PyStrFacts.contains_spec. intros (a & b & ->).
  exists (a +:+ x), (y +:+ b). by rewrite !PyStrFacts.app_assoc.
Qed.

(** X24: [find_case_snapshots] keeps a JSON file exactly when its
    lower-cased name contains both "case" and "snapshot"; the two
    [endswith] tests that follow can never add a file.  Every file
    [build_site] ingests from the recon directory (its name contains
    "case_snapshot") is one [find_case_snapshots] keeps. *)
Theorem snapshot_name_tests (file_name : string) :
  Io.snapshot_hit file_name
  = PyStr.contains "case" (PyStr.lower file_name)
    && PyStr.contains "snapshot" (PyStr.lower file_name)
  ∧ (Build.ingests_snapshot file_name = true → Io.snapshot_hit file_name = true).
Proof.
  assert (Hends : ∀ s suffix,
             Io.endswith s suffix = true →
             PyStr.contains "case" suffix = true →
             PyStr.contains "snapshot" suffix = true →
             PyStr.contains "case" s && PyStr.contains "snapshot" s = true).
  { intros s suffix [a ->]%endswith_split Hc Hs.
    apply PyStrFacts.contains_spec in Hc as (x & y & ->).
    apply andb_true_iff. split.
    - apply PyStrFacts.contains_spec. exists (a +:+ x), y.
      by rewrite !PyStrFacts.app_assoc.
    - apply PyStrFacts.contains_spec in Hs as (x' & y' & Hs).
      apply PyStrFacts.contains_spec. exists (a +:+ x'), y'.
      rewrite Hs. by rewrite !PyStrFacts.app_assoc. }
  assert (Hhit : Io.snapshot_hit file_name
                 = PyStr.contains "case" (PyStr.lower file_name)
                   && PyStr.contains "snapshot" (PyStr.lower file_name)).
  { unfold Io.snapshot_hit. cbv zeta.
    destruct (PyStr.contains "case" _ && PyStr.contains "snapshot" _) eqn:E; [done|].
    simpl. apply orb_false_iff. split.
    - destruct (Io.endswith _ "casesnapshot.json") eqn:E1; [|done].
      rewrite (Hends _ _ E1) in E by reflexivity. done.
    - destruct (Io.endswith _ "case_snapshot.json") eqn:E2; [|done].
      rewrite (Hends _ _ E2) in E by reflexivity. done. }
  split; [exact Hhit|].
  unfold Build.ingests_snapshot. intros H%contains_lower. rewrite Hhit.
  apply andb_true_iff. split.
  - apply (contains_part "" "case" "_snapshot"). exact H.
  - apply (contains_part "case_" "snapshot" ""). exact H.
Qed.

(** ** The properties above on the example worlds *)

Lemma vina_cli_site_ok :
  (Main._build_cmd (λ _, None) (Examples.env_offline []) Examples.build_vina
                   Build.DEFAULT_LIGANDS).1
  = Py.Ok (0, Examples.vina_cli_site).
Proof. vm_compute. reflexivity. Qed.

Lemma second_site_ok :
  (Build.build_site (λ _, None) (Examples.env_offline []) Examples.args_plain
                    Examples.defaults_after_vina).1
  = Py.Ok Examples.second_site.
Proof. vm_compute. reflexivity. Qed.

Lemma run_vina_zero_exit_witness :
  ∃ meta : Py.dict,
    Vina.run_vina Examples.float_table Examples.vina_succeeding
                  "vina" "alk.pdbqt" "lig.pdbqt" "out.pdbqt" "vina.log"
                  Examples.box Examples.box 8 9 = Py.Ok meta
    ∧ meta !! "backend" = Some (Py.VStr "vina")
    ∧ meta !! "out_pdbqt" = Some (Py.VStr "out.pdbqt")
    ∧ meta !! "log" = Some (Py.VStr "vina.log")
    ∧ is_Some (meta !! "best_affinity_kcal_mol")
    ∧ meta !! "error" = None
    ∧ (∀ e, Vina.read_lines Examples.vina_succeeding "vina.log" = Py.Raise e →
            meta !! "best_affinity_kcal_mol" = Some Py.VNone).
Proof.
  apply (run_vina_zero_exit Examples.float_table Examples.vina_succeeding
           "vina" "alk.pdbqt" "lig.pdbqt" "out.pdbqt" "vina.log"
           Examples.box Examples.box 8 9 (Vina.mkProc 0 "" ""));
    reflexivity.
Defined.

Lemma parse_best_first_row_witness :
  Vina.parse_best Examples.float_table Examples.vina_log
  = Py.Ok (Some (Py.PyFloat false "-7.5"))
  ∧ Vina.parse_best Examples.float_table (take 2 Examples.vina_log) = Py.Ok None.
Proof.
  apply (parse_best_first_row Examples.float_table
           (take 2 Examples.vina_log)
           ["   2       -7.1      1.201      2.047"]
           "   1       -7.5      0.000      0.000"
           "1" "-7.5" ["0.000"; "0.000"]).
  - repeat constructor.
  - reflexivity.
  - reflexivity.
Defined.




Lemma non_object_row_aborts_witness :
  Build.process_ligand (λ _, None) (Examples.config_without_box "none")
                       Examples.lig_pubchem_array Examples.crizotinib
  = (Py.Raise (Py.AttributeError "'list' object has no attribute 'get'"),
     Models.set_attr "out_dir" (Py.VStr "assets/crizotinib") Examples.crizotinib).
Proof.
  apply (non_object_row_aborts (λ _, None) (Examples.config_without_box "none")
           Examples.lig_pubchem_array Examples.crizotinib (Build.Array 1)).
  - reflexivity.
  - reflexivity.
  - reflexivity.
  - reflexivity.
  - discriminate.
Defined.

Lemma rdkit_changes_nothing_witness :
  (∀ slug,
     Build.rdkit_stage (Build.with_rdkit true (Examples.config_without_box "none"))
                       Examples.lig_rdkit slug Examples.crizotinib
     = Examples.crizotinib)
  ∧ Build.no_descriptors
      (Build.process_ligand (λ _, None)
         (Build.with_rdkit true (Examples.config_without_box "none"))
         Examples.lig_rdkit Examples.crizotinib).2
  ∧ ∀ l',
      Build.process_ligand (λ _, None)
        (Build.with_rdkit true (Examples.config_without_box "none"))
        Examples.lig_rdkit Examples.crizotinib = (Py.Ok tt, l') →
      Build.process_ligand (λ _, None)
        (Build.with_rdkit false
           (Build.with_rdkit true (Examples.config_without_box "none")))
        Examples.lig_rdkit Examples.crizotinib = (Py.Ok tt, l').
Proof.
  apply (rdkit_changes_nothing (λ _, None)
           (Build.with_rdkit true (Examples.config_without_box "none"))
           Examples.lig_rdkit Examples.crizotinib).
  reflexivity.
Defined.


Lemma molecules_carry_the_csv_names_witness :
  (λ d : Py.dict, d !! "name") <$> Build.molecules Examples.built_site
  = [Some (Py.VStr "crizotinib"); Some (Py.VStr "ceritinib")].
Proof.
  apply (molecules_carry_the_csv_names (λ _, None)
           (Examples.env_with (Examples.lig_pubchem Examples.fetched_row)
                              Examples.two_rows)
           Examples.args_max_1 Build.DEFAULT_LIGANDS Examples.built_site
           Examples.two_rows).
  - exact built_site_ok.
  - reflexivity.
  - reflexivity.
Defined.

Lemma stale_docking_is_serialized_witness :
  (λ d : Py.dict, d !! "docking") <$> Build.molecules Examples.second_site
  = (λ l, Models.kept (Models.docking l)) <$> Examples.defaults_after_vina
  ∧ (λ d : Py.dict, d !! "pose") <$> Build.molecules Examples.second_site
    = (λ l, Models.kept (Models.pose l)) <$> Examples.defaults_after_vina.
Proof.
  apply (stale_docking_is_serialized (λ _, None) (Examples.env_offline [])
           Examples.args_plain Examples.defaults_after_vina Examples.second_site).
  - reflexivity.
  - assert (PyStr.lower
              (if PyStr.nonempty (Build.norm_docking Examples.args_plain)
               then Build.norm_docking Examples.args_plain else "none") = "none")
      as -> by reflexivity.
    intros H. apply list_elem_of_In in H. simpl in H.
    destruct H as [H | [H | []]]; discriminate H.
  - exact second_site_ok.
Defined.

Lemma box_options_always_raise_witness :
  ∃ e, Main._build_cmd Examples.float_table (Examples.env_offline [])
                       Examples.build_vina_box Build.DEFAULT_LIGANDS
       = (Py.Raise e, Build.DEFAULT_LIGANDS).
Proof.
  apply (box_options_always_raise Examples.float_table (Examples.env_offline [])
           Examples.build_vina_box Build.DEFAULT_LIGANDS).
  left. reflexivity.
Defined.

Lemma cli_docking_only_reports_missing_box_witness :
  Forall (λ d : Py.dict,
            d !! "docking"
            = Some (Py.VDict (Build.error_record "vina"
                      "Docking requested but --center/--size not provided")))
         (Build.molecules Examples.vina_cli_site).
Proof.
  apply (cli_docking_only_reports_missing_box (λ _, None) (Examples.env_offline [])
           Examples.build_vina Build.DEFAULT_LIGANDS 0 Examples.vina_cli_site).
  - apply list_elem_of_In. simpl. tauto.
  - exact vina_cli_site_ok.
Defined.

Lemma bad_highlight_raises_first_witness :
  ∃ msg, Main._build_cmd (λ _, None) (Examples.env_offline [])
                         Examples.build_bad_highlight Build.DEFAULT_LIGANDS
         = (Py.Raise (Py.ValueError msg), Build.DEFAULT_LIGANDS).
Proof.
  apply (bad_highlight_raises_first (λ _, None) (Examples.env_offline [])
           Examples.build_bad_highlight Build.DEFAULT_LIGANDS "L1196M").
  - apply list_elem_of_In. simpl. tauto.
  - discriminate.
  - reflexivity.
Defined.
